(** * ai-client: the provider normalization layer

    A shallow embedding of the five provider clients of [@gin-quin/ai-client]
    (Claude, OpenAI, Gemini, Groq, Mistral): how each one turns the generic
    [AskParameters] into its provider request, and how each one folds the
    provider's answer back into [string | Error].

    Conventions of the embedding:
    - an optional field ([x?: T], possibly [undefined]) is an [option];
      a field whose value is [undefined] is the same as an absent field,
      since the SDKs drop it when the request is serialized;
    - a JavaScript number is an IEEE-754 double ([spec_float]);
    - a JavaScript string is a [string] whose characters are the code units
      below 256;
    - a promise that rejects, or a call that throws, is [Threw v]; one that
      resolves, or returns, is [Returned a]. *)

From Stdlib Require Import String Ascii List ZArith Bool Lia.
From Stdlib Require Import Floats.SpecFloat.
Import ListNotations.
Local Open Scope string_scope.

(** ** JavaScript values and built-ins used by the clients *)
Module Js.

(** [number]: a double. *)
Definition number : Set := spec_float.

(** ToBoolean of a number: [+0], [-0] and [NaN] are falsy. *)
Definition truthyNumber (n : number) : bool :=
  match n with
  | S754_zero _ | S754_nan => false
  | S754_infinity _ | S754_finite _ _ _ => true
  end.

(** [n === 0], true of both zeros. *)
Definition isZero (n : number) : bool :=
  match n with
  | S754_zero _ => true
  | _ => false
  end.

(** ToBoolean of a string: only the empty string is falsy. *)
Definition truthyString (s : string) : bool := negb (s =? "").

(** ToBoolean of an optional value whose defined inhabitants are judged by [t]. *)
Definition truthy {A : Type} (t : A -> bool) (o : option A) : bool :=
  match o with
  | Some a => t a
  | None => false
  end.

(** [a ?? b]. *)
Definition nullish {A : Type} (a b : option A) : option A :=
  match a with
  | Some _ => a
  | None => b
  end.

(** [a ?? b] with a default that is always defined. *)
Definition nullishOr {A : Type} (a : option A) (b : A) : A :=
  match a with
  | Some x => x
  | None => b
  end.

(** The line feed, ["\n"]. *)
Definition nl : string := String (ascii_of_nat 10) EmptyString.

(** [value.startsWith(p)]. *)
Definition startsWith (value p : string) : bool := String.prefix p value.

(** The string without its first [n] code units. *)
Fixpoint dropStr (n : nat) (s : string) : string :=
  match n, s with
  | O, _ => s
  | S _, EmptyString => EmptyString
  | S k, String _ r => dropStr k r
  end.

(** [value.slice(start)]: a negative [start] counts from the end. *)
Definition slice (value : string) (start : Z) : string :=
  let len := Z.of_nat (String.length value) in
  let from := if (start <? 0)%Z then Z.max (len + start) 0 else Z.min start len in
  dropStr (Z.to_nat from) value.

(** [value.lastIndexOf(needle)]: the greatest index at which [needle]
    occurs, [-1] when there is none. *)
Fixpoint lastIndexOf (value needle : string) : Z :=
  match value with
  | EmptyString => if needle =? "" then 0%Z else (-1)%Z
  | String _ r =>
      let later := lastIndexOf r needle in
      if (0 <=? later)%Z then (later + 1)%Z
      else if String.prefix needle value then 0%Z else (-1)%Z
  end.

(** WhiteSpace and LineTerminator code units below 256: TAB, LF, VT, FF, CR,
    SP and NBSP. *)
Definition isWhiteSpace (c : ascii) : bool :=
  let n := nat_of_ascii c in
  ((9 <=? n) && (n <=? 13) || (n =? 32) || (n =? 160))%nat.

(** [value.trimStart()]. *)
Fixpoint trimStart (value : string) : string :=
  match value with
  | EmptyString => EmptyString
  | String c r => if isWhiteSpace c then trimStart r else value
  end.

(** [value.trimEnd()]. *)
Fixpoint trimEnd (value : string) : string :=
  match value with
  | EmptyString => EmptyString
  | String c r =>
      let r' := trimEnd r in
      if isWhiteSpace c && (r' =? "") then EmptyString else String c r'
  end.

(** [value.trim()]. *)
Definition trim (value : string) : string := trimEnd (trimStart value).

(** [list.includes(x)] on an array of strings. *)
Definition includes (l : list string) (x : string) : bool :=
  existsb (String.eqb x) l.

(** An [Error] object (or an object of a subclass). *)
Record Error : Set := mkError { name : string; message : string }.

(** [new Error(message)]. *)
Definition newError (msg : string) : Error :=
  {| name := "Error"; message := msg |}.

(** What a [throw] can carry, and so what a [catch (error)] receives (its
    type is [unknown]): any value. The clients look at a caught value in
    two ways only, [error instanceof Error] and [String(error)], so a value
    is one of
    - the primitives whose conversion to a string is a fixed text;
    - an [Error] object;
    - any other value whose conversion succeeds (a number, a bigint, a
      symbol, a plain object, an array, a function), given with the text
      that [String] makes of it: [42] is [VOther "42"], [{}] is
      [VOther "[object Object]"];
    - a value whose conversion itself throws (an object without [toString]
      and [valueOf], such as [Object.create(null)], or one whose [toString]
      throws), given with what the conversion throws. *)
Inductive value : Set :=
| VUndefined
| VNull
| VBool (b : bool)
| VString (s : string)
| VError (e : Error)
| VOther (text : string)
| VUnprintable (raised : value).

(** A possibly-[null], possibly-[undefined] value. *)
Inductive nullable (A : Type) : Type :=
| Null
| Undefined
| Defined (a : A).
Arguments Null {A}.
Arguments Undefined {A}.
Arguments Defined {A} a.

(** The result of running code that may throw (or of awaiting a promise
    that may reject). *)
Inductive outcome (A : Type) : Type :=
| Returned (a : A)
| Threw (v : value).
Arguments Returned {A} a.
Arguments Threw {A} v.

Definition bind {A B : Type} (m : outcome A) (k : A -> outcome B) : outcome B :=
  match m with
  | Returned a => k a
  | Threw v => Threw v
  end.

(** [try { body } catch (error) { handler(error) }]. *)
Definition tryCatch {A : Type} (body : outcome A) (handler : value -> outcome A)
  : outcome A :=
  match body with
  | Returned a => Returned a
  | Threw v => handler v
  end.

(** [String(v)], which runs the value's own conversion and throws what
    that conversion throws. *)
Definition toString (v : value) : outcome string :=
  match v with
  | VUndefined => Returned "undefined"
  | VNull => Returned "null"
  | VBool true => Returned "true"
  | VBool false => Returned "false"
  | VString s => Returned s
  | VError e =>
      Returned (if name e =? "" then message e
                else if message e =? "" then name e
                else name e ++ ": " ++ message e)
  | VOther text => Returned text
  | VUnprintable raised => Threw raised
  end.

End Js.

Notation "x <- m ;; k" := (Js.bind m (fun x => k))
  (at level 61, m at next level, right associativity).

(** ** The generic request (index.ts) *)

(** [Message["role"]]. *)
Inductive Role : Set := System | User | Assistant | Tool | Function.

Definition Role_eqb (a b : Role) : bool :=
  match a, b with
  | System, System | User, User | Assistant, Assistant
  | Tool, Tool | Function, Function => true
  | _, _ => false
  end.

(** [interface Message]. *)
Record Message : Set := mkMessage { role : Role; content : string }.

(** [type Thinking]. *)
Inductive Thinking : Set := Off | Low | Medium | High.

(** [interface AskParameters]. *)
Module AskParameters.
Record t : Set := mk {
  messages : option (list Message);
  temperature : option Js.number;
  maxTokens : option Js.number;
  topP : option Js.number;
  topK : option Js.number;
  presencePenalty : option Js.number;
  frequencyPenalty : option Js.number;
  instructions : option string;
  thinking : option Thinking;
  user : option string
}.

(** [{ ...askParameters, messages: [...(askParameters.messages ?? []),
    { role: "user", content: input }] }], the first step of every [ask],
    [askJson] and [stream]. *)
Definition withInput (p : t) (input : string) : t :=
  {| messages :=
       Some (Js.nullishOr (messages p) [] ++ [mkMessage User input])%list;
     temperature := temperature p;
     maxTokens := maxTokens p;
     topP := topP p;
     topK := topK p;
     presencePenalty := presencePenalty p;
     frequencyPenalty := frequencyPenalty p;
     instructions := instructions p;
     thinking := thinking p;
     user := user p |}.

(** [{}], the default of the optional [askParameters] argument. *)
Definition empty : t :=
  mk None None None None None None None None None None.
End AskParameters.

(** [interface AiClientCommonParameters], together with the [model] every
    provider adds to it. *)
Module ClientParameters.
Record t (Model : Set) : Set := mk {
  model : Model;
  apiKey : string;
  baseUrl : option string;
  instructions : option string;
  thinking : option Thinking
}.
Arguments mk {Model}.
Arguments model {Model}.
Arguments apiKey {Model}.
Arguments baseUrl {Model}.
Arguments instructions {Model}.
Arguments thinking {Model}.
End ClientParameters.

(** [string | Error] and [InferOutput<Schema> | Error]. *)
Inductive orError (A : Type) : Type :=
| Value (a : A)
| Failure (e : Js.Error).
Arguments Value {A} a.
Arguments Failure {A} e.

(** ** handleError.ts

    [error instanceof Error ? error : new Error(String(error))]: the
    conversion [String(error)] runs inside [handleError], so what it throws
    is thrown by [handleError]. *)
Definition handleError (error : Js.value) : Js.outcome Js.Error :=
  match error with
  | Js.VError e => Js.Returned e
  | _ => text <- Js.toString error ;; Js.Returned (Js.newError text)
  end.

(** [catch (error) { return handleError(error); }], the handler of every
    [ask] and [askJson]: nothing encloses it, so when [handleError] throws
    the method throws. *)
Definition returnError {A : Type} (error : Js.value) : Js.outcome (orError A) :=
  e <- handleError error ;; Js.Returned (Failure e).

(** What [throw handleError(error)] throws, the handler of every [stream]:
    the error [handleError] returns, or what [handleError] throws. *)
Definition rethrow (error : Js.value) : Js.value :=
  match handleError error with
  | Js.Returned e => Js.VError e
  | Js.Threw raised => raised
  end.

(** ** Collaborators

    The schema library (valibot, [toJsonSchema]) and the JSON built-ins are
    called by the clients and not implemented by them; each of them may
    throw. *)
Record Collaborators : Type := {
  Schema : Type;
  JsonSchema : Type;
  Json : Type;
  (** [toJsonSchema(schema)] *)
  toJsonSchema : Schema -> Js.outcome JsonSchema;
  (** [JSON.stringify(jsonSchema, null, 2)] *)
  stringify : JsonSchema -> string;
  (** [JSON.parse(text)] *)
  JSON_parse : string -> Js.outcome Json;
  (** valibot's [parse(schema, value)] *)
  parse : Schema -> Json -> Js.outcome Json
}.

(** What a provider SDK hands back for a streaming call: the chunks it
    delivers, in arrival order, and the value with which the iteration
    rejects after the last of them, if it does. *)
Record EventStream (Chunk : Type) : Type := mkEventStream {
  chunks : list Chunk;
  failure : option Js.value
}.
Arguments mkEventStream {Chunk}.
Arguments chunks {Chunk}.
Arguments failure {Chunk}.

(** A complete iteration of the [AsyncGenerator<string>] returned by
    [stream]: the fragments yielded, then either normal completion or the
    value thrown into the consumer's [for await]. *)
Record Iteration : Set := mkIteration {
  yielded : list string;
  thrown : option Js.value
}.

(** The body shared by the five [stream] generators:
    [try { const stream = await open; for await (const chunk of stream)
    { ...yield... } } catch (error) { throw handleError(error); }],
    where [pick chunk] lists what the loop body yields for one chunk. *)
Definition iterate {Chunk : Type} (open : Js.outcome (EventStream Chunk))
    (pick : Chunk -> list string) : Iteration :=
  match open with
  | Js.Threw error => {| yielded := []; thrown := Some (rethrow error) |}
  | Js.Returned stream =>
      {| yielded := flat_map pick (chunks stream);
         thrown := option_map rethrow (failure stream) |}
  end.

(** [interface AiClient]. *)
Module AiClient.
Record t (C : Collaborators) : Type := mk {
  ask : string -> AskParameters.t -> Js.outcome (orError string);
  askJson : string -> AskParameters.t -> Schema C -> Js.outcome (orError (Json C));
  stream : string -> AskParameters.t -> Iteration
}.
Arguments mk {C}.
Arguments ask {C}.
Arguments askJson {C}.
Arguments stream {C}.
End AiClient.

(** [messages.some((msg) => msg.role === "system")]. *)
Definition isSystem (msg : Message) : bool := Role_eqb (role msg) System.
Definition hasSystemMessage (messages : list Message) : bool :=
  existsb isSystem messages.

(** [array.findIndex(p)], with [None] for [-1]. *)
Fixpoint findIndex {A : Type} (p : A -> bool) (l : list A) : option nat :=
  match l with
  | [] => None
  | x :: r => if p x then Some O else option_map S (findIndex p r)
  end.

(** [array.filter((_, index) => index !== i)]. *)
Fixpoint removeIndex {A : Type} (i : nat) (l : list A) : list A :=
  match l, i with
  | [], _ => []
  | _ :: r, O => r
  | x :: r, S j => x :: removeIndex j r
  end.

(** A chat completion of the OpenAI and Groq SDKs, and equally one chunk of
    their streams: each choice is kept as its [message?.content] (for a
    chunk, its [delta?.content]). *)
Record ChatCompletion : Set := mkChatCompletion {
  choices : list (Js.nullable string)
}.

(** [completion.choices[0]?.message?.content]. *)
Definition firstContent (completion : ChatCompletion) : Js.nullable string :=
  match choices completion with
  | [] => Js.Undefined
  | c :: _ => c
  end.

(** ToBoolean of a [string | null | undefined]. *)
Definition truthyContent (c : Js.nullable string) : bool :=
  match c with
  | Js.Defined s => Js.truthyString s
  | _ => false
  end.

(** [content || ""]. *)
Definition orEmpty (c : Js.nullable string) : string :=
  match c with
  | Js.Defined s => if Js.truthyString s then s else ""
  | _ => ""
  end.

(** ** claude.ts *)
Module Claude.

(** The return value of [prepareMessages]. *)
Module Prepared.
Record t : Set := mk { system : option string; messages : list Message }.
End Prepared.

Definition mapRole (msg : Message) : Message :=
  match role msg with
  | Function | Tool | System => {| role := User; content := content msg |}
  | _ => {| role := role msg; content := content msg |}
  end.

Definition prepareMessages (messages : list Message)
    (systemPrompt : option string) : Prepared.t :=
  let systemIndex := findIndex isSystem messages in
  let '(systemMessage, preparedMessages) :=
    match systemIndex with
    | Some i => (option_map content (nth_error messages i), removeIndex i messages)
    | None =>
        if Js.truthy Js.truthyString systemPrompt
        then (systemPrompt, messages)
        else (None, messages)
    end in
  {| Prepared.system := systemMessage;
     Prepared.messages := map mapRole preparedMessages |}.

(** [MessageCreateParams], with the fields that [askJson] adds. *)
Module Request.
Record t (C : Collaborators) : Type := mk {
  model : string;
  system : option string;
  messages : list Message;
  temperature : option Js.number;
  max_tokens : Js.number;
  top_p : option Js.number;
  top_k : option Js.number;
  (** the [input_schema] of the one tool [json_response], when declared *)
  tools : option (JsonSchema C);
  (** [tool_choice: { type: "tool", name: "json_response" }], when set *)
  tool_choice : option string;
  stream : bool
}.
Arguments mk {C}.
Arguments model {C}.
Arguments system {C}.
Arguments messages {C}.
Arguments temperature {C}.
Arguments max_tokens {C}.
Arguments top_p {C}.
Arguments top_k {C}.
Arguments tools {C}.
Arguments tool_choice {C}.
Arguments stream {C}.
End Request.

(** The number 4096. *)
Definition defaultMaxTokens : Js.number := S754_finite false 4096 0.

Definition createBaseCompletionParams {C : Collaborators}
    (clientParameters : ClientParameters.t string)
    (askParameters : AskParameters.t) : Request.t C :=
  let prepared :=
    prepareMessages
      (Js.nullishOr (AskParameters.messages askParameters) [])
      (Js.nullish (AskParameters.instructions askParameters)
                  (ClientParameters.instructions clientParameters)) in
  {| Request.model := ClientParameters.model clientParameters;
     Request.system := Prepared.system prepared;
     Request.messages := Prepared.messages prepared;
     Request.temperature := AskParameters.temperature askParameters;
     Request.max_tokens :=
       Js.nullishOr (AskParameters.maxTokens askParameters) defaultMaxTokens;
     Request.top_p :=
       match AskParameters.temperature askParameters with
       | Some _ => None
       | None => AskParameters.topP askParameters
       end;
     Request.top_k := AskParameters.topK askParameters;
     Request.tools := None;
     Request.tool_choice := None;
     Request.stream := false |}.

(** A block of [completion.content]. *)
Inductive ContentBlock (C : Collaborators) : Type :=
| TextBlock (text : string)
| ToolUseBlock (input : Json C)
| OtherBlock.
Arguments TextBlock {C} text.
Arguments ToolUseBlock {C} input.
Arguments OtherBlock {C}.

(** A non-streaming [Message] response: [content] may be missing. *)
Record Completion (C : Collaborators) : Type := mkCompletion {
  completionContent : option (list (ContentBlock C))
}.
Arguments mkCompletion {C}.
Arguments completionContent {C}.

(** [completion.content?.[0]]. *)
Definition firstBlock {C : Collaborators} (completion : Completion C)
  : option (ContentBlock C) :=
  match completionContent completion with
  | Some (block :: _) => Some block
  | _ => None
  end.

(** A streaming event: only a [content_block_delta] whose delta is a
    [text_delta] carries text. *)
Inductive StreamEvent : Set :=
| ContentBlockDelta (delta : option string)
| OtherEvent.

(** [{ ...base, stream }]. *)
Definition withStream {C : Collaborators} (base : Request.t C) (stream : bool)
  : Request.t C :=
  {| Request.model := Request.model base;
     Request.system := Request.system base;
     Request.messages := Request.messages base;
     Request.temperature := Request.temperature base;
     Request.max_tokens := Request.max_tokens base;
     Request.top_p := Request.top_p base;
     Request.top_k := Request.top_k base;
     Request.tools := Request.tools base;
     Request.tool_choice := Request.tool_choice base;
     Request.stream := stream |}.

(** The request of [askJson]:
    [{ ...base, system, messages, tools: [{ name: "json_response", ...,
    input_schema }], tool_choice: { type: "tool", name: "json_response" },
    stream: false }]. *)
Definition jsonRequest {C : Collaborators} (base : Request.t C)
    (prepared : Prepared.t) (input_schema : JsonSchema C) : Request.t C :=
  {| Request.model := Request.model base;
     Request.system := Prepared.system prepared;
     Request.messages := Prepared.messages prepared;
     Request.temperature := Request.temperature base;
     Request.max_tokens := Request.max_tokens base;
     Request.top_p := Request.top_p base;
     Request.top_k := Request.top_k base;
     Request.tools := Some input_schema;
     Request.tool_choice := Some "json_response";
     Request.stream := false |}.

Section Client.
Context {C : Collaborators}.
(** [client.messages.create] without and with [stream: true]. *)
Variable create : Request.t C -> Js.outcome (Completion C).
Variable createStream : Request.t C -> Js.outcome (EventStream StreamEvent).
Variable clientParameters : ClientParameters.t string.

Definition ask (input : string) (askParameters : AskParameters.t)
  : Js.outcome (orError string) :=
  Js.tryCatch
    (let updatedParameters := AskParameters.withInput askParameters input in
     completion <-
       create (withStream
                 (createBaseCompletionParams clientParameters updatedParameters)
                 false) ;;
     match firstBlock completion with
     | Some (TextBlock text) => Js.Returned (Value text)
     | _ => Js.Returned (Value "")
     end)
    returnError.

Definition askJson (input : string) (askParameters : AskParameters.t)
    (schema : Schema C) : Js.outcome (orError (Json C)) :=
  Js.tryCatch
    (let updatedParameters := AskParameters.withInput askParameters input in
     let prepared :=
       prepareMessages
         (Js.nullishOr (AskParameters.messages updatedParameters) [])
         (Js.nullish (AskParameters.instructions updatedParameters)
                     (ClientParameters.instructions clientParameters)) in
     let base : Request.t C :=
       createBaseCompletionParams clientParameters updatedParameters in
     input_schema <- toJsonSchema C schema ;;
     completion <- create (jsonRequest base prepared input_schema) ;;
     match firstBlock completion with
     | Some (ToolUseBlock input) =>
         output <- parse C schema input ;;
         Js.Returned (Value output)
     | _ => Js.Returned (Failure (Js.newError "No tool use response received"))
     end)
    returnError.

Definition stream (input : string) (askParameters : AskParameters.t)
  : Iteration :=
  iterate
    (let updatedParameters := AskParameters.withInput askParameters input in
     createStream (withStream
                     (createBaseCompletionParams clientParameters updatedParameters)
                     true))
    (fun chunk =>
       match chunk with
       | ContentBlockDelta (Some text) => [text]
       | _ => []
       end).

Definition createClaudeClient : AiClient.t C :=
  {| AiClient.ask := ask; AiClient.askJson := askJson; AiClient.stream := stream |}.
End Client.

End Claude.

(** ** OpenAIClient.ts *)
Module OpenAi.

Definition openAiModels : list string :=
  ["gpt-4.1"; "gpt-4.1-mini"; "gpt-4.1-nano"; "gpt-5"; "gpt-5-mini";
   "gpt-5-nano"; "o3"; "o3-mini"; "o4-mini"].

Definition modelsWithTemperatureRestrictions : list string :=
  ["gpt-5"; "gpt-5-mini"; "gpt-5-nano"; "o3"; "o3-mini"; "o4-mini"].

Definition thinkingModels : list string :=
  ["gpt-5"; "gpt-5-mini"; "gpt-5-nano"; "o3"; "o3-mini"; "o4-mini"].

Definition mapRole (msg : Message) : Message :=
  match role msg with
  | Function | Tool => {| role := User; content := content msg |}
  | _ => {| role := role msg; content := content msg |}
  end.

Definition prepareMessages (messages : list Message)
    (systemPrompt : option string) : list Message :=
  let preparedMessages :=
    match systemPrompt with
    | Some prompt =>
        if Js.truthyString prompt && negb (hasSystemMessage messages)
        then {| role := System; content := prompt |} :: messages
        else messages
    | None => messages
    end in
  map mapRole preparedMessages.

(** [ChatCompletionCreateParams], with the fields that the three methods
    add. *)
Module Request.
Record t (C : Collaborators) : Type := mk {
  model : string;
  messages : list Message;
  reasoning_effort : option Thinking;
  temperature : option Js.number;
  max_completion_tokens : option Js.number;
  top_p : option Js.number;
  presence_penalty : option Js.number;
  frequency_penalty : option Js.number;
  user : option string;
  stream : bool;
  (** the schema of [response_format: { type: "json_schema", ... }] *)
  response_format : option (JsonSchema C)
}.
Arguments mk {C}.
Arguments model {C}.
Arguments messages {C}.
Arguments reasoning_effort {C}.
Arguments temperature {C}.
Arguments max_completion_tokens {C}.
Arguments top_p {C}.
Arguments presence_penalty {C}.
Arguments frequency_penalty {C}.
Arguments user {C}.
Arguments stream {C}.
Arguments response_format {C}.
End Request.

Definition createBaseCompletionParams {C : Collaborators}
    (clientParameters : ClientParameters.t string)
    (askParameters : AskParameters.t) : Request.t C :=
  let model := ClientParameters.model clientParameters in
  let hasTemperatureRestriction :=
    Js.includes modelsWithTemperatureRestrictions model in
  let isThinkingModel := Js.includes thinkingModels model in
  let reasoningEffort :=
    Js.nullish (AskParameters.thinking askParameters)
               (ClientParameters.thinking clientParameters) in
  {| Request.model := model;
     Request.messages :=
       prepareMessages
         (Js.nullishOr (AskParameters.messages askParameters) [])
         (Js.nullish (AskParameters.instructions askParameters)
                     (ClientParameters.instructions clientParameters));
     Request.reasoning_effort :=
       if negb isThinkingModel then None
       else match reasoningEffort with
            | Some Off => Some Low
            | _ => reasoningEffort
            end;
     Request.temperature :=
       if hasTemperatureRestriction then None
       else AskParameters.temperature askParameters;
     Request.max_completion_tokens := AskParameters.maxTokens askParameters;
     Request.top_p :=
       if hasTemperatureRestriction then None
       else match AskParameters.temperature askParameters with
            | Some _ => None
            | None => AskParameters.topP askParameters
            end;
     Request.presence_penalty :=
       if hasTemperatureRestriction then None
       else AskParameters.presencePenalty askParameters;
     Request.frequency_penalty :=
       if hasTemperatureRestriction then None
       else AskParameters.frequencyPenalty askParameters;
     Request.user := AskParameters.user askParameters;
     Request.stream := false;
     Request.response_format := None |}.

(** [{ ...base, stream, response_format }]. *)
Definition extend {C : Collaborators} (base : Request.t C) (stream : bool)
    (response_format : option (JsonSchema C)) : Request.t C :=
  {| Request.model := Request.model base;
     Request.messages := Request.messages base;
     Request.reasoning_effort := Request.reasoning_effort base;
     Request.temperature := Request.temperature base;
     Request.max_completion_tokens := Request.max_completion_tokens base;
     Request.top_p := Request.top_p base;
     Request.presence_penalty := Request.presence_penalty base;
     Request.frequency_penalty := Request.frequency_penalty base;
     Request.user := Request.user base;
     Request.stream := stream;
     Request.response_format := response_format |}.

Section Client.
Context {C : Collaborators}.
(** [client.chat.completions.create] without and with [stream: true]. *)
Variable create : Request.t C -> Js.outcome ChatCompletion.
Variable createStream : Request.t C -> Js.outcome (EventStream ChatCompletion).
Variable clientParameters : ClientParameters.t string.

Definition ask (input : string) (askParameters : AskParameters.t)
  : Js.outcome (orError string) :=
  Js.tryCatch
    (let updatedParameters := AskParameters.withInput askParameters input in
     completion <-
       create (extend (createBaseCompletionParams clientParameters updatedParameters)
                      false None) ;;
     let content := firstContent completion in
     Js.Returned (Value (orEmpty content)))
    returnError.

Definition askJson (input : string) (askParameters : AskParameters.t)
    (schema : Schema C) : Js.outcome (orError (Json C)) :=
  Js.tryCatch
    (let updatedParameters := AskParameters.withInput askParameters input in
     let base : Request.t C :=
       createBaseCompletionParams clientParameters updatedParameters in
     jsonSchema <- toJsonSchema C schema ;;
     completion <- create (extend base false (Some jsonSchema)) ;;
     let content := firstContent completion in
     if negb (truthyContent content)
     then Js.Returned (Failure (Js.newError "No response content received"))
     else
       json <- JSON_parse C (orEmpty content) ;;
       output <- parse C schema json ;;
       Js.Returned (Value output))
    returnError.

Definition stream (input : string) (askParameters : AskParameters.t)
  : Iteration :=
  iterate
    (let updatedParameters := AskParameters.withInput askParameters input in
     createStream
       (extend (createBaseCompletionParams clientParameters updatedParameters)
               true None))
    (fun chunk =>
       let content := firstContent chunk in
       if truthyContent content then [orEmpty content] else []).

Definition createOpenAiClient : AiClient.t C :=
  {| AiClient.ask := ask; AiClient.askJson := askJson; AiClient.stream := stream |}.
End Client.

End OpenAi.

(** ** GroqClient.ts *)
Module Groq.

(** [type GroqModel], one constructor per entry of [groqModels]. *)
Inductive GroqModel : Set :=
| llama_3_3_70b_versatile
| llama_3_1_8b_instant
| openai_gpt_oss_20b
| openai_gpt_oss_120b
| moonshotai_kimi_k2_instruct
| meta_llama_llama_4_maverick_17b_128e_instruct
| meta_llama_llama_4_scout_17b_16e_instruct
| deepseek_r1_distill_llama_70b
| qwen_qwen3_32b.

(** The model identifier sent to the provider. *)
Definition modelName (model : GroqModel) : string :=
  match model with
  | llama_3_3_70b_versatile => "llama-3.3-70b-versatile"
  | llama_3_1_8b_instant => "llama-3.1-8b-instant"
  | openai_gpt_oss_20b => "openai/gpt-oss-20b"
  | openai_gpt_oss_120b => "openai/gpt-oss-120b"
  | moonshotai_kimi_k2_instruct => "moonshotai/kimi-k2-instruct"
  | meta_llama_llama_4_maverick_17b_128e_instruct =>
      "meta-llama/llama-4-maverick-17b-128e-instruct"
  | meta_llama_llama_4_scout_17b_16e_instruct =>
      "meta-llama/llama-4-scout-17b-16e-instruct"
  | deepseek_r1_distill_llama_70b => "deepseek-r1-distill-llama-70b"
  | qwen_qwen3_32b => "qwen/qwen3-32b"
  end.

Definition groqModels : list GroqModel :=
  [llama_3_3_70b_versatile; llama_3_1_8b_instant; openai_gpt_oss_20b;
   openai_gpt_oss_120b; moonshotai_kimi_k2_instruct;
   meta_llama_llama_4_maverick_17b_128e_instruct;
   meta_llama_llama_4_scout_17b_16e_instruct;
   deepseek_r1_distill_llama_70b; qwen_qwen3_32b].

Definition modelsSupportingStructuredOutputs : list string :=
  ["openai/gpt-oss-20b"; "openai/gpt-oss-120b"; "moonshotai/kimi-k2-instruct";
   "meta-llama/llama-4-maverick-17b-128e-instruct";
   "meta-llama/llama-4-scout-17b-16e-instruct"].

(** The values of [reasoning_effort] that the table below produces. *)
Inductive ReasoningEffort : Set :=
| EffortLow | EffortMedium | EffortHigh | EffortNone | EffortDefault.

(** [value == "off" ? "low" : value]. *)
Definition offAsLow (value : Thinking) : ReasoningEffort :=
  match value with
  | Off => EffortLow
  | Low => EffortLow
  | Medium => EffortMedium
  | High => EffortHigh
  end.

Definition getReasoningEffortByModel (model : GroqModel) (value : Thinking)
  : option ReasoningEffort :=
  match model with
  | llama_3_3_70b_versatile => None
  | llama_3_1_8b_instant => None
  | openai_gpt_oss_20b => Some (offAsLow value)
  | openai_gpt_oss_120b => Some (offAsLow value)
  | moonshotai_kimi_k2_instruct => None
  | meta_llama_llama_4_maverick_17b_128e_instruct => None
  | meta_llama_llama_4_scout_17b_16e_instruct => None
  | deepseek_r1_distill_llama_70b => None
  | qwen_qwen3_32b =>
      match value with Off => Some EffortNone | _ => Some EffortDefault end
  end.

(** [(msg) => msg.role === "system"
      ? { ...msg, content: `${msg.content}\n\n${systemPrompt}` } : msg]. *)
Definition appendToSystem (systemPrompt : string) (msg : Message) : Message :=
  match role msg with
  | System =>
      {| role := role msg;
         content := content msg ++ Js.nl ++ Js.nl ++ systemPrompt |}
  | _ => msg
  end.

(** The first half of [prepareMessages]: the system prompt is put in front,
    or appended to every system message already there. *)
Definition withSystemPrompt (messages : option (list Message))
    (systemPrompt : option string) : option (list Message) :=
  match systemPrompt with
  | Some prompt =>
      if Js.truthyString prompt then
        let hasSystemMessage := option_map hasSystemMessage messages in
        if negb (Js.truthy (fun b : bool => b) hasSystemMessage)
        then Some ({| role := System; content := prompt |}
                   :: Js.nullishOr messages [])
        else option_map (map (appendToSystem prompt)) messages
      else messages
  | None => messages
  end.

Definition mapRole (msg : Message) : Message :=
  match role msg with
  | Function | Tool => {| role := User; content := content msg |}
  | _ => {| role := role msg; content := content msg |}
  end.

Definition prepareMessages (askParameters : AskParameters.t)
    (systemPrompt : option string) : list Message :=
  let messages := AskParameters.messages askParameters in
  let preparedMessages := withSystemPrompt messages systemPrompt in
  Js.nullishOr (option_map (map mapRole) preparedMessages) [].

(** [response_format] of [askJson]. *)
Inductive ResponseFormat (C : Collaborators) : Type :=
| JsonSchemaFormat (schema : JsonSchema C)
| JsonObjectFormat.
Arguments JsonSchemaFormat {C} schema.
Arguments JsonObjectFormat {C}.

Module Request.
Record t (C : Collaborators) : Type := mk {
  model : GroqModel;
  messages : list Message;
  temperature : option Js.number;
  max_tokens : option Js.number;
  top_p : option Js.number;
  presence_penalty : option Js.number;
  frequency_penalty : option Js.number;
  user : option string;
  reasoning_effort : option ReasoningEffort;
  include_reasoning : option bool;
  stream : bool;
  response_format : option (ResponseFormat C)
}.
Arguments mk {C}.
Arguments model {C}.
Arguments messages {C}.
Arguments temperature {C}.
Arguments max_tokens {C}.
Arguments top_p {C}.
Arguments presence_penalty {C}.
Arguments frequency_penalty {C}.
Arguments user {C}.
Arguments reasoning_effort {C}.
Arguments include_reasoning {C}.
Arguments stream {C}.
Arguments response_format {C}.
End Request.

Definition createBaseCompletionParams {C : Collaborators}
    (clientParameters : ClientParameters.t GroqModel)
    (askParameters : AskParameters.t) : Request.t C :=
  let instructions :=
    Js.nullish (AskParameters.instructions askParameters)
               (ClientParameters.instructions clientParameters) in
  let model := ClientParameters.model clientParameters in
  let thinking :=
    Js.nullish (AskParameters.thinking askParameters)
               (ClientParameters.thinking clientParameters) in
  let reasoningEffort :=
    match thinking with
    | Some level => getReasoningEffortByModel model level
    | None => None
    end in
  {| Request.model := model;
     Request.messages := prepareMessages askParameters instructions;
     Request.temperature := AskParameters.temperature askParameters;
     Request.max_tokens := AskParameters.maxTokens askParameters;
     Request.top_p :=
       if Js.truthy Js.truthyNumber (AskParameters.temperature askParameters)
       then None
       else AskParameters.topP askParameters;
     Request.presence_penalty := AskParameters.presencePenalty askParameters;
     Request.frequency_penalty := AskParameters.frequencyPenalty askParameters;
     Request.user := AskParameters.user askParameters;
     Request.reasoning_effort := reasoningEffort;
     Request.include_reasoning :=
       match reasoningEffort with
       | Some _ => Some false
       | None => None
       end;
     Request.stream := false;
     Request.response_format := None |}.

(** [{ ...base, messages }]. *)
Definition withMessages {C : Collaborators} (base : Request.t C)
    (messages : list Message) : Request.t C :=
  {| Request.model := Request.model base;
     Request.messages := messages;
     Request.temperature := Request.temperature base;
     Request.max_tokens := Request.max_tokens base;
     Request.top_p := Request.top_p base;
     Request.presence_penalty := Request.presence_penalty base;
     Request.frequency_penalty := Request.frequency_penalty base;
     Request.user := Request.user base;
     Request.reasoning_effort := Request.reasoning_effort base;
     Request.include_reasoning := Request.include_reasoning base;
     Request.stream := Request.stream base;
     Request.response_format := Request.response_format base |}.

(** [{ ...base, stream, response_format }]. *)
Definition extend {C : Collaborators} (base : Request.t C) (stream : bool)
    (response_format : option (ResponseFormat C)) : Request.t C :=
  {| Request.model := Request.model base;
     Request.messages := Request.messages base;
     Request.temperature := Request.temperature base;
     Request.max_tokens := Request.max_tokens base;
     Request.top_p := Request.top_p base;
     Request.presence_penalty := Request.presence_penalty base;
     Request.frequency_penalty := Request.frequency_penalty base;
     Request.user := Request.user base;
     Request.reasoning_effort := Request.reasoning_effort base;
     Request.include_reasoning := Request.include_reasoning base;
     Request.stream := stream;
     Request.response_format := response_format |}.

Definition stripThinking (value : Js.nullable string) : Js.nullable string :=
  match value with
  | Js.Defined text =>
      if Js.startsWith text "<think>" then
        let stopThinkingAt :=
          (Js.lastIndexOf text "</think>"
           + Z.of_nat (String.length "</think>"))%Z in
        Js.Defined (Js.trimStart (Js.slice text stopThinkingAt))
      else value
  | _ => value
  end.

Section Client.
Context {C : Collaborators}.
(** [client.chat.completions.create] without and with [stream: true]. *)
Variable create : Request.t C -> Js.outcome ChatCompletion.
Variable createStream : Request.t C -> Js.outcome (EventStream ChatCompletion).
Variable clientParameters : ClientParameters.t GroqModel.

Definition ask (input : string) (askParameters : AskParameters.t)
  : Js.outcome (orError string) :=
  Js.tryCatch
    (let updatedParameters := AskParameters.withInput askParameters input in
     completion <-
       create (extend (createBaseCompletionParams clientParameters updatedParameters)
                      false None) ;;
     let content := stripThinking (firstContent completion) in
     Js.Returned (Value (orEmpty content)))
    returnError.

Definition askJson (input : string) (askParameters : AskParameters.t)
    (schema : Schema C) : Js.outcome (orError (Json C)) :=
  Js.tryCatch
    (let updatedParameters := AskParameters.withInput askParameters input in
     let model := ClientParameters.model clientParameters in
     let supportsStructuredOutputs :=
       Js.includes modelsSupportingStructuredOutputs (modelName model) in
     jsonSchema <- toJsonSchema C schema ;;
     let responseFormat :=
       if supportsStructuredOutputs then JsonSchemaFormat jsonSchema
       else JsonObjectFormat in
     let baseParams : Request.t C :=
       createBaseCompletionParams clientParameters updatedParameters in
     let baseParams :=
       if negb supportsStructuredOutputs then
         let jsonInstructions :=
           "Answer with JSON only. Follow this exact schema:"
           ++ Js.nl ++ Js.nl ++ stringify C jsonSchema in
         let instructions :=
           Js.nullish (AskParameters.instructions updatedParameters)
                      (ClientParameters.instructions clientParameters) in
         let combinedInstructions :=
           match instructions with
           | Some text =>
               if Js.truthyString text
               then text ++ Js.nl ++ Js.nl ++ jsonInstructions
               else jsonInstructions
           | None => jsonInstructions
           end in
         withMessages baseParams
           (prepareMessages updatedParameters (Some combinedInstructions))
       else baseParams in
     completion <- create (extend baseParams false (Some responseFormat)) ;;
     let content := stripThinking (firstContent completion) in
     if negb (truthyContent content)
     then Js.Returned (Failure (Js.newError "No response content received"))
     else
       json <- JSON_parse C (orEmpty content) ;;
       output <- parse C schema json ;;
       Js.Returned (Value output))
    returnError.

Definition stream (input : string) (askParameters : AskParameters.t)
  : Iteration :=
  iterate
    (let updatedParameters := AskParameters.withInput askParameters input in
     createStream
       (extend (createBaseCompletionParams clientParameters updatedParameters)
               true None))
    (fun chunk =>
       let content := firstContent chunk in
       if truthyContent content then [orEmpty content] else []).

Definition createGroqClient : AiClient.t C :=
  {| AiClient.ask := ask; AiClient.askJson := askJson; AiClient.stream := stream |}.
End Client.

End Groq.

(** ** GeminiClient.ts *)
Module Gemini.

Definition geminiModels : list string :=
  ["gemini-2.5-pro"; "gemini-2.5-flash"; "gemini-2.5-flash-lite"].

Definition thinkingOnlyModels : list string := ["gemini-2.5-pro"].

(** One entry of [contents]: [{ role, parts: [{ text }] }], each part kept
    as its text. *)
Module Content.
Record t : Set := mk { role : string; parts : list string }.
End Content.

Definition prepareMessages (messages : list Message) : list Content.t :=
  map (fun msg =>
         let role' :=
           match role msg with
           | Assistant => "model"
           | _ => "user"
           end in
         match role msg with
         | Function | Tool =>
             {| Content.role := "user"; Content.parts := [content msg] |}
         | _ => {| Content.role := role'; Content.parts := [content msg] |}
         end)
      (filter (fun msg => negb (isSystem msg)) messages).

Definition extractSystemPrompt (messages : list Message)
    (systemPrompt : option string) : option string :=
  if Js.truthy Js.truthyString systemPrompt then systemPrompt
  else option_map content (find isSystem messages).

(** A non-negative integer as a number. *)
Definition ofN (n : N) : Js.number :=
  match n with
  | N0 => S754_zero false
  | Npos p => S754_finite false p 0
  end.

Definition thinkingBudgetTokens (level : Thinking) : Js.number :=
  match level with
  | Off => ofN 0
  | Low => ofN 512
  | Medium => ofN 2048
  | High => ofN 24576
  end.

(** [thinkingConfig]. *)
Record ThinkingConfig : Set := mkThinkingConfig {
  includeThoughts : bool;
  thinkingBudget : Js.number
}.

(** [GenerateContentConfig], with the two fields that [askJson] adds. *)
Module Config.
Record t (C : Collaborators) : Type := mk {
  temperature : option Js.number;
  maxOutputTokens : option Js.number;
  topP : option Js.number;
  topK : option Js.number;
  thinkingConfig : option ThinkingConfig;
  systemInstruction : option string;
  responseMimeType : option string;
  responseJsonSchema : option (JsonSchema C)
}.
Arguments mk {C}.
Arguments temperature {C}.
Arguments maxOutputTokens {C}.
Arguments topP {C}.
Arguments topK {C}.
Arguments thinkingConfig {C}.
Arguments systemInstruction {C}.
Arguments responseMimeType {C}.
Arguments responseJsonSchema {C}.
End Config.

Definition createGenerationConfig {C : Collaborators}
    (clientParameters : ClientParameters.t string)
    (askParameters : AskParameters.t) : Config.t C :=
  let model := ClientParameters.model clientParameters in
  let reasoningEffort :=
    Js.nullish (AskParameters.thinking askParameters)
               (ClientParameters.thinking clientParameters) in
  let reasoningEffort :=
    match reasoningEffort with
    | Some Off =>
        if Js.includes thinkingOnlyModels model then Some Low else reasoningEffort
    | _ => reasoningEffort
    end in
  let systemInstruction :=
    extractSystemPrompt
      (Js.nullishOr (AskParameters.messages askParameters) [])
      (Js.nullish (AskParameters.instructions askParameters)
                  (ClientParameters.instructions clientParameters)) in
  {| Config.temperature := AskParameters.temperature askParameters;
     Config.maxOutputTokens := AskParameters.maxTokens askParameters;
     Config.topP :=
       match AskParameters.topP askParameters,
             AskParameters.temperature askParameters with
       | Some p, None => Some p
       | _, _ => None
       end;
     Config.topK := AskParameters.topK askParameters;
     Config.thinkingConfig :=
       match reasoningEffort with
       | Some level =>
           Some {| includeThoughts := false;
                   thinkingBudget := thinkingBudgetTokens level |}
       | None => None
       end;
     Config.systemInstruction :=
       if Js.truthy Js.truthyString systemInstruction
       then systemInstruction else None;
     Config.responseMimeType := None;
     Config.responseJsonSchema := None |}.

(** [GenerateContentParameters]. *)
Module Request.
Record t (C : Collaborators) : Type := mk {
  model : string;
  contents : list Content.t;
  config : Config.t C
}.
Arguments mk {C}.
Arguments model {C}.
Arguments contents {C}.
Arguments config {C}.
End Request.

(** [{ ...config, responseMimeType: "application/json", responseJsonSchema }]. *)
Definition withJsonResponse {C : Collaborators} (config : Config.t C)
    (jsonSchema : JsonSchema C) : Config.t C :=
  {| Config.temperature := Config.temperature config;
     Config.maxOutputTokens := Config.maxOutputTokens config;
     Config.topP := Config.topP config;
     Config.topK := Config.topK config;
     Config.thinkingConfig := Config.thinkingConfig config;
     Config.systemInstruction := Config.systemInstruction config;
     Config.responseMimeType := Some "application/json";
     Config.responseJsonSchema := Some jsonSchema |}.

(** A response, and equally one chunk of a stream, kept as its [text]. *)
Record Response : Set := mkResponse { text : option string }.

Section Client.
Context {C : Collaborators}.
(** [genAI.models.generateContent] and [genAI.models.generateContentStream]. *)
Variable generateContent : Request.t C -> Js.outcome Response.
Variable generateContentStream : Request.t C -> Js.outcome (EventStream Response).
Variable clientParameters : ClientParameters.t string.

Definition ask (input : string) (askParameters : AskParameters.t)
  : Js.outcome (orError string) :=
  Js.tryCatch
    (let updatedParameters := AskParameters.withInput askParameters input in
     let contents :=
       prepareMessages
         (Js.nullishOr (AskParameters.messages updatedParameters) []) in
     let params :=
       {| Request.model := ClientParameters.model clientParameters;
          Request.contents := contents;
          Request.config :=
            createGenerationConfig clientParameters updatedParameters |} in
     response <- generateContent params ;;
     Js.Returned
       (Value (Js.trim (if Js.truthy Js.truthyString (text response)
                        then Js.nullishOr (text response) ""
                        else ""))))
    returnError.

Definition askJson (input : string) (askParameters : AskParameters.t)
    (schema : Schema C) : Js.outcome (orError (Json C)) :=
  Js.tryCatch
    (let updatedParameters := AskParameters.withInput askParameters input in
     let contents :=
       prepareMessages
         (Js.nullishOr (AskParameters.messages updatedParameters) []) in
     jsonSchema <- toJsonSchema C schema ;;
     let params :=
       {| Request.model := ClientParameters.model clientParameters;
          Request.contents := contents;
          Request.config :=
            withJsonResponse
              (createGenerationConfig clientParameters updatedParameters)
              jsonSchema |} in
     response <- generateContent params ;;
     let content := text response in
     if negb (Js.truthy Js.truthyString content)
     then Js.Returned (Failure (Js.newError "No response content received"))
     else
       let jsonContent := Js.trim (Js.nullishOr content "") in
       json <- JSON_parse C jsonContent ;;
       output <- parse C schema json ;;
       Js.Returned (Value output))
    returnError.

Definition stream (input : string) (askParameters : AskParameters.t)
  : Iteration :=
  iterate
    (let updatedParameters := AskParameters.withInput askParameters input in
     let contents :=
       prepareMessages
         (Js.nullishOr (AskParameters.messages updatedParameters) []) in
     generateContentStream
       {| Request.model := ClientParameters.model clientParameters;
          Request.contents := contents;
          Request.config :=
            createGenerationConfig clientParameters updatedParameters |})
    (fun chunk =>
       match text chunk with
       | Some fragment => [fragment]
       | None => []
       end).

Definition createGeminiClient : AiClient.t C :=
  {| AiClient.ask := ask; AiClient.askJson := askJson; AiClient.stream := stream |}.
End Client.

End Gemini.

(** ** mistral.ts *)
Module Mistral.

Definition mistralModels : list string :=
  ["magistral-medium-latest"; "magistral-small-latest";
   "mistral-medium-latest"; "mistral-large-latest"; "ministral-3b-latest";
   "ministral-8b-latest"; "open-mistral-nemo"; "mistral-small-latest";
   "devstral-small-latest"; "devstral-medium-latest"; "mistral-saba-latest"].

Definition mapRole (msg : Message) : Message :=
  match role msg with
  | Function => {| role := Tool; content := content msg |}
  | _ => {| role := role msg; content := content msg |}
  end.

Definition prepareMessages (messages : list Message)
    (systemPrompt : option string) : list Message :=
  let preparedMessages :=
    match systemPrompt with
    | Some prompt =>
        if Js.truthyString prompt && negb (hasSystemMessage messages)
        then {| role := System; content := prompt |} :: messages
        else messages
    | None => messages
    end in
  map mapRole preparedMessages.

(** The argument of [client.chat.complete] and [client.chat.stream]. *)
Module Request.
Record t : Set := mk {
  model : string;
  messages : list Message;
  temperature : option Js.number;
  maxTokens : option Js.number;
  topP : option Js.number;
  (** [responseFormat: { type: "json_object" }], when set *)
  responseFormat : option string
}.
End Request.

(** The request that [ask], [askJson] and [stream] each spell out:
    [updatedParameters] carries the messages and the instructions,
    [askParameters] the sampling fields. *)
Definition chatRequest (clientParameters : ClientParameters.t string)
    (askParameters updatedParameters : AskParameters.t)
    (responseFormat : option string) : Request.t :=
  let temperature := AskParameters.temperature askParameters in
  let topP :=
    match temperature with
    | Some t => if Js.isZero t then None else AskParameters.topP askParameters
    | None => AskParameters.topP askParameters
    end in
  {| Request.model := ClientParameters.model clientParameters;
     Request.messages :=
       prepareMessages
         (Js.nullishOr (AskParameters.messages updatedParameters) [])
         (Js.nullish (AskParameters.instructions updatedParameters)
                     (ClientParameters.instructions clientParameters));
     Request.temperature := temperature;
     Request.maxTokens := AskParameters.maxTokens askParameters;
     Request.topP := topP;
     Request.responseFormat := responseFormat |}.

(** [chunk.text || ""] on one entry of a [ContentChunk[]]: an entry is kept
    as its [text], [None] when it has none. *)
Definition chunkText (chunk : option string) : string :=
  if Js.truthy Js.truthyString chunk then Js.nullishOr chunk "" else "".

(** [choices?.[0]?.message?.content]: a string, an array of chunks, or
    neither. *)
Inductive MessageContent : Set :=
| ContentString (s : string)
| ContentChunks (chunks : list (option string))
| ContentAbsent.

(** An entry of a streamed [ContentChunk[]]: only an object with a [text]
    key is yielded. *)
Inductive DeltaChunk : Set :=
| WithText (text : option string)
| WithoutText.

(** [chunk.data?.choices?.[0]?.delta?.content]. *)
Inductive DeltaContent : Set :=
| DeltaString (s : string)
| DeltaChunks (chunks : list DeltaChunk)
| DeltaAbsent.

(** [content.map((chunk) => chunk.text || "").join("")]. *)
Definition joinChunks (chunks : list (option string)) : string :=
  String.concat "" (map chunkText chunks).

Section Client.
Context {C : Collaborators}.
(** [client.chat.complete] and [client.chat.stream], the result of the
    former kept as its first choice's content. *)
Variable complete : Request.t -> Js.outcome MessageContent.
Variable chatStream : Request.t -> Js.outcome (EventStream DeltaContent).
Variable clientParameters : ClientParameters.t string.

Definition ask (input : string) (askParameters : AskParameters.t)
  : Js.outcome (orError string) :=
  Js.tryCatch
    (let updatedParameters := AskParameters.withInput askParameters input in
     result <-
       complete (chatRequest clientParameters askParameters updatedParameters None) ;;
     match result with
     | ContentString s => Js.Returned (Value s)
     | ContentChunks chunks => Js.Returned (Value (joinChunks chunks))
     | ContentAbsent => Js.Returned (Value "")
     end)
    returnError.

Definition askJson (input : string) (askParameters : AskParameters.t)
    (schema : Schema C) : Js.outcome (orError (Json C)) :=
  Js.tryCatch
    (jsonSchema <- toJsonSchema C schema ;;
     let promptWithSchema :=
       input ++ Js.nl ++ Js.nl
       ++ "You must respond with valid JSON that matches this schema:" ++ Js.nl
       ++ stringify C jsonSchema ++ Js.nl ++ Js.nl
       ++ "Respond ONLY with the JSON object, no additional text or markdown formatting." in
     let updatedParameters :=
       AskParameters.withInput askParameters promptWithSchema in
     result <-
       complete (chatRequest clientParameters askParameters updatedParameters
                             (Some "json_object")) ;;
     let noContent :=
       Js.Returned (Failure (Js.newError "No response content received")) in
     let withContent (contentStr : string) :=
       if negb (Js.truthyString contentStr) then noContent
       else
         json <- JSON_parse C contentStr ;;
         output <- parse C schema json ;;
         Js.Returned (Value output) in
     match result with
     | ContentString s => withContent s
     | ContentChunks chunks => withContent (joinChunks chunks)
     | ContentAbsent => noContent
     end)
    returnError.

Definition stream (input : string) (askParameters : AskParameters.t)
  : Iteration :=
  iterate
    (let updatedParameters := AskParameters.withInput askParameters input in
     chatStream (chatRequest clientParameters askParameters updatedParameters None))
    (fun chunk =>
       match chunk with
       | DeltaString s => [s]
       | DeltaChunks chunks =>
           flat_map (fun contentChunk =>
                       match contentChunk with
                       | WithText t => [chunkText t]
                       | WithoutText => []
                       end)
                    chunks
       | DeltaAbsent => []
       end).

Definition createMistralClient : AiClient.t C :=
  {| AiClient.ask := ask; AiClient.askJson := askJson; AiClient.stream := stream |}.
End Client.

End Mistral.

(** ** index.ts *)

(** [type AiClientParameters], a union tagged by [provider]. *)
Inductive AiClientParameters : Set :=
| OpenAiProvider (parameters : ClientParameters.t string)
| GoogleProvider (parameters : ClientParameters.t string)
| GroqProvider (parameters : ClientParameters.t Groq.GroqModel)
| ClaudeProvider (parameters : ClientParameters.t string)
| MistralProvider (parameters : ClientParameters.t string).

(** The provider SDKs: what [new OpenAI(...)], [new GoogleGenAI(...)],
    [new Groq(...)], [new Anthropic(...)] and [new Mistral(...)] answer,
    call by call, for the client built from given parameters. *)
Record Sdks (C : Collaborators) : Type := mkSdks {
  openaiCreate :
    ClientParameters.t string -> OpenAi.Request.t C -> Js.outcome ChatCompletion;
  openaiStream :
    ClientParameters.t string -> OpenAi.Request.t C
    -> Js.outcome (EventStream ChatCompletion);
  googleGenerate :
    ClientParameters.t string -> Gemini.Request.t C -> Js.outcome Gemini.Response;
  googleStream :
    ClientParameters.t string -> Gemini.Request.t C
    -> Js.outcome (EventStream Gemini.Response);
  groqCreate :
    ClientParameters.t Groq.GroqModel -> Groq.Request.t C
    -> Js.outcome ChatCompletion;
  groqStream :
    ClientParameters.t Groq.GroqModel -> Groq.Request.t C
    -> Js.outcome (EventStream ChatCompletion);
  anthropicCreate :
    ClientParameters.t string -> Claude.Request.t C
    -> Js.outcome (Claude.Completion C);
  anthropicStream :
    ClientParameters.t string -> Claude.Request.t C
    -> Js.outcome (EventStream Claude.StreamEvent);
  mistralComplete :
    ClientParameters.t string -> Mistral.Request.t
    -> Js.outcome Mistral.MessageContent;
  mistralStream :
    ClientParameters.t string -> Mistral.Request.t
    -> Js.outcome (EventStream Mistral.DeltaContent)
}.
Arguments openaiCreate {C}.
Arguments openaiStream {C}.
Arguments googleGenerate {C}.
Arguments googleStream {C}.
Arguments groqCreate {C}.
Arguments groqStream {C}.
Arguments anthropicCreate {C}.
Arguments anthropicStream {C}.
Arguments mistralComplete {C}.
Arguments mistralStream {C}.

Definition createAiClient {C : Collaborators} (sdks : Sdks C)
    (parameters : AiClientParameters) : AiClient.t C :=
  match parameters with
  | OpenAiProvider p =>
      OpenAi.createOpenAiClient (openaiCreate sdks p) (openaiStream sdks p) p
  | GoogleProvider p =>
      Gemini.createGeminiClient (googleGenerate sdks p) (googleStream sdks p) p
  | GroqProvider p =>
      Groq.createGroqClient (groqCreate sdks p) (groqStream sdks p) p
  | ClaudeProvider p =>
      Claude.createClaudeClient (anthropicCreate sdks p) (anthropicStream sdks p) p
  | MistralProvider p =>
      Mistral.createMistralClient (mistralComplete sdks p) (mistralStream sdks p) p
  end.

(** ** Vocabulary of the properties *)

(** The provider call of [ask] and [askJson] rejects with [v], whatever the
    request. *)
Definition callRejects {C : Collaborators} (sdks : Sdks C)
    (parameters : AiClientParameters) (v : Js.value) : Prop :=
  match parameters with
  | OpenAiProvider p => forall request, openaiCreate sdks p request = Js.Threw v
  | GoogleProvider p => forall request, googleGenerate sdks p request = Js.Threw v
  | GroqProvider p => forall request, groqCreate sdks p request = Js.Threw v
  | ClaudeProvider p => forall request, anthropicCreate sdks p request = Js.Threw v
  | MistralProvider p => forall request, mistralComplete sdks p request = Js.Threw v
  end.

(** A streaming call fails with [v]: it rejects before any chunk, or the
    iteration rejects after the chunks delivered. *)
Definition breaksWith {Chunk : Type} (v : Js.value)
    (opened : Js.outcome (EventStream Chunk)) : Prop :=
  match opened with
  | Js.Threw w => w = v
  | Js.Returned s => failure s = Some v
  end.

(** The provider call of [stream] fails with [v], whatever the request. *)
Definition streamBreaks {C : Collaborators} (sdks : Sdks C)
    (parameters : AiClientParameters) (v : Js.value) : Prop :=
  match parameters with
  | OpenAiProvider p => forall request, breaksWith v (openaiStream sdks p request)
  | GoogleProvider p => forall request, breaksWith v (googleStream sdks p request)
  | GroqProvider p => forall request, breaksWith v (groqStream sdks p request)
  | ClaudeProvider p => forall request, breaksWith v (anthropicStream sdks p request)
  | MistralProvider p => forall request, breaksWith v (mistralStream sdks p request)
  end.

(** A Claude completion without text: no first block, an empty text block,
    or a block that is neither text nor a tool use. *)
Definition claudeNoText {C : Collaborators} (completion : Claude.Completion C)
  : bool :=
  match Claude.firstBlock completion with
  | None => true
  | Some (Claude.TextBlock text) => negb (Js.truthyString text)
  | Some (Claude.ToolUseBlock _) => false
  | Some Claude.OtherBlock => true
  end.

(** A Mistral message content without text: absent, the empty string, or
    chunks whose texts join to the empty string. *)
Definition mistralNoText (content : Mistral.MessageContent) : bool :=
  match content with
  | Mistral.ContentAbsent => true
  | Mistral.ContentString s => negb (Js.truthyString s)
  | Mistral.ContentChunks chunks => negb (Js.truthyString (Mistral.joinChunks chunks))
  end.

(** The provider call of [ask] and [askJson] resolves, whatever the
    request, to a response whose text content is null, undefined or
    empty. *)
Definition answersEmpty {C : Collaborators} (sdks : Sdks C)
    (parameters : AiClientParameters) : Prop :=
  match parameters with
  | OpenAiProvider p =>
      forall request, exists completion,
        openaiCreate sdks p request = Js.Returned completion
        /\ truthyContent (firstContent completion) = false
  | GoogleProvider p =>
      forall request, exists response,
        googleGenerate sdks p request = Js.Returned response
        /\ Js.truthy Js.truthyString (Gemini.text response) = false
  | GroqProvider p =>
      forall request, exists completion,
        groqCreate sdks p request = Js.Returned completion
        /\ truthyContent (firstContent completion) = false
  | ClaudeProvider p =>
      forall request, exists completion,
        anthropicCreate sdks p request = Js.Returned completion
        /\ claudeNoText completion = true
  | MistralProvider p =>
      forall request, exists content,
        mistralComplete sdks p request = Js.Returned content
        /\ mistralNoText content = true
  end.

(** The error that [askJson] builds itself when the response has no
    content. *)
Definition emptyResponseError (parameters : AiClientParameters) : Js.Error :=
  match parameters with
  | ClaudeProvider _ => Js.newError "No tool use response received"
  | _ => Js.newError "No response content received"
  end.

(** The roles of the declared return type of each [prepareMessages]. *)
Module RoleSupport.
Definition claude : list Role := [User; Assistant].
Definition openAi : list Role := [System; User; Assistant].
Definition groq : list Role := [System; User; Assistant].
Definition mistral : list Role := [System; User; Assistant; Tool].
Definition gemini : list string := ["user"; "model"].
End RoleSupport.

Definition isToolOrFunction (msg : Message) : bool :=
  match role msg with
  | Tool | Function => true
  | _ => false
  end.

(** [out] stands for the tool or function message [msg]: same content,
    role [target]. Nothing is asked of the other messages. *)
Definition downgradedTo (target : Role) (msg out : Message) : Prop :=
  isToolOrFunction msg = true -> out = {| role := target; content := content msg |}.

(** [needle] occurs in [value] at index [i]. *)
Definition occursAt (needle value : string) (i : nat) : Prop :=
  exists before after,
    value = before ++ needle ++ after /\ String.length before = i.

(** [needle] occurs somewhere in [value] ([value.includes(needle)]). *)
Fixpoint occursFrom (needle value : string) : bool :=
  String.prefix needle value
  || match value with
     | EmptyString => false
     | String _ r => occursFrom needle r
     end.

(** Every character of the string is white space. *)
Fixpoint allWhiteSpace (s : string) : bool :=
  match s with
  | EmptyString => true
  | String c r => Js.isWhiteSpace c && allWhiteSpace r
  end.

(** The string does not begin with white space. *)
Definition noLeadingWhiteSpace (s : string) : bool :=
  match s with
  | EmptyString => true
  | String c _ => negb (Js.isWhiteSpace c)
  end.

(** Some provider call of [ask] or [askJson] rejects with [v]. *)
Definition someCallRejects {C : Collaborators} (sdks : Sdks C)
    (parameters : AiClientParameters) (v : Js.value) : Prop :=
  match parameters with
  | OpenAiProvider p => exists request, openaiCreate sdks p request = Js.Threw v
  | GoogleProvider p => exists request, googleGenerate sdks p request = Js.Threw v
  | GroqProvider p => exists request, groqCreate sdks p request = Js.Threw v
  | ClaudeProvider p => exists request, anthropicCreate sdks p request = Js.Threw v
  | MistralProvider p => exists request, mistralComplete sdks p request = Js.Threw v
  end.

(** Some provider call of [stream] fails with [v]. *)
Definition someStreamBreaks {C : Collaborators} (sdks : Sdks C)
    (parameters : AiClientParameters) (v : Js.value) : Prop :=
  match parameters with
  | OpenAiProvider p => exists request, breaksWith v (openaiStream sdks p request)
  | GoogleProvider p => exists request, breaksWith v (googleStream sdks p request)
  | GroqProvider p => exists request, breaksWith v (groqStream sdks p request)
  | ClaudeProvider p => exists request, breaksWith v (anthropicStream sdks p request)
  | MistralProvider p => exists request, breaksWith v (mistralStream sdks p request)
  end.

(** A streaming call that opens and whose iteration ends normally. *)
Definition endsNormally {Chunk : Type} (opened : Js.outcome (EventStream Chunk))
  : Prop :=
  match opened with
  | Js.Threw _ => False
  | Js.Returned s => failure s = None
  end.

(** Every provider call of [stream] opens and ends normally. *)
Definition streamsEnd {C : Collaborators} (sdks : Sdks C)
    (parameters : AiClientParameters) : Prop :=
  match parameters with
  | OpenAiProvider p => forall request, endsNormally (openaiStream sdks p request)
  | GoogleProvider p => forall request, endsNormally (googleStream sdks p request)
  | GroqProvider p => forall request, endsNormally (groqStream sdks p request)
  | ClaudeProvider p => forall request, endsNormally (anthropicStream sdks p request)
  | MistralProvider p => forall request, endsNormally (mistralStream sdks p request)
  end.

(** The provider call of [ask] and [askJson] resolves, whatever the
    request, to a response whose first candidate is the text [text]. *)
Definition answersText {C : Collaborators} (sdks : Sdks C)
    (parameters : AiClientParameters) (text : string) : Prop :=
  match parameters with
  | OpenAiProvider p =>
      forall request, exists completion,
        openaiCreate sdks p request = Js.Returned completion
        /\ firstContent completion = Js.Defined text
  | GoogleProvider p =>
      forall request,
        googleGenerate sdks p request = Js.Returned (Gemini.mkResponse (Some text))
  | GroqProvider p =>
      forall request, exists completion,
        groqCreate sdks p request = Js.Returned completion
        /\ firstContent completion = Js.Defined text
  | ClaudeProvider p =>
      forall request, exists completion,
        anthropicCreate sdks p request = Js.Returned completion
        /\ Claude.firstBlock completion = Some (Claude.TextBlock text)
  | MistralProvider p =>
      forall request,
        mistralComplete sdks p request = Js.Returned (Mistral.ContentString text)
  end.

(** What [ask] makes of the answer [text]: Gemini trims it, Groq removes a
    leading reasoning block, the others leave it as it is. *)
Definition askText (parameters : AiClientParameters) (text : string) : string :=
  match parameters with
  | GoogleProvider _ => Js.trim text
  | GroqProvider _ => orEmpty (Groq.stripThinking (Js.Defined text))
  | _ => text
  end.

(** What [askJson] hands to [JSON.parse] for the answer [text]; [None]
    when it finds no content in it: an empty text, for Groq a text empty
    once the reasoning block is removed, for Claude any text (only a tool
    use counts). Gemini tests the text before trimming it. *)
Definition jsonText (parameters : AiClientParameters) (text : string)
  : option string :=
  match parameters with
  | OpenAiProvider _ | MistralProvider _ =>
      if Js.truthyString text then Some text else None
  | GoogleProvider _ =>
      if Js.truthyString text then Some (Js.trim text) else None
  | GroqProvider _ =>
      let stripped := orEmpty (Groq.stripThinking (Js.Defined text)) in
      if Js.truthyString stripped then Some stripped else None
  | ClaudeProvider _ => None
  end.

(** [method], run on an SDK call, sends [request] to it: the result of
    the method depends on what the SDK call answers to [request], and on
    nothing else of the SDK call. *)
Definition sends {Request Response Result : Type}
    (method : (Request -> Js.outcome Response) -> Result) (request : Request)
  : Prop :=
  (forall sdk sdk' : Request -> Js.outcome Response,
      sdk request = sdk' request -> method sdk = method sdk')
  /\ (exists sdk sdk' : Request -> Js.outcome Response,
         method sdk <> method sdk').

(** The string does not end with white space. *)
Fixpoint noTrailingWhiteSpace (s : string) : bool :=
  match s with
  | EmptyString => true
  | String c EmptyString => negb (Js.isWhiteSpace c)
  | String _ r => noTrailingWhiteSpace r
  end.

(** Concrete inputs on which the properties are exercised. *)
Module Sample.

(** 0.5 and 0.75. *)
Definition half : Js.number := S754_finite false 1 (-1).
Definition threeQuarters : Js.number := S754_finite false 3 (-2).
Definition zero : Js.number := S754_zero false.

Definition client {Model : Set} (model : Model) : ClientParameters.t Model :=
  ClientParameters.mk model "key" None None None.

(** A conversation with one system message. *)
Definition conversation : list Message :=
  [mkMessage System "A"; mkMessage User "hi"].

(** A conversation with two system messages. *)
Definition twoSystems : list Message :=
  [mkMessage System "A"; mkMessage System "B"; mkMessage User "hi"].

(** A conversation with a tool result and a function result. *)
Definition toolResults : list Message :=
  [mkMessage User "q"; mkMessage Tool "42"; mkMessage Function "f"].

(** Sampling fields all set, as in the repository's tests, with a
    temperature that is not zero. *)
Definition sampling : AskParameters.t :=
  AskParameters.mk None (Some half) None (Some threeQuarters) None
                   (Some half) (Some half) None (Some High) None.

(** Collaborators over strings: every text is its own JSON value and
    schema, and nothing throws. *)
(** A call that asks for no more than zero tokens. *)
Definition capped : AskParameters.t :=
  AskParameters.mk None None (Some zero) None None None None None None None.

Definition collaborators : Collaborators :=
  {| Schema := string;
     JsonSchema := string;
     Json := string;
     toJsonSchema := fun schema => Js.Returned schema;
     stringify := fun jsonSchema => jsonSchema;
     JSON_parse := fun text => Js.Returned text;
     parse := fun _ value => Js.Returned value |}.

(** The request built for gpt-5 when every sampling field is set. *)
Definition lockedRequest (streamed : bool) : OpenAi.Request.t collaborators :=
  OpenAi.extend
    (OpenAi.createBaseCompletionParams (client "gpt-5") sampling)
    streamed None.

(** A Groq SDK that answers every request with one choice whose content
    opens with a reasoning block. *)
Definition reasoning (request : Groq.Request.t collaborators)
  : Js.outcome ChatCompletion :=
  Js.Returned (mkChatCompletion [Js.Defined "<think>plan</think>  ok"]).

(** SDKs whose every call resolves to a response without content. *)
Definition silent : Sdks collaborators :=
  {| openaiCreate := fun _ _ => Js.Returned (mkChatCompletion [Js.Null]);
     openaiStream := fun _ _ => Js.Returned (mkEventStream [] None);
     googleGenerate := fun _ _ => Js.Returned (Gemini.mkResponse None);
     googleStream := fun _ _ => Js.Returned (mkEventStream [] None);
     groqCreate := fun _ _ => Js.Returned (mkChatCompletion [Js.Defined ""]);
     groqStream := fun _ _ => Js.Returned (mkEventStream [] None);
     anthropicCreate := fun _ _ => Js.Returned (Claude.mkCompletion (Some []));
     anthropicStream := fun _ _ => Js.Returned (mkEventStream [] None);
     mistralComplete := fun _ _ => Js.Returned Mistral.ContentAbsent;
     mistralStream := fun _ _ => Js.Returned (mkEventStream [] None) |}.

(** [Object.create(null)]: an object without [toString] and [valueOf],
    whose conversion to a string throws a [TypeError]. *)
Definition typeError : Js.Error :=
  Js.mkError "TypeError" "Cannot convert object to primitive value".
Definition bare : Js.value := Js.VUnprintable (Js.VError typeError).

(** SDKs whose every call rejects with [v]. *)
Definition failing (v : Js.value) : Sdks collaborators :=
  {| openaiCreate := fun _ _ => Js.Threw v;
     openaiStream := fun _ _ => Js.Threw v;
     googleGenerate := fun _ _ => Js.Threw v;
     googleStream := fun _ _ => Js.Threw v;
     groqCreate := fun _ _ => Js.Threw v;
     groqStream := fun _ _ => Js.Threw v;
     anthropicCreate := fun _ _ => Js.Threw v;
     anthropicStream := fun _ _ => Js.Threw v;
     mistralComplete := fun _ _ => Js.Threw v;
     mistralStream := fun _ _ => Js.Threw v |}.

(** Collaborators whose [JSON.parse] throws on the text ["not json"] and
    whose [parse] throws on the value ["{}"]. *)
Definition strict : Collaborators :=
  {| Schema := string;
     JsonSchema := string;
     Json := string;
     toJsonSchema := fun schema => Js.Returned schema;
     stringify := fun jsonSchema => jsonSchema;
     JSON_parse :=
       fun text =>
         if text =? "not json"
         then Js.Threw (Js.VError (Js.mkError "SyntaxError" "Unexpected token"))
         else Js.Returned text;
     parse :=
       fun _ value =>
         if value =? "{}"
         then Js.Threw (Js.VError (Js.mkError "ValiError" "Invalid key"))
         else Js.Returned value |}.

(** SDKs that answer every call with the text [text], and every streaming
    call with the chunks ["1"], nothing, ["2"], then fail with [v] if
    given. *)
Definition answering (C : Collaborators) (text : string)
    (v : option Js.value) : Sdks C :=
  {| openaiCreate := fun _ _ => Js.Returned (mkChatCompletion [Js.Defined text]);
     openaiStream :=
       fun _ _ =>
         Js.Returned
           (mkEventStream
              [mkChatCompletion [Js.Defined "1"]; mkChatCompletion [Js.Null];
               mkChatCompletion [Js.Defined ""]; mkChatCompletion [Js.Defined "2"]]
              v);
     googleGenerate := fun _ _ => Js.Returned (Gemini.mkResponse (Some text));
     googleStream :=
       fun _ _ =>
         Js.Returned
           (mkEventStream
              [Gemini.mkResponse (Some "1"); Gemini.mkResponse None;
               Gemini.mkResponse (Some "2")]
              v);
     groqCreate := fun _ _ => Js.Returned (mkChatCompletion [Js.Defined text]);
     groqStream :=
       fun _ _ =>
         Js.Returned
           (mkEventStream
              [mkChatCompletion [Js.Defined "1"]; mkChatCompletion [];
               mkChatCompletion [Js.Defined "2"]]
              v);
     anthropicCreate :=
       fun _ _ => Js.Returned (Claude.mkCompletion (Some [Claude.TextBlock text]));
     anthropicStream :=
       fun _ _ =>
         Js.Returned
           (mkEventStream
              [Claude.ContentBlockDelta (Some "1"); Claude.OtherEvent;
               Claude.ContentBlockDelta (Some "2")]
              v);
     mistralComplete := fun _ _ => Js.Returned (Mistral.ContentString text);
     mistralStream :=
       fun _ _ =>
         Js.Returned
           (mkEventStream
              [Mistral.DeltaString "1"; Mistral.DeltaAbsent; Mistral.DeltaString "2"]
              v) |}.



(** A client with default instructions. *)
Definition instructed {Model : Set} (model : Model) (instructions : string)
  : ClientParameters.t Model :=
  ClientParameters.mk model "key" None (Some instructions) None.

(** A call that carries a conversation and instructions and nothing else. *)
Definition conversing (messages : list Message) (instructions : option string)
  : AskParameters.t :=
  AskParameters.mk (Some messages) None None None None None None
                   instructions None None.

End Sample.

(** * Properties *)

(** ** The request a method sends *)

(** Each method is shown to send its request with two SDK calls that
    reject with different strings: the method tells them apart. *)
Ltac sends_by unfolding :=
  split;
  [ intros sdk sdk' Hsame; unfolding; cbv zeta; rewrite Hsame; reflexivity
  | exists (fun _ => Js.Threw (Js.VString "a")),
           (fun _ => Js.Threw (Js.VString "b"));
    discriminate ].

Lemma claude_ask_sends (C : Collaborators) (cp : ClientParameters.t string)
    (input : string) (ap : AskParameters.t) :
  sends (fun create => @Claude.ask C create cp input ap)
        (Claude.withStream
           (Claude.createBaseCompletionParams cp (AskParameters.withInput ap input))
           false).
Proof. sends_by ltac:(unfold Claude.ask). Qed.

Lemma claude_stream_sends (C : Collaborators) (cp : ClientParameters.t string)
    (input : string) (ap : AskParameters.t) :
  sends (fun createStream => @Claude.stream C createStream cp input ap)
        (Claude.withStream
           (Claude.createBaseCompletionParams cp (AskParameters.withInput ap input))
           true).
Proof. sends_by ltac:(unfold Claude.stream). Qed.

Lemma claude_askJson_sends (C : Collaborators) (cp : ClientParameters.t string)
    (input : string) (ap : AskParameters.t) (schema : Schema C)
    (input_schema : JsonSchema C) :
  toJsonSchema C schema = Js.Returned input_schema ->
  sends (fun create => Claude.askJson create cp input ap schema)
        (Claude.jsonRequest
           (Claude.createBaseCompletionParams cp (AskParameters.withInput ap input))
           (Claude.prepareMessages
              (Js.nullishOr
                 (AskParameters.messages (AskParameters.withInput ap input)) [])
              (Js.nullish
                 (AskParameters.instructions (AskParameters.withInput ap input))
                 (ClientParameters.instructions cp)))
           input_schema).
Proof.
  intros Hschema.
  split.
  - intros sdk sdk' Hsame. unfold Claude.askJson. cbv zeta.
    rewrite Hschema. cbn [Js.bind]. rewrite Hsame. reflexivity.
  - exists (fun _ => Js.Threw (Js.VString "a")),
           (fun _ => Js.Threw (Js.VString "b")).
    unfold Claude.askJson. cbv zeta. rewrite Hschema. discriminate.
Qed.

Lemma openai_ask_sends (C : Collaborators) (cp : ClientParameters.t string)
    (input : string) (ap : AskParameters.t) :
  sends (fun create => @OpenAi.ask C create cp input ap)
        (OpenAi.extend
           (OpenAi.createBaseCompletionParams cp (AskParameters.withInput ap input))
           false None).
Proof. sends_by ltac:(unfold OpenAi.ask). Qed.

Lemma openai_stream_sends (C : Collaborators) (cp : ClientParameters.t string)
    (input : string) (ap : AskParameters.t) :
  sends (fun createStream => @OpenAi.stream C createStream cp input ap)
        (OpenAi.extend
           (OpenAi.createBaseCompletionParams cp (AskParameters.withInput ap input))
           true None).
Proof. sends_by ltac:(unfold OpenAi.stream). Qed.

Lemma groq_ask_sends (C : Collaborators) (cp : ClientParameters.t Groq.GroqModel)
    (input : string) (ap : AskParameters.t) :
  sends (fun create => @Groq.ask C create cp input ap)
        (Groq.extend
           (Groq.createBaseCompletionParams cp (AskParameters.withInput ap input))
           false None).
Proof. sends_by ltac:(unfold Groq.ask). Qed.

Lemma groq_stream_sends (C : Collaborators) (cp : ClientParameters.t Groq.GroqModel)
    (input : string) (ap : AskParameters.t) :
  sends (fun createStream => @Groq.stream C createStream cp input ap)
        (Groq.extend
           (Groq.createBaseCompletionParams cp (AskParameters.withInput ap input))
           true None).
Proof. sends_by ltac:(unfold Groq.stream). Qed.

Lemma gemini_ask_sends (C : Collaborators) (cp : ClientParameters.t string)
    (input : string) (ap : AskParameters.t) :
  sends (fun generateContent => @Gemini.ask C generateContent cp input ap)
        {| Gemini.Request.model := ClientParameters.model cp;
           Gemini.Request.contents :=
             Gemini.prepareMessages
               (Js.nullishOr
                  (AskParameters.messages (AskParameters.withInput ap input)) []);
           Gemini.Request.config :=
             Gemini.createGenerationConfig cp (AskParameters.withInput ap input) |}.
Proof. sends_by ltac:(unfold Gemini.ask). Qed.

Lemma gemini_stream_sends (C : Collaborators) (cp : ClientParameters.t string)
    (input : string) (ap : AskParameters.t) :
  sends (fun generateContentStream =>
           @Gemini.stream C generateContentStream cp input ap)
        {| Gemini.Request.model := ClientParameters.model cp;
           Gemini.Request.contents :=
             Gemini.prepareMessages
               (Js.nullishOr
                  (AskParameters.messages (AskParameters.withInput ap input)) []);
           Gemini.Request.config :=
             Gemini.createGenerationConfig cp (AskParameters.withInput ap input) |}.
Proof. sends_by ltac:(unfold Gemini.stream). Qed.

Lemma mistral_ask_sends (cp : ClientParameters.t string)
    (input : string) (ap : AskParameters.t) :
  sends (fun complete => Mistral.ask complete cp input ap)
        (Mistral.chatRequest cp ap (AskParameters.withInput ap input) None).
Proof. sends_by ltac:(unfold Mistral.ask). Qed.

Lemma mistral_stream_sends (cp : ClientParameters.t string)
    (input : string) (ap : AskParameters.t) :
  sends (fun chatStream => Mistral.stream chatStream cp input ap)
        (Mistral.chatRequest cp ap (AskParameters.withInput ap input) None).
Proof. sends_by ltac:(unfold Mistral.stream). Qed.

(** ** Parameter translation *)

(** C10. Every request the Claude client sends carries [max_tokens]: 4096
    when the caller gives no [maxTokens], the caller's number otherwise
    (zero and NaN included, since the default is taken by [??]). [ask],
    [stream] and [askJson] each send one request, the one written here,
    and its [max_tokens] is that number; the field is a number in every
    request, never absent. *)
Theorem claude_max_tokens_default_4096 :
  forall (C : Collaborators) (clientParameters : ClientParameters.t string)
         (askParameters : AskParameters.t) (input : string),
    let expected :=
      match AskParameters.maxTokens askParameters with
      | None => S754_finite false 4096 0
      | Some n => n
      end in
    let updatedParameters := AskParameters.withInput askParameters input in
    let base : Claude.Request.t C :=
      Claude.createBaseCompletionParams clientParameters updatedParameters in
    let prepared :=
      Claude.prepareMessages
        (Js.nullishOr (AskParameters.messages updatedParameters) [])
        (Js.nullish (AskParameters.instructions updatedParameters)
                    (ClientParameters.instructions clientParameters)) in
    (sends (fun create => Claude.ask create clientParameters input askParameters)
           (Claude.withStream base false)
     /\ Claude.Request.max_tokens (Claude.withStream base false) = expected)
    /\ (sends (fun createStream =>
                 Claude.stream createStream clientParameters input askParameters)
              (Claude.withStream base true)
        /\ Claude.Request.max_tokens (Claude.withStream base true) = expected)
    /\ (forall (schema : Schema C) (input_schema : JsonSchema C),
           toJsonSchema C schema = Js.Returned input_schema ->
           sends (fun create =>
                    Claude.askJson create clientParameters input askParameters
                                   schema)
                 (Claude.jsonRequest base prepared input_schema)
           /\ Claude.Request.max_tokens
                (Claude.jsonRequest base prepared input_schema)
              = expected).
Proof.
  intros C cp ap input expected updatedParameters base prepared.
  assert (Hbase : Claude.Request.max_tokens base = expected).
  { unfold base, expected, Claude.createBaseCompletionParams,
      Claude.defaultMaxTokens.
    cbn [Claude.Request.max_tokens AskParameters.withInput
         AskParameters.maxTokens updatedParameters].
    destruct (AskParameters.maxTokens ap); reflexivity. }
  split; [|split].
  - split; [apply claude_ask_sends | exact Hbase].
  - split; [apply claude_stream_sends | exact Hbase].
  - intros schema input_schema Hschema.
    split; [apply claude_askJson_sends; exact Hschema | exact Hbase].
Qed.

(** For a call without [maxTokens], and for one with [maxTokens: 0]. *)
Lemma claude_max_tokens_default_4096_witness :
  Claude.Request.max_tokens
    (Claude.withStream
       (@Claude.createBaseCompletionParams Sample.collaborators
          (Sample.client "claude-opus-4-1")
          (AskParameters.withInput Sample.sampling "hi"))
       false)
  = S754_finite false 4096 0
  /\ Claude.Request.max_tokens
       (Claude.jsonRequest
          (@Claude.createBaseCompletionParams Sample.collaborators
             (Sample.client "claude-opus-4-1")
             (AskParameters.withInput Sample.capped "hi"))
          (Claude.prepareMessages [mkMessage User "hi"] None)
          "schema")
     = Sample.zero.
Proof.
  split.
  - destruct (claude_max_tokens_default_4096
                Sample.collaborators (Sample.client "claude-opus-4-1")
                Sample.sampling "hi") as [[_ Hask] _].
    exact Hask.
  - destruct (claude_max_tokens_default_4096
                Sample.collaborators (Sample.client "claude-opus-4-1")
                Sample.capped "hi") as [_ [_ Hjson]].
    destruct (Hjson "schema" "schema" eq_refl) as [_ Hmax].
    exact Hmax.
Defined.

(** The restricted models among [openAiModels] are the gpt-5, o3 and o4
    families. *)
Lemma restricted_openai_models :
  filter (Js.includes OpenAi.modelsWithTemperatureRestrictions) OpenAi.openAiModels
  = ["gpt-5"; "gpt-5-mini"; "gpt-5-nano"; "o3"; "o3-mini"; "o4-mini"].
Proof. reflexivity. Qed.

(** C6. For a model of [modelsWithTemperatureRestrictions], the OpenAI
    request has no [temperature], [top_p], [presence_penalty] or
    [frequency_penalty], whatever the caller supplied, in the request of
    each of the three methods. *)
Theorem openai_restricted_model_omits_sampling :
  forall (C : Collaborators) (clientParameters : ClientParameters.t string)
         (askParameters : AskParameters.t) (streamed : bool)
         (format : option (JsonSchema C)),
    Js.includes OpenAi.modelsWithTemperatureRestrictions
                (ClientParameters.model clientParameters) = true ->
    let request :=
      OpenAi.extend (OpenAi.createBaseCompletionParams clientParameters askParameters)
                    streamed format in
    OpenAi.Request.temperature request = None
    /\ OpenAi.Request.top_p request = None
    /\ OpenAi.Request.presence_penalty request = None
    /\ OpenAi.Request.frequency_penalty request = None.
Proof.
  intros C clientParameters askParameters streamed format Hlocked.
  cbn -[Js.includes].
  rewrite Hlocked.
  repeat split.
Qed.

(** For gpt-5, with every sampling field set by the caller. *)
Lemma openai_restricted_model_omits_sampling_witness :
  OpenAi.Request.temperature (Sample.lockedRequest false) = None
  /\ OpenAi.Request.top_p (Sample.lockedRequest false) = None
  /\ OpenAi.Request.presence_penalty (Sample.lockedRequest false) = None
  /\ OpenAi.Request.frequency_penalty (Sample.lockedRequest false) = None.
Proof.
  apply (openai_restricted_model_omits_sampling
           Sample.collaborators (Sample.client "gpt-5") Sample.sampling false None).
  reflexivity.
Defined.

(** The Groq models for which no thinking level yields a
    [reasoning_effort]. *)
Lemma groq_models_without_thinking :
  filter (fun model =>
            forallb (fun level =>
                       match Groq.getReasoningEffortByModel model level with
                       | None => true
                       | Some _ => false
                       end)
                    [Off; Low; Medium; High])
         Groq.groqModels
  = [Groq.llama_3_3_70b_versatile; Groq.llama_3_1_8b_instant;
     Groq.moonshotai_kimi_k2_instruct;
     Groq.meta_llama_llama_4_maverick_17b_128e_instruct;
     Groq.meta_llama_llama_4_scout_17b_16e_instruct;
     Groq.deepseek_r1_distill_llama_70b].
Proof. reflexivity. Qed.

(** C7. A thinking level asked of a model without thinking is dropped.
    Building a request is a total function, so nothing is raised; and
    - Groq: when the model's entry of [getReasoningEffortByModel] answers
      [undefined] at every level, the request has neither
      [reasoning_effort] nor [include_reasoning];
    - OpenAI: when the model is not one of [thinkingModels], the request
      has no [reasoning_effort];
    - Claude and Mistral: the request is the one built without any
      thinking level. *)
Theorem thinking_dropped_when_unsupported :
  forall (C : Collaborators) (level : Thinking)
         (ms : option (list Message)) (t mt tp tk pp fp : option Js.number)
         (ins u : option string),
    let asked := AskParameters.mk ms t mt tp tk pp fp ins (Some level) u in
    let plain := AskParameters.mk ms t mt tp tk pp fp ins None u in
    (forall clientParameters : ClientParameters.t Groq.GroqModel,
        (forall v, Groq.getReasoningEffortByModel
                     (ClientParameters.model clientParameters) v = None) ->
        Groq.Request.reasoning_effort
          (@Groq.createBaseCompletionParams C clientParameters asked) = None
        /\ Groq.Request.include_reasoning
             (@Groq.createBaseCompletionParams C clientParameters asked) = None)
    /\ (forall clientParameters : ClientParameters.t string,
           Js.includes OpenAi.thinkingModels
                       (ClientParameters.model clientParameters) = false ->
           OpenAi.Request.reasoning_effort
             (@OpenAi.createBaseCompletionParams C clientParameters asked) = None)
    /\ (forall (model apiKey : string) (baseUrl instructions : option string)
               (default : option Thinking),
           @Claude.createBaseCompletionParams C
             (ClientParameters.mk model apiKey baseUrl instructions default) asked
           = Claude.createBaseCompletionParams
               (ClientParameters.mk model apiKey baseUrl instructions None) plain)
    /\ (forall (model apiKey : string) (baseUrl instructions : option string)
               (default : option Thinking) (input : string)
               (format : option string),
           Mistral.chatRequest
             (ClientParameters.mk model apiKey baseUrl instructions default)
             asked (AskParameters.withInput asked input) format
           = Mistral.chatRequest
               (ClientParameters.mk model apiKey baseUrl instructions None)
               plain (AskParameters.withInput plain input) format).
Proof.
  intros C level ms t mt tp tk pp fp ins u asked plain.
  split; [|split; [|split]].
  - intros clientParameters Hnone.
    unfold Groq.createBaseCompletionParams; cbn [Groq.Request.reasoning_effort
      Groq.Request.include_reasoning].
    destruct (Js.nullish (AskParameters.thinking asked)
                         (ClientParameters.thinking clientParameters)) as [l|];
      [rewrite (Hnone l)|]; split; reflexivity.
  - intros clientParameters Hplain.
    unfold OpenAi.createBaseCompletionParams; cbn [OpenAi.Request.reasoning_effort].
    rewrite Hplain. reflexivity.
  - intros; reflexivity.
  - intros; reflexivity.
Qed.

(** For llama-3.3-70b-versatile and gpt-4.1, asked for [high]. *)
Lemma thinking_dropped_when_unsupported_witness :
  Groq.Request.reasoning_effort
    (@Groq.createBaseCompletionParams Sample.collaborators
       (Sample.client Groq.llama_3_3_70b_versatile) Sample.sampling) = None
  /\ Groq.Request.include_reasoning
       (@Groq.createBaseCompletionParams Sample.collaborators
          (Sample.client Groq.llama_3_3_70b_versatile) Sample.sampling) = None
  /\ OpenAi.Request.reasoning_effort
       (@OpenAi.createBaseCompletionParams Sample.collaborators
          (Sample.client "gpt-4.1") Sample.sampling) = None.
Proof.
  destruct (thinking_dropped_when_unsupported Sample.collaborators High
              None (Some Sample.half) None (Some Sample.threeQuarters) None
              (Some Sample.half) (Some Sample.half) None None)
    as [Hgroq [Hopenai _]].
  split; [|split].
  - apply (Hgroq (Sample.client Groq.llama_3_3_70b_versatile)).
    intros v; reflexivity.
  - apply (Hgroq (Sample.client Groq.llama_3_3_70b_versatile)).
    intros v; reflexivity.
  - apply (Hopenai (Sample.client "gpt-4.1")). reflexivity.
Defined.

(** What each builder makes of [topP] when the caller sets a temperature
    [t]:
    - the Claude, OpenAI and Gemini requests have no [top_p], as the
      comment of [AskParameters.topP] says (ignored if temperature is
      set);
    - the Groq request has no [top_p] when [t] is truthy (neither zero nor
      NaN);
    - the Mistral request has no [topP] when [t] is zero, and the
      caller's [topP] otherwise. *)
Lemma topP_beside_temperature_by_provider :
  forall (C : Collaborators) (askParameters : AskParameters.t) (t : Js.number),
    AskParameters.temperature askParameters = Some t ->
    (forall clientParameters,
        Claude.Request.top_p
          (@Claude.createBaseCompletionParams C clientParameters askParameters)
        = None)
    /\ (forall clientParameters,
           OpenAi.Request.top_p
             (@OpenAi.createBaseCompletionParams C clientParameters askParameters)
           = None)
    /\ (forall clientParameters,
           Gemini.Config.topP
             (@Gemini.createGenerationConfig C clientParameters askParameters)
           = None)
    /\ (forall clientParameters,
           Js.truthyNumber t = true ->
           Groq.Request.top_p
             (@Groq.createBaseCompletionParams C clientParameters askParameters)
           = None)
    /\ (forall clientParameters updatedParameters format,
           Mistral.Request.topP
             (Mistral.chatRequest clientParameters askParameters
                                  updatedParameters format)
           = if Js.isZero t then None else AskParameters.topP askParameters).
Proof.
  intros C askParameters t Ht.
  repeat match goal with |- _ /\ _ => split end.
  - intros cp. cbn. rewrite Ht. reflexivity.
  - intros cp. cbn -[Js.includes]. rewrite Ht.
    destruct (Js.includes _ _); reflexivity.
  - intros cp. cbn -[Js.includes]. rewrite Ht.
    destruct (AskParameters.topP askParameters); reflexivity.
  - intros cp Htruthy. cbn. rewrite Ht. cbn. rewrite Htruthy. reflexivity.
  - intros cp up format. cbn. rewrite Ht. reflexivity.
Qed.

(** With temperature 0.5 and topP 0.75. *)
Lemma topP_beside_temperature_by_provider_witness :
  Claude.Request.top_p
    (@Claude.createBaseCompletionParams Sample.collaborators
       (Sample.client "claude-opus-4-1") Sample.sampling) = None
  /\ Groq.Request.top_p
       (@Groq.createBaseCompletionParams Sample.collaborators
          (Sample.client Groq.qwen_qwen3_32b) Sample.sampling) = None
  /\ Mistral.Request.topP
       (Mistral.chatRequest (Sample.client "mistral-small-latest") Sample.sampling
          (AskParameters.withInput Sample.sampling "hi") None)
     = Some Sample.threeQuarters.
Proof.
  destruct (topP_beside_temperature_by_provider
              Sample.collaborators Sample.sampling Sample.half eq_refl)
    as [Hclaude [_ [_ [Hgroq Hmistral]]]].
  split; [apply Hclaude | split; [apply Hgroq; reflexivity | apply Hmistral]].
Defined.

(** C2. The claim fails on the Mistral client. Asked with temperature 0.5
    and topP 0.75, [ask] and [stream] send a request that carries both,
    where the comment of [AskParameters.topP] says that [topP] is ignored
    if temperature is set, and where the Claude, OpenAI and Gemini
    clients leave it out: the Mistral client leaves [topP] out at
    temperature zero only. *)
Theorem mistral_sends_topP_beside_temperature :
  let request :=
    Mistral.chatRequest (Sample.client "mistral-small-latest") Sample.sampling
      (AskParameters.withInput Sample.sampling "hi") None in
  sends (fun complete =>
           Mistral.ask complete (Sample.client "mistral-small-latest") "hi"
                       Sample.sampling)
        request
  /\ sends (fun chatStream =>
              Mistral.stream chatStream (Sample.client "mistral-small-latest")
                             "hi" Sample.sampling)
           request
  /\ Mistral.Request.temperature request = Some Sample.half
  /\ Mistral.Request.topP request = Some Sample.threeQuarters.
Proof.
  split; [apply mistral_ask_sends | split; [apply mistral_stream_sends|]].
  split; reflexivity.
Qed.

(** At temperature zero the two clients differ: the Groq request keeps
    [top_p], the Mistral request omits [topP]. *)
Lemma groq_keeps_top_p_at_zero_temperature :
  Groq.Request.top_p
    (@Groq.createBaseCompletionParams Sample.collaborators
       (Sample.client Groq.qwen_qwen3_32b)
       (AskParameters.mk None (Some Sample.zero) None (Some Sample.threeQuarters)
                         None None None None None None))
  = Some Sample.threeQuarters.
Proof. reflexivity. Qed.

Lemma mistral_omits_topP_at_zero_temperature :
  Mistral.Request.topP
    (Mistral.chatRequest (Sample.client "mistral-small-latest")
       (AskParameters.mk None (Some Sample.zero) None (Some Sample.threeQuarters)
                         None None None None None None)
       AskParameters.empty None)
  = None.
Proof. reflexivity. Qed.

(** ** Failures *)

(** [handleError] gives back an [Error] object as it is. *)
Lemma handleError_of_error (e : Js.Error) :
  handleError (Js.VError e) = Js.Returned e.
Proof. reflexivity. Qed.

(** [handleError] wraps a value that is not an [Error] and that [String]
    converts to [text] as [new Error(text)]. *)
Lemma handleError_of_other (v : Js.value) (text : string) :
  (forall e, v <> Js.VError e) ->
  Js.toString v = Js.Returned text ->
  handleError v = Js.Returned (Js.newError text).
Proof.
  intros Hother Htext.
  destruct v as [| |b|s|e|other|raised];
    try (exfalso; apply (Hother e); reflexivity);
    unfold handleError; rewrite Htext; reflexivity.
Qed.

(** [handleError] throws what the conversion of the value throws. *)
Lemma handleError_of_unprintable (raised : Js.value) :
  handleError (Js.VUnprintable raised) = Js.Threw raised.
Proof. reflexivity. Qed.

(** [handleError] throws only on a value whose conversion throws. *)
Lemma handleError_throws (v raised : Js.value) :
  handleError v = Js.Threw raised -> v = Js.VUnprintable raised.
Proof.
  destruct v as [| |[|]|s|e|other|w]; simpl; intros H; try discriminate H.
  injection H as ->. reflexivity.
Qed.

(** A body wrapped in [try { ... } catch (error) { return
    handleError(error); }] returns when the body returns, and otherwise
    does what [handleError] does with the caught value. *)
Lemma caught_body {A : Type} (body : Js.outcome (orError A)) :
  match body with
  | Js.Returned r => Js.tryCatch body returnError = Js.Returned r
  | Js.Threw v =>
      match handleError v with
      | Js.Returned e => Js.tryCatch body returnError = Js.Returned (Failure e)
      | Js.Threw raised => Js.tryCatch body returnError = Js.Threw raised
      end
  end.
Proof.
  destruct body as [r|v]; [reflexivity|].
  unfold Js.tryCatch, returnError.
  destruct (handleError v) as [e|raised]; reflexivity.
Qed.

(** When the body throws [v], the method does what [return
    handleError(v)] does. *)
Lemma caught_failure {A : Type} (v : Js.value) (e : Js.Error) :
  handleError v = Js.Returned e ->
  @returnError A v = Js.Returned (Failure e).
Proof. intros H. unfold returnError. rewrite H. reflexivity. Qed.

Lemma caught_unprintable {A : Type} (raised : Js.value) :
  @returnError A (Js.VUnprintable raised) = Js.Threw raised.
Proof. reflexivity. Qed.

Lemma iterate_breaks {Chunk : Type} (v : Js.value)
    (opened : Js.outcome (EventStream Chunk)) (pick : Chunk -> list string) :
  breaksWith v opened -> thrown (iterate opened pick) = Some (rethrow v).
Proof.
  destruct opened as [s|w]; simpl; intros H.
  - rewrite H. reflexivity.
  - rewrite H. reflexivity.
Qed.

(** When the provider call rejects with [v], [ask] ends as [return
    handleError(v)] does; so does [askJson] once [toJsonSchema] has
    returned, and when [toJsonSchema] itself throws [v]. Iterating
    [stream] throws what [throw handleError(v)] throws. *)
Lemma provider_failure_reaches_handleError :
  forall (C : Collaborators) (sdks : Sdks C) (parameters : AiClientParameters)
         (input : string) (askParameters : AskParameters.t) (schema : Schema C),
    (forall v, callRejects sdks parameters v ->
        AiClient.ask (createAiClient sdks parameters) input askParameters
        = returnError v)
    /\ (forall v jsonSchema,
           callRejects sdks parameters v ->
           toJsonSchema C schema = Js.Returned jsonSchema ->
           AiClient.askJson (createAiClient sdks parameters) input askParameters
                            schema
           = returnError v)
    /\ (forall v,
           toJsonSchema C schema = Js.Threw v ->
           AiClient.askJson (createAiClient sdks parameters) input askParameters
                            schema
           = returnError v)
    /\ (forall v, streamBreaks sdks parameters v ->
           thrown (AiClient.stream (createAiClient sdks parameters) input
                                   askParameters)
           = Some (rethrow v)).
Proof.
  intros C sdks parameters input askParameters schema.
  split; [|split; [|split]].
  - intros v Hrejects.
    destruct parameters as [p|p|p|p|p]; simpl in Hrejects |- *;
      [unfold OpenAi.ask | unfold Gemini.ask | unfold Groq.ask
      | unfold Claude.ask | unfold Mistral.ask];
      rewrite Hrejects; reflexivity.
  - intros v jsonSchema Hrejects Hschema.
    destruct parameters as [p|p|p|p|p]; simpl in Hrejects |- *;
      [unfold OpenAi.askJson | unfold Gemini.askJson | unfold Groq.askJson
      | unfold Claude.askJson | unfold Mistral.askJson];
      rewrite Hschema; cbn [Js.bind]; rewrite Hrejects; reflexivity.
  - intros v Hschema.
    destruct parameters as [p|p|p|p|p]; simpl;
      [unfold OpenAi.askJson | unfold Gemini.askJson | unfold Groq.askJson
      | unfold Claude.askJson | unfold Mistral.askJson];
      rewrite Hschema; reflexivity.
  - intros v Hbreaks.
    destruct parameters as [p|p|p|p|p]; simpl in Hbreaks |- *;
      apply iterate_breaks; apply Hbreaks.
Qed.

(** X16. What holds of a provider failure whose value [handleError] can turn
    into an [Error] [e] (an [Error] object, which is [e] itself, or a value
    that [String] converts, [e] being [new Error(String(v))]): for each of
    the five clients,
    - when the provider call rejects with [v], [ask] and [askJson] return
      [e] (for [askJson], once [toJsonSchema] has returned); when
      [toJsonSchema] itself throws [v], [askJson] returns [e];
    - when the streaming call rejects with [v], or its iteration does,
      iterating [stream] throws [e];
    - [ask] throws only what [handleError] throws on a value with which a
      provider call rejected;
    - [e] is [v] itself when [v] is an [Error], message included, and
      [new Error(text)] when [v] is another value that [String] converts
      to [text]. *)
Lemma convertible_failure_returned_by_ask_thrown_by_stream :
  forall (C : Collaborators) (sdks : Sdks C) (parameters : AiClientParameters)
         (input : string) (askParameters : AskParameters.t) (schema : Schema C)
         (v : Js.value) (e : Js.Error),
    handleError v = Js.Returned e ->
    (callRejects sdks parameters v ->
        AiClient.ask (createAiClient sdks parameters) input askParameters
        = Js.Returned (Failure e))
    /\ (forall jsonSchema,
           callRejects sdks parameters v ->
           toJsonSchema C schema = Js.Returned jsonSchema ->
           AiClient.askJson (createAiClient sdks parameters) input askParameters
                            schema
           = Js.Returned (Failure e))
    /\ (toJsonSchema C schema = Js.Threw v ->
           AiClient.askJson (createAiClient sdks parameters) input askParameters
                            schema
           = Js.Returned (Failure e))
    /\ (streamBreaks sdks parameters v ->
           thrown (AiClient.stream (createAiClient sdks parameters) input
                                   askParameters)
           = Some (Js.VError e))
    /\ (forall raised,
           AiClient.ask (createAiClient sdks parameters) input askParameters
           = Js.Threw raised ->
           exists w, someCallRejects sdks parameters w
                     /\ handleError w = Js.Threw raised)
    /\ (forall e', v = Js.VError e' -> e = e')
    /\ (forall text,
           (forall e', v <> Js.VError e') ->
           Js.toString v = Js.Returned text ->
           e = Js.newError text).
Proof.
  intros C sdks parameters input askParameters schema v e He.
  destruct (provider_failure_reaches_handleError C sdks parameters input
              askParameters schema) as [Hask [Hjson [Hschema Hstream]]].
  split; [|split; [|split; [|split; [|split; [|split]]]]];
    [| | | | |
     intros e' Hv; subst v; injection He as He; symmetry; exact He
     | intros text Hother Htext;
       rewrite (handleError_of_other v text Hother Htext) in He;
       injection He as He; symmetry; exact He].
  - intros H. rewrite (Hask v H). apply caught_failure, He.
  - intros js H Hjs. rewrite (Hjson v js H Hjs). apply caught_failure, He.
  - intros H. rewrite (Hschema v H). apply caught_failure, He.
  - intros H. rewrite (Hstream v H). unfold rethrow. rewrite He. reflexivity.
  - intros raised.
    destruct parameters as [p|p|p|p|p]; simpl;
      [unfold OpenAi.ask | unfold Gemini.ask | unfold Groq.ask
      | unfold Claude.ask | unfold Mistral.ask];
      cbv zeta;
      match goal with
      | |- context [Js.bind ?call _] => destruct call as [r|w] eqn:Hcall
      end;
      cbn [Js.bind Js.tryCatch];
      try (repeat match goal with
                  | |- context [match ?x with _ => _ end] => destruct x
                  end; discriminate);
      unfold returnError; destruct (handleError w) as [e'|t'] eqn:Hw;
      cbn [Js.bind]; intros H; try discriminate H;
      injection H as <-; exists w; split; eauto.
Qed.

(** For a Groq client whose SDK rejects every call with the string
    ["boom"]. *)
Lemma convertible_failure_returned_by_ask_thrown_by_stream_witness :
  AiClient.ask
    (createAiClient (Sample.failing (Js.VString "boom"))
                    (GroqProvider (Sample.client Groq.qwen_qwen3_32b)))
    "hi" Sample.sampling
  = Js.Returned (Failure (Js.newError "boom"))
  /\ AiClient.askJson
       (createAiClient (Sample.failing (Js.VString "boom"))
                       (GroqProvider (Sample.client Groq.qwen_qwen3_32b)))
       "hi" Sample.sampling "schema"
     = Js.Returned (Failure (Js.newError "boom"))
  /\ thrown
       (AiClient.stream
          (createAiClient (Sample.failing (Js.VString "boom"))
                          (GroqProvider (Sample.client Groq.qwen_qwen3_32b)))
          "hi" Sample.sampling)
     = Some (Js.VError (Js.newError "boom")).
Proof.
  destruct (convertible_failure_returned_by_ask_thrown_by_stream
              Sample.collaborators (Sample.failing (Js.VString "boom"))
              (GroqProvider (Sample.client Groq.qwen_qwen3_32b))
              "hi" Sample.sampling "schema"
              (Js.VString "boom") (Js.newError "boom") eq_refl)
    as [Hask [Hjson [_ [Hstream _]]]].
  split; [|split].
  - apply Hask. intros request; reflexivity.
  - apply (Hjson "schema").
    + intros request; reflexivity.
    + reflexivity.
  - apply Hstream. intros request; reflexivity.
Defined.

(** C3. The claim fails on a provider failure whose value cannot be
    converted to a string. For each of the five clients, when the provider
    calls reject with a value whose conversion [String(v)] throws [raised]
    (as [Object.create(null)] does, with a [TypeError]), [handleError]
    throws inside the [catch] block, and
    - [ask] throws [raised] instead of returning an [Error];
    - [askJson] throws [raised] too, once [toJsonSchema] has returned;
    - iterating [stream] throws [raised], which [handleError] never
      returned. *)
Theorem unconvertible_failure_thrown_by_ask :
  forall (C : Collaborators) (sdks : Sdks C) (parameters : AiClientParameters)
         (input : string) (askParameters : AskParameters.t) (schema : Schema C)
         (jsonSchema : JsonSchema C) (raised : Js.value),
    callRejects sdks parameters (Js.VUnprintable raised) ->
    streamBreaks sdks parameters (Js.VUnprintable raised) ->
    toJsonSchema C schema = Js.Returned jsonSchema ->
    handleError (Js.VUnprintable raised) = Js.Threw raised
    /\ AiClient.ask (createAiClient sdks parameters) input askParameters
       = Js.Threw raised
    /\ AiClient.askJson (createAiClient sdks parameters) input askParameters
                        schema
       = Js.Threw raised
    /\ thrown (AiClient.stream (createAiClient sdks parameters) input
                               askParameters)
       = Some raised.
Proof.
  intros C sdks parameters input askParameters schema jsonSchema raised
         Hcall Hstream Hschema.
  destruct (provider_failure_reaches_handleError C sdks parameters input
              askParameters schema) as [Hask [Hjson [_ Hiter]]].
  split; [|split; [|split]].
  - reflexivity.
  - rewrite (Hask _ Hcall). reflexivity.
  - rewrite (Hjson _ jsonSchema Hcall Hschema). reflexivity.
  - rewrite (Hiter _ Hstream). reflexivity.
Qed.

(** For a Groq client whose SDK rejects every call with
    [Object.create(null)]. *)
Lemma unconvertible_failure_thrown_by_ask_witness :
  handleError Sample.bare = Js.Threw (Js.VError Sample.typeError)
  /\ AiClient.ask
       (createAiClient (Sample.failing Sample.bare)
                       (GroqProvider (Sample.client Groq.qwen_qwen3_32b)))
       "hi" Sample.sampling
     = Js.Threw (Js.VError Sample.typeError)
  /\ AiClient.askJson
       (createAiClient (Sample.failing Sample.bare)
                       (GroqProvider (Sample.client Groq.qwen_qwen3_32b)))
       "hi" Sample.sampling "schema"
     = Js.Threw (Js.VError Sample.typeError)
  /\ thrown
       (AiClient.stream
          (createAiClient (Sample.failing Sample.bare)
                          (GroqProvider (Sample.client Groq.qwen_qwen3_32b)))
          "hi" Sample.sampling)
     = Some (Js.VError Sample.typeError).
Proof.
  apply (unconvertible_failure_thrown_by_ask
           Sample.collaborators (Sample.failing Sample.bare)
           (GroqProvider (Sample.client Groq.qwen_qwen3_32b))
           "hi" Sample.sampling "schema" "schema" (Js.VError Sample.typeError)).
  - intros request; reflexivity.
  - intros request; reflexivity.
  - reflexivity.
Defined.

(** ** Empty responses *)

Lemma falsy_content_orEmpty (c : Js.nullable string) :
  truthyContent c = false -> orEmpty c = "".
Proof.
  destruct c as [| |s]; simpl; try reflexivity.
  intros H. rewrite H. reflexivity.
Qed.

Lemma falsy_string_empty (s : string) : Js.truthyString s = false -> s = "".
Proof.
  unfold Js.truthyString. destruct s; [reflexivity | simpl; discriminate].
Qed.

(** Content that is null, undefined or empty goes through [stripThinking]
    unchanged. *)
Lemma stripThinking_falsy (c : Js.nullable string) :
  truthyContent c = false -> Groq.stripThinking c = c.
Proof.
  destruct c as [| |s]; simpl; try reflexivity.
  intros H. apply falsy_string_empty in H. subst s. reflexivity.
Qed.

(** C8. When the provider answers with a response whose text content is
    null, undefined or empty, [ask] returns the empty string, and
    [askJson] (once [toJsonSchema] has returned) returns the error it
    builds for a response without content: it returns it, it does not
    throw, and the error is a fresh [Error] that no provider call threw. *)
Theorem empty_content_empty_text_and_json_failure :
  forall (C : Collaborators) (sdks : Sdks C) (parameters : AiClientParameters)
         (input : string) (askParameters : AskParameters.t) (schema : Schema C)
         (jsonSchema : JsonSchema C),
    answersEmpty sdks parameters ->
    toJsonSchema C schema = Js.Returned jsonSchema ->
    AiClient.ask (createAiClient sdks parameters) input askParameters
    = Js.Returned (Value "")
    /\ AiClient.askJson (createAiClient sdks parameters) input askParameters schema
       = Js.Returned (Failure (emptyResponseError parameters)).
Proof.
  intros C sdks parameters input askParameters schema jsonSchema Hempty Hschema.
  destruct parameters as [p|p|p|p|p]; simpl in Hempty |- *.
  - (* OpenAI *)
    unfold OpenAi.ask, OpenAi.askJson. rewrite Hschema. cbn [Js.bind].
    split.
    + destruct (Hempty (OpenAi.extend
                          (OpenAi.createBaseCompletionParams p
                             (AskParameters.withInput askParameters input))
                          false None)) as [completion [Hcall Hfalsy]].
      rewrite Hcall. cbn [Js.bind Js.tryCatch].
      rewrite (falsy_content_orEmpty _ Hfalsy). reflexivity.
    + destruct (Hempty (OpenAi.extend
                          (OpenAi.createBaseCompletionParams p
                             (AskParameters.withInput askParameters input))
                          false (Some jsonSchema))) as [completion [Hcall Hfalsy]].
      rewrite Hcall. cbn [Js.bind Js.tryCatch].
      rewrite Hfalsy. reflexivity.
  - (* Gemini *)
    unfold Gemini.ask, Gemini.askJson. rewrite Hschema. cbn [Js.bind].
    split.
    + match goal with
      | |- context [googleGenerate sdks p ?r] =>
          destruct (Hempty r) as [response [Hcall Hfalsy]]
      end.
      rewrite Hcall. cbn [Js.bind Js.tryCatch].
      rewrite Hfalsy. reflexivity.
    + match goal with
      | |- context [googleGenerate sdks p ?r] =>
          destruct (Hempty r) as [response [Hcall Hfalsy]]
      end.
      rewrite Hcall. cbn [Js.bind Js.tryCatch].
      rewrite Hfalsy. reflexivity.
  - (* Groq *)
    unfold Groq.ask, Groq.askJson. rewrite Hschema. cbn [Js.bind].
    split.
    + match goal with
      | |- context [groqCreate sdks p ?r] =>
          destruct (Hempty r) as [completion [Hcall Hfalsy]]
      end.
      rewrite Hcall. cbn [Js.bind Js.tryCatch].
      rewrite (stripThinking_falsy _ Hfalsy).
      rewrite (falsy_content_orEmpty _ Hfalsy). reflexivity.
    + match goal with
      | |- context [groqCreate sdks p ?r] =>
          destruct (Hempty r) as [completion [Hcall Hfalsy]]
      end.
      rewrite Hcall. cbn [Js.bind Js.tryCatch].
      rewrite (stripThinking_falsy _ Hfalsy).
      rewrite Hfalsy. reflexivity.
  - (* Claude *)
    unfold Claude.ask, Claude.askJson. rewrite Hschema. cbn [Js.bind].
    split.
    + match goal with
      | |- context [anthropicCreate sdks p ?r] =>
          destruct (Hempty r) as [completion [Hcall Hnone]]
      end.
      rewrite Hcall. cbn [Js.bind Js.tryCatch].
      unfold claudeNoText in Hnone.
      destruct (Claude.firstBlock completion) as [[text|json|]|];
        try reflexivity; try discriminate.
      apply Bool.negb_true_iff, falsy_string_empty in Hnone. subst text.
      reflexivity.
    + match goal with
      | |- context [anthropicCreate sdks p ?r] =>
          destruct (Hempty r) as [completion [Hcall Hnone]]
      end.
      rewrite Hcall. cbn [Js.bind Js.tryCatch].
      unfold claudeNoText in Hnone.
      destruct (Claude.firstBlock completion) as [[text|json|]|];
        try reflexivity; discriminate.
  - (* Mistral *)
    unfold Mistral.ask, Mistral.askJson. rewrite Hschema. cbn [Js.bind].
    split.
    + match goal with
      | |- context [mistralComplete sdks p ?r] =>
          destruct (Hempty r) as [content [Hcall Hnone]]
      end.
      rewrite Hcall. cbn [Js.bind Js.tryCatch].
      destruct content as [s|chunks|]; simpl in Hnone;
        try (apply Bool.negb_true_iff, falsy_string_empty in Hnone;
             rewrite Hnone);
        reflexivity.
    + match goal with
      | |- context [mistralComplete sdks p ?r] =>
          destruct (Hempty r) as [content [Hcall Hnone]]
      end.
      rewrite Hcall. cbn [Js.bind Js.tryCatch].
      destruct content as [s|chunks|]; simpl in Hnone;
        try (apply Bool.negb_true_iff in Hnone; rewrite Hnone);
        reflexivity.
Qed.

(** For a Claude client whose SDK answers with an empty [content]. *)
Lemma empty_content_empty_text_and_json_failure_witness :
  AiClient.ask
    (createAiClient Sample.silent (ClaudeProvider (Sample.client "claude-opus-4-1")))
    "hi" Sample.sampling
  = Js.Returned (Value "")
  /\ AiClient.askJson
       (createAiClient Sample.silent
                       (ClaudeProvider (Sample.client "claude-opus-4-1")))
       "hi" Sample.sampling "schema"
     = Js.Returned (Failure (Js.newError "No tool use response received")).
Proof.
  apply (empty_content_empty_text_and_json_failure
           Sample.collaborators Sample.silent
           (ClaudeProvider (Sample.client "claude-opus-4-1"))
           "hi" Sample.sampling "schema" "schema").
  - intros request. exists (Claude.mkCompletion (Some [])).
    split; reflexivity.
  - reflexivity.
Defined.

(** ** Reasoning markup (Groq) *)

Section StringFacts.
Implicit Types a b s needle value before after : string.

Lemma length_append a b :
  String.length (a ++ b) = String.length a + String.length b.
Proof.
  induction a as [|c a IH]; simpl; [reflexivity | rewrite IH; reflexivity].
Qed.

Lemma append_assoc a b s : (a ++ b) ++ s = a ++ (b ++ s).
Proof.
  induction a as [|x a IH]; simpl; [reflexivity | rewrite IH; reflexivity].
Qed.

Lemma prefix_append needle s : String.prefix needle (needle ++ s) = true.
Proof.
  induction needle as [|c n IH]; simpl.
  - destruct s; reflexivity.
  - destruct (ascii_dec c c) as [_|Hne]; [exact IH | contradiction].
Qed.

Lemma prefix_split needle s :
  String.prefix needle s = true -> exists rest, s = needle ++ rest.
Proof.
  revert s. induction needle as [|c n IH]; intros s H.
  - exists s. reflexivity.
  - destruct s as [|d s]; simpl in H; [discriminate|].
    destruct (ascii_dec c d) as [Heq|Hne]; [|discriminate].
    destruct (IH s H) as [rest Hrest]. exists rest. subst. reflexivity.
Qed.

Lemma dropStr_append a b : Js.dropStr (String.length a) (a ++ b) = b.
Proof. induction a as [|c a IH]; simpl; [reflexivity | exact IH]. Qed.

Lemma dropStr_within (n : nat) b s :
  n <= String.length b -> Js.dropStr n (b ++ s) = Js.dropStr n b ++ s.
Proof.
  revert b. induction n as [|n IH]; intros b Hn; [reflexivity|].
  destruct b as [|c b]; simpl in Hn; [lia|].
  simpl. apply IH. lia.
Qed.

Lemma occursAt_tail needle value (c : ascii) (i : nat) :
  occursAt needle value i -> occursAt needle (String c value) (S i).
Proof.
  intros [before [after [Hv Hl]]].
  exists (String c before), after. subst. split; reflexivity.
Qed.

(** [lastIndexOf] answers [-1] or an index. *)
Lemma lastIndexOf_range value needle :
  Js.lastIndexOf value needle = (-1)%Z \/ (0 <= Js.lastIndexOf value needle)%Z.
Proof.
  induction value as [|c r IH]; cbn [Js.lastIndexOf].
  - destruct (needle =? ""); [right; lia | left; reflexivity].
  - destruct (0 <=? Js.lastIndexOf r needle)%Z eqn:Hlater.
    + right. apply Z.leb_le in Hlater. lia.
    + destruct (String.prefix needle (String c r));
        [right; lia | left; reflexivity].
Qed.

(** An index answered by [lastIndexOf] is one where the needle occurs. *)
Lemma lastIndexOf_occurs value needle :
  (0 <= Js.lastIndexOf value needle)%Z ->
  occursAt needle value (Z.to_nat (Js.lastIndexOf value needle)).
Proof.
  induction value as [|c r IH]; cbn [Js.lastIndexOf].
  - destruct (needle =? "") eqn:Hn; [|lia].
    intros _. apply String.eqb_eq in Hn. subst needle.
    exists "", "". split; reflexivity.
  - destruct (0 <=? Js.lastIndexOf r needle)%Z eqn:Hlater.
    + intros _. apply Z.leb_le in Hlater.
      replace (Z.to_nat (Js.lastIndexOf r needle + 1))
        with (S (Z.to_nat (Js.lastIndexOf r needle))) by lia.
      apply occursAt_tail. apply IH. exact Hlater.
    + destruct (String.prefix needle (String c r)) eqn:Hp; [|lia].
      intros _. destruct (prefix_split _ _ Hp) as [rest Hrest].
      exists "", rest. split; [exact Hrest | reflexivity].
Qed.

(** [lastIndexOf] finds the last occurrence. *)
Lemma lastIndexOf_last needle before after :
  (forall i, occursAt needle (before ++ needle ++ after) i ->
             i <= String.length before) ->
  Js.lastIndexOf (before ++ needle ++ after) needle
  = Z.of_nat (String.length before).
Proof.
  induction before as [|c b IH]; intros Hlast.
  - simpl in *.
    destruct (needle ++ after) as [|c r] eqn:Hvalue.
    + simpl. destruct needle; [reflexivity | discriminate].
    + cbn [Js.lastIndexOf].
      destruct (lastIndexOf_range r needle) as [Hnone|Hsome].
      * rewrite Hnone. change (0 <=? -1)%Z with false. cbv iota.
        rewrite <- Hvalue. rewrite prefix_append. reflexivity.
      * apply lastIndexOf_occurs in Hsome.
        apply (occursAt_tail _ _ c) in Hsome.
        apply Hlast in Hsome. lia.
  - cbn [append Js.lastIndexOf String.length].
    rewrite IH.
    + destruct (0 <=? Z.of_nat (String.length b))%Z eqn:Hle.
      * lia.
      * apply Z.leb_gt in Hle. lia.
    + intros i Hi. apply (occursAt_tail _ _ c) in Hi.
      apply Hlast in Hi. simpl in Hi. lia.
Qed.

Lemma lastIndexOf_absent value needle :
  (forall i, ~ occursAt needle value i) -> Js.lastIndexOf value needle = (-1)%Z.
Proof.
  intros Habsent.
  destruct (lastIndexOf_range value needle) as [H|H]; [exact H|].
  apply lastIndexOf_occurs in H. exfalso. exact (Habsent _ H).
Qed.

Lemma slice_from value (n : nat) :
  n <= String.length value -> Js.slice value (Z.of_nat n) = Js.dropStr n value.
Proof.
  intros Hn. unfold Js.slice.
  destruct (Z.of_nat n <? 0)%Z eqn:Hneg; [apply Z.ltb_lt in Hneg; lia|].
  rewrite Z.min_l by lia. rewrite Nat2Z.id. reflexivity.
Qed.

(** [trimStart] removes a run of white space, and all of it. *)
Lemma trimStart_spec s :
  exists ws, s = ws ++ Js.trimStart s
             /\ allWhiteSpace ws = true
             /\ noLeadingWhiteSpace (Js.trimStart s) = true.
Proof.
  induction s as [|c r IH].
  - exists "". repeat split.
  - simpl. destruct (Js.isWhiteSpace c) eqn:Hc.
    + destruct IH as [ws [Hr [Hws Hno]]].
      exists (String c ws). simpl. rewrite Hc, Hws. rewrite <- Hr.
      repeat split. exact Hno.
    + exists "". simpl. rewrite Hc. repeat split.
Qed.

Lemma occursFrom_append needle s after :
  occursFrom needle (s ++ needle ++ after) = true.
Proof.
  induction s as [|c x IH].
  - cbn [append]. destruct (needle ++ after) eqn:Hv; cbn [occursFrom];
      rewrite <- Hv, prefix_append; reflexivity.
  - cbn [append occursFrom]. rewrite IH. apply Bool.orb_true_r.
Qed.

(** A decidable check that no occurrence starts after index [n]. *)
Lemma last_occurrence_checked needle value (n : nat) :
  occursFrom needle (Js.dropStr (S n) value) = false ->
  forall i, occursAt needle value i -> i <= n.
Proof.
  intros Hcheck i [before [after [Hvalue Hlen]]].
  destruct (Nat.le_gt_cases i n) as [Hle|Hgt]; [exact Hle|].
  exfalso. subst value.
  rewrite dropStr_within in Hcheck by lia.
  rewrite occursFrom_append in Hcheck. discriminate.
Qed.

End StringFacts.

(** A reasoning block that is never closed: [lastIndexOf] answers [-1], the
    slice starts at index 7, and only the opening marker is removed. *)
Lemma stripThinking_unclosed (rest : string) :
  (forall i, ~ occursAt "</think>" ("<think>" ++ rest) i) ->
  Groq.stripThinking (Js.Defined ("<think>" ++ rest))
  = Js.Defined (Js.trimStart rest).
Proof.
  intros Habsent. unfold Groq.stripThinking, Js.startsWith.
  rewrite prefix_append, (lastIndexOf_absent _ _ Habsent).
  change (-1 + Z.of_nat (String.length "</think>"))%Z
    with (Z.of_nat (String.length "<think>")).
  rewrite slice_from by (rewrite length_append; lia).
  rewrite dropStr_append. reflexivity.
Qed.

(** C9. In the Groq client:
    - a text that starts with ["<think>"] and whose last ["</think>"] is
      followed by [after] is replaced by [after] without its leading white
      space ([trimStart] removes a run of white space and leaves none in
      front);
    - a text that does not start with ["<think>"] is unchanged, whatever
      it contains; [null] and [undefined] are unchanged;
    - [ask] returns the stripped text, and [askJson] hands the stripped
      text to [JSON.parse]. *)
Theorem groq_strip_thinking :
  (forall before after : string,
      Js.startsWith (before ++ "</think>" ++ after) "<think>" = true ->
      (forall i, occursAt "</think>" (before ++ "</think>" ++ after) i ->
                 i <= String.length before) ->
      Groq.stripThinking (Js.Defined (before ++ "</think>" ++ after))
      = Js.Defined (Js.trimStart after))
  /\ (forall s : string,
         exists ws, s = ws ++ Js.trimStart s
                    /\ allWhiteSpace ws = true
                    /\ noLeadingWhiteSpace (Js.trimStart s) = true)
  /\ (forall text : string,
         Js.startsWith text "<think>" = false ->
         Groq.stripThinking (Js.Defined text) = Js.Defined text)
  /\ Groq.stripThinking Js.Null = Js.Null
  /\ Groq.stripThinking Js.Undefined = Js.Undefined
  /\ (forall (C : Collaborators) create
             (clientParameters : ClientParameters.t Groq.GroqModel)
             (input : string) (askParameters : AskParameters.t)
             (completion : ChatCompletion) (stripped : string),
         (forall request : Groq.Request.t C,
             create request = Js.Returned completion) ->
         Groq.stripThinking (firstContent completion) = Js.Defined stripped ->
         Groq.ask create clientParameters input askParameters
         = Js.Returned (Value stripped))
  /\ (forall (C : Collaborators) create
             (clientParameters : ClientParameters.t Groq.GroqModel)
             (input : string) (askParameters : AskParameters.t)
             (schema : Schema C) (jsonSchema : JsonSchema C)
             (completion : ChatCompletion) (stripped : string),
         toJsonSchema C schema = Js.Returned jsonSchema ->
         (forall request : Groq.Request.t C,
             create request = Js.Returned completion) ->
         Groq.stripThinking (firstContent completion) = Js.Defined stripped ->
         stripped <> "" ->
         Groq.askJson create clientParameters input askParameters schema
         = Js.tryCatch
             (json <- JSON_parse C stripped ;;
              output <- parse C schema json ;;
              Js.Returned (Value output))
             returnError).
Proof.
  split; [|split; [|split; [|split; [|split; [|split]]]]].
  - intros before after Hstart Hlast.
    unfold Groq.stripThinking. rewrite Hstart.
    rewrite (lastIndexOf_last _ _ _ Hlast).
    rewrite <- Nat2Z.inj_add.
    rewrite slice_from by (rewrite !length_append; lia).
    rewrite <- length_append, <- append_assoc, dropStr_append.
    reflexivity.
  - apply trimStart_spec.
  - intros text Hstart. unfold Groq.stripThinking. rewrite Hstart. reflexivity.
  - reflexivity.
  - reflexivity.
  - intros C create clientParameters input askParameters completion stripped
           Hcall Hstripped.
    unfold Groq.ask. rewrite Hcall. cbn [Js.bind Js.tryCatch].
    rewrite Hstripped. unfold orEmpty.
    destruct (Js.truthyString stripped) eqn:Ht; [reflexivity|].
    apply falsy_string_empty in Ht. subst. reflexivity.
  - intros C create clientParameters input askParameters schema jsonSchema
           completion stripped Hschema Hcall Hstripped Hnonempty.
    unfold Groq.askJson. rewrite Hschema. cbn [Js.bind].
    rewrite Hcall. cbn [Js.bind].
    rewrite Hstripped.
    assert (Ht : Js.truthyString stripped = true).
    { unfold Js.truthyString. apply Bool.negb_true_iff.
      apply String.eqb_neq. exact Hnonempty. }
    unfold truthyContent, orEmpty. rewrite Ht. reflexivity.
Qed.

(** For the answer ["<think>plan</think>  ok"]. *)
Lemma groq_strip_thinking_witness :
  Groq.stripThinking (Js.Defined "<think>plan</think>  ok") = Js.Defined "ok"
  /\ Groq.ask Sample.reasoning (Sample.client Groq.qwen_qwen3_32b)
              "hi" Sample.sampling
     = Js.Returned (Value "ok")
  /\ Groq.askJson Sample.reasoning (Sample.client Groq.qwen_qwen3_32b)
                  "hi" Sample.sampling "schema"
     = Js.Returned (Value "ok").
Proof.
  destruct groq_strip_thinking as [Hstrip [_ [_ [_ [_ [Hask Hjson]]]]]].
  split; [|split].
  - apply (Hstrip "<think>plan" "  ok").
    + reflexivity.
    + apply last_occurrence_checked. reflexivity.
  - apply (Hask Sample.collaborators Sample.reasoning
                (Sample.client Groq.qwen_qwen3_32b) "hi" Sample.sampling
                (mkChatCompletion [Js.Defined "<think>plan</think>  ok"]) "ok").
    + intros request; reflexivity.
    + reflexivity.
  - apply (Hjson Sample.collaborators Sample.reasoning
                 (Sample.client Groq.qwen_qwen3_32b) "hi" Sample.sampling
                 "schema" "schema"
                 (mkChatCompletion [Js.Defined "<think>plan</think>  ok"]) "ok").
    + reflexivity.
    + intros request; reflexivity.
    + reflexivity.
    + discriminate.
Defined.

(** ** Message normalization *)

Section SystemMessage.
Variables (before after : list Message) (s : Message).
Hypothesis Hbefore : hasSystemMessage before = false.
Hypothesis Hs : isSystem s = true.

(** The first system message of a conversation is the one [findIndex],
    [find] and the filter on the index single out. *)
Lemma findIndex_first_system :
  findIndex isSystem (before ++ s :: after)%list = Some (List.length before).
Proof.
  revert Hbefore. clear - Hs. induction before as [|m l IH]; simpl; intros Hb.
  - rewrite Hs. reflexivity.
  - apply Bool.orb_false_iff in Hb. destruct Hb as [Hm Hl].
    rewrite Hm, (IH Hl). reflexivity.
Qed.

Lemma nth_error_first_system :
  nth_error (before ++ s :: after)%list (List.length before) = Some s.
Proof. clear. induction before as [|m l IH]; simpl; [reflexivity | exact IH]. Qed.

Lemma removeIndex_first_system :
  removeIndex (List.length before) (before ++ s :: after)%list
  = (before ++ after)%list.
Proof.
  clear. induction before as [|m l IH]; simpl; [reflexivity | rewrite IH; reflexivity].
Qed.

Lemma hasSystemMessage_with_system :
  hasSystemMessage (before ++ s :: after)%list = true.
Proof.
  unfold hasSystemMessage. rewrite existsb_app. simpl. rewrite Hs.
  apply Bool.orb_true_r.
Qed.

Lemma find_first_system :
  find isSystem (before ++ s :: after)%list = Some s.
Proof.
  revert Hbefore. clear - Hs. induction before as [|m l IH]; simpl; intros Hb.
  - rewrite Hs. reflexivity.
  - apply Bool.orb_false_iff in Hb. destruct Hb as [Hm Hl].
    rewrite Hm. exact (IH Hl).
Qed.

(** With a system message in the conversation, Claude's [prepareMessages]
    takes the first one as [system], whatever the system prompt, and maps
    the roles of all the others. *)
Lemma claude_prepare_with_system (systemPrompt : option string) :
  Claude.prepareMessages (before ++ s :: after)%list systemPrompt
  = {| Claude.Prepared.system := Some (content s);
       Claude.Prepared.messages := map Claude.mapRole (before ++ after)%list |}.
Proof.
  unfold Claude.prepareMessages.
  rewrite findIndex_first_system, nth_error_first_system, removeIndex_first_system.
  reflexivity.
Qed.
End SystemMessage.

Lemma findIndex_no_system (l : list Message) :
  hasSystemMessage l = false -> findIndex isSystem l = None.
Proof.
  induction l as [|m l IH]; simpl; intros H; [reflexivity|].
  apply Bool.orb_false_iff in H. destruct H as [Hm Hl].
  rewrite Hm, (IH Hl). reflexivity.
Qed.

(** Each [mapRole] stays within the roles its provider accepts. *)
Lemma claude_roles (l : list Message) :
  Forall (fun out => In (role out) RoleSupport.claude) (map Claude.mapRole l).
Proof.
  apply Forall_forall. intros out Hin. apply in_map_iff in Hin.
  destruct Hin as [m [Hout _]]. subst out.
  unfold Claude.mapRole. destruct (role m); simpl; auto.
Qed.

Lemma openai_roles (l : list Message) :
  Forall (fun out => In (role out) RoleSupport.openAi) (map OpenAi.mapRole l).
Proof.
  apply Forall_forall. intros out Hin. apply in_map_iff in Hin.
  destruct Hin as [m [Hout _]]. subst out.
  unfold OpenAi.mapRole. destruct (role m); simpl; auto.
Qed.

Lemma groq_roles (l : list Message) :
  Forall (fun out => In (role out) RoleSupport.groq) (map Groq.mapRole l).
Proof.
  apply Forall_forall. intros out Hin. apply in_map_iff in Hin.
  destruct Hin as [m [Hout _]]. subst out.
  unfold Groq.mapRole. destruct (role m); simpl; auto.
Qed.

Lemma mistral_roles (l : list Message) :
  Forall (fun out => In (role out) RoleSupport.mistral) (map Mistral.mapRole l).
Proof.
  apply Forall_forall. intros out Hin. apply in_map_iff in Hin.
  destruct Hin as [m [Hout _]]. subst out.
  unfold Mistral.mapRole. destruct (role m); simpl; auto.
Qed.

Lemma gemini_roles (l : list Message) :
  Forall (fun c => In (Gemini.Content.role c) RoleSupport.gemini)
         (Gemini.prepareMessages l).
Proof.
  apply Forall_forall. intros out Hin. unfold Gemini.prepareMessages in Hin.
  apply in_map_iff in Hin. destruct Hin as [m [Hout _]]. subst out.
  destruct (role m); simpl; auto.
Qed.

(** With a system message in the conversation, the OpenAI and Mistral
    clients leave the system prompt out. *)
Lemma openai_prepare_with_system (l : list Message) (systemPrompt : option string) :
  hasSystemMessage l = true ->
  OpenAi.prepareMessages l systemPrompt = map OpenAi.mapRole l.
Proof.
  intros H. unfold OpenAi.prepareMessages. rewrite H.
  destruct systemPrompt as [p|]; [rewrite Bool.andb_false_r|]; reflexivity.
Qed.

Lemma mistral_prepare_with_system (l : list Message) (systemPrompt : option string) :
  hasSystemMessage l = true ->
  Mistral.prepareMessages l systemPrompt = map Mistral.mapRole l.
Proof.
  intros H. unfold Mistral.prepareMessages. rewrite H.
  destruct systemPrompt as [p|]; [rewrite Bool.andb_false_r|]; reflexivity.
Qed.





Lemma Forall2_map_same {A B : Type} (R : A -> B -> Prop) (f : A -> B) (l : list A) :
  (forall a, R a (f a)) -> Forall2 R l (map f l).
Proof. intros H. induction l as [|a l IH]; simpl; constructor; auto. Qed.

(** What each [mapRole] does to a tool or function message. *)
Lemma claude_downgrades (m : Message) : downgradedTo User m (Claude.mapRole m).
Proof.
  unfold downgradedTo, isToolOrFunction, Claude.mapRole.
  destruct (role m); intros H; try discriminate; reflexivity.
Qed.

Lemma openai_downgrades (m : Message) : downgradedTo User m (OpenAi.mapRole m).
Proof.
  unfold downgradedTo, isToolOrFunction, OpenAi.mapRole.
  destruct (role m); intros H; try discriminate; reflexivity.
Qed.

Lemma groq_downgrades (m : Message) : downgradedTo User m (Groq.mapRole m).
Proof.
  unfold downgradedTo, isToolOrFunction, Groq.mapRole.
  destruct (role m); intros H; try discriminate; reflexivity.
Qed.

Lemma groq_downgrades_appended (prompt : string) (m : Message) :
  downgradedTo User m (Groq.mapRole (Groq.appendToSystem prompt m)).
Proof.
  unfold downgradedTo, isToolOrFunction, Groq.appendToSystem.
  destruct (role m) eqn:Hrole; intros H; try discriminate;
    unfold Groq.mapRole; rewrite Hrole; reflexivity.
Qed.

Lemma mistral_downgrades (m : Message) : downgradedTo Tool m (Mistral.mapRole m).
Proof.
  unfold downgradedTo, isToolOrFunction, Mistral.mapRole.
  destruct m as [r c]; destruct r; intros H; try discriminate; reflexivity.
Qed.

(** The OpenAI, Mistral and Groq lists are the conversation mapped message
    by message, after at most one system message put in front. *)
Lemma openai_prepare_shape (l : list Message) (systemPrompt : option string) :
  exists lead,
    OpenAi.prepareMessages l systemPrompt = (lead ++ map OpenAi.mapRole l)%list
    /\ Forall (fun m => isSystem m = true) lead.
Proof.
  unfold OpenAi.prepareMessages.
  destruct systemPrompt as [p|];
    [destruct (Js.truthyString p && negb (hasSystemMessage l))|].
  - exists [mkMessage System p]. split; [reflexivity | repeat constructor].
  - exists []. split; [reflexivity | constructor].
  - exists []. split; [reflexivity | constructor].
Qed.

Lemma mistral_prepare_shape (l : list Message) (systemPrompt : option string) :
  exists lead,
    Mistral.prepareMessages l systemPrompt = (lead ++ map Mistral.mapRole l)%list
    /\ Forall (fun m => isSystem m = true) lead.
Proof.
  unfold Mistral.prepareMessages.
  destruct systemPrompt as [p|];
    [destruct (Js.truthyString p && negb (hasSystemMessage l))|].
  - exists [mkMessage System p]. split; [reflexivity | repeat constructor].
  - exists []. split; [reflexivity | constructor].
  - exists []. split; [reflexivity | constructor].
Qed.

Lemma groq_prepare_shape (ap : AskParameters.t) (l : list Message)
    (systemPrompt : option string) :
  AskParameters.messages ap = Some l ->
  exists lead rest,
    Groq.prepareMessages ap systemPrompt = (lead ++ rest)%list
    /\ Forall (fun m => isSystem m = true) lead
    /\ Forall2 (downgradedTo User) l rest.
Proof.
  intros Hl. unfold Groq.prepareMessages, Groq.withSystemPrompt. rewrite Hl.
  destruct systemPrompt as [p|]; [destruct (Js.truthyString p)|]; simpl.
  - destruct (hasSystemMessage l); simpl.
    + exists [], (map Groq.mapRole (map (Groq.appendToSystem p) l)).
      split; [reflexivity|]. split; [constructor|].
      rewrite map_map. apply Forall2_map_same. apply groq_downgrades_appended.
    + exists [mkMessage System p], (map Groq.mapRole l).
      split; [reflexivity|]. split; [repeat constructor|].
      apply Forall2_map_same. apply groq_downgrades.
  - exists [], (map Groq.mapRole l).
    split; [reflexivity|]. split; [constructor|].
    apply Forall2_map_same. apply groq_downgrades.
  - exists [], (map Groq.mapRole l).
    split; [reflexivity|]. split; [constructor|].
    apply Forall2_map_same. apply groq_downgrades.
Qed.

Lemma groq_prepare_roles (ap : AskParameters.t) (systemPrompt : option string) :
  Forall (fun out => In (role out) RoleSupport.groq)
         (Groq.prepareMessages ap systemPrompt).
Proof.
  unfold Groq.prepareMessages.
  destruct (Groq.withSystemPrompt (AskParameters.messages ap) systemPrompt);
    simpl; [apply groq_roles | constructor].
Qed.

Lemma claude_prepare_without_system (l : list Message) (systemPrompt : option string) :
  hasSystemMessage l = false ->
  Claude.Prepared.messages (Claude.prepareMessages l systemPrompt)
  = map Claude.mapRole l.
Proof.
  intros H. unfold Claude.prepareMessages. rewrite (findIndex_no_system l H).
  destruct (Js.truthy Js.truthyString systemPrompt); reflexivity.
Qed.

Lemma claude_prepare_roles (l : list Message) (systemPrompt : option string) :
  Forall (fun out => In (role out) RoleSupport.claude)
         (Claude.Prepared.messages (Claude.prepareMessages l systemPrompt)).
Proof.
  unfold Claude.prepareMessages.
  destruct (findIndex isSystem l);
    [|destruct (Js.truthy Js.truthyString systemPrompt)];
    apply claude_roles.
Qed.

(** C5, as the code has it. In every provider's list the tool and function
    messages keep their content and their place, and every role of the
    list is one the provider's [prepareMessages] declares:
    - Claude, OpenAI, Groq and Gemini give them the role [user] (Claude
      after removing the first system message, Gemini after removing all
      system messages, OpenAI and Groq after at most one system message
      put in front);
    - Mistral gives them the role [tool]: a function message becomes a
      tool message and a tool message stays one. *)
Theorem tool_and_function_roles_by_provider :
  forall (conversation : list Message) (instructions : option string),
    (hasSystemMessage conversation = false ->
     Forall2 (downgradedTo User) conversation
             (Claude.Prepared.messages
                (Claude.prepareMessages conversation instructions)))
    /\ (forall before s after,
           conversation = (before ++ s :: after)%list ->
           hasSystemMessage before = false ->
           isSystem s = true ->
           Forall2 (downgradedTo User) (before ++ after)%list
                   (Claude.Prepared.messages
                      (Claude.prepareMessages conversation instructions)))
    /\ Forall (fun out => In (role out) RoleSupport.claude)
              (Claude.Prepared.messages
                 (Claude.prepareMessages conversation instructions))
    /\ (exists lead rest,
           OpenAi.prepareMessages conversation instructions = (lead ++ rest)%list
           /\ Forall (fun m => isSystem m = true) lead
           /\ Forall2 (downgradedTo User) conversation rest)
    /\ Forall (fun out => In (role out) RoleSupport.openAi)
              (OpenAi.prepareMessages conversation instructions)
    /\ (forall askParameters,
           AskParameters.messages askParameters = Some conversation ->
           exists lead rest,
             Groq.prepareMessages askParameters instructions = (lead ++ rest)%list
             /\ Forall (fun m => isSystem m = true) lead
             /\ Forall2 (downgradedTo User) conversation rest)
    /\ (forall askParameters,
           Forall (fun out => In (role out) RoleSupport.groq)
                  (Groq.prepareMessages askParameters instructions))
    /\ Forall2 (fun msg out =>
                  isToolOrFunction msg = true ->
                  out = {| Gemini.Content.role := "user";
                           Gemini.Content.parts := [content msg] |})
               (filter (fun msg => negb (isSystem msg)) conversation)
               (Gemini.prepareMessages conversation)
    /\ Forall (fun c => In (Gemini.Content.role c) RoleSupport.gemini)
              (Gemini.prepareMessages conversation)
    /\ (exists lead rest,
           Mistral.prepareMessages conversation instructions = (lead ++ rest)%list
           /\ Forall (fun m => isSystem m = true) lead
           /\ Forall2 (downgradedTo Tool) conversation rest)
    /\ Forall (fun out => In (role out) RoleSupport.mistral)
              (Mistral.prepareMessages conversation instructions).
Proof.
  intros conversation instructions.
  repeat match goal with |- _ /\ _ => split end.
  - intros H. rewrite (claude_prepare_without_system _ _ H).
    apply Forall2_map_same, claude_downgrades.
  - intros before s after Hc Hb Hs. subst conversation.
    rewrite (claude_prepare_with_system before after s Hb Hs).
    apply Forall2_map_same, claude_downgrades.
  - apply claude_prepare_roles.
  - destruct (openai_prepare_shape conversation instructions) as [lead [Heq Hlead]].
    exists lead, (map OpenAi.mapRole conversation).
    split; [exact Heq|]. split; [exact Hlead|].
    apply Forall2_map_same, openai_downgrades.
  - destruct (openai_prepare_shape conversation instructions) as [lead [Heq Hlead]].
    rewrite Heq. apply Forall_app. split; [|apply openai_roles].
    eapply Forall_impl; [|exact Hlead].
    intros m Hm. unfold isSystem in Hm. destruct (role m); try discriminate.
    simpl; auto.
  - intros ap Hap. apply groq_prepare_shape. exact Hap.
  - intros ap. apply groq_prepare_roles.
  - unfold Gemini.prepareMessages. apply Forall2_map_same.
    intros m. unfold isToolOrFunction. destruct (role m); intros H;
      try discriminate; reflexivity.
  - apply gemini_roles.
  - destruct (mistral_prepare_shape conversation instructions) as [lead [Heq Hlead]].
    exists lead, (map Mistral.mapRole conversation).
    split; [exact Heq|]. split; [exact Hlead|].
    apply Forall2_map_same, mistral_downgrades.
  - destruct (mistral_prepare_shape conversation instructions) as [lead [Heq Hlead]].
    rewrite Heq. apply Forall_app. split; [|apply mistral_roles].
    eapply Forall_impl; [|exact Hlead].
    intros m Hm. unfold isSystem in Hm. destruct (role m); try discriminate.
    simpl; auto.
Qed.

(** For a conversation with a tool and a function result, and for one
    with a system message before a tool result. *)
Lemma tool_and_function_roles_by_provider_witness :
  Forall2 (downgradedTo User) Sample.toolResults
          (Claude.Prepared.messages (Claude.prepareMessages Sample.toolResults None))
  /\ Forall2 (downgradedTo User) [mkMessage Tool "42"]
             (Claude.Prepared.messages
                (Claude.prepareMessages
                   [mkMessage System "A"; mkMessage Tool "42"] None)).
Proof.
  split.
  - destruct (tool_and_function_roles_by_provider Sample.toolResults None)
      as [Hplain _].
    apply Hplain. reflexivity.
  - destruct (tool_and_function_roles_by_provider
                [mkMessage System "A"; mkMessage Tool "42"] None)
      as [_ [Hsystem _]].
    apply (Hsystem [] (mkMessage System "A") [mkMessage Tool "42"]);
      reflexivity.
Defined.

(** C5 as stated fails: Mistral's list keeps the role [tool] and turns
    [function] into [tool]; neither becomes [user]. *)
Lemma mistral_keeps_tool_role :
  map role (Mistral.prepareMessages Sample.toolResults None) = [User; Tool; Tool]
  /\ map role (Mistral.prepareMessages Sample.toolResults None)
     <> [User; User; User].
Proof. split; [reflexivity | discriminate]. Qed.

Lemma gemini_prepare_app (a b : list Message) :
  Gemini.prepareMessages (a ++ b)%list
  = (Gemini.prepareMessages a ++ Gemini.prepareMessages b)%list.
Proof. unfold Gemini.prepareMessages. rewrite filter_app, map_app. reflexivity. Qed.

Lemma gemini_prepare_system (text : string) (l : list Message) :
  Gemini.prepareMessages (mkMessage System text :: l) = Gemini.prepareMessages l.
Proof. reflexivity. Qed.

Lemma groq_prepare_plain (ap : AskParameters.t) (l : list Message)
    (systemPrompt : option string) :
  AskParameters.messages ap = Some l ->
  Js.truthy Js.truthyString systemPrompt = false ->
  Groq.prepareMessages ap systemPrompt = map Groq.mapRole l.
Proof.
  intros Hl Hp. unfold Groq.prepareMessages, Groq.withSystemPrompt. rewrite Hl.
  destruct systemPrompt as [p|]; simpl in Hp; [rewrite Hp|]; reflexivity.
Qed.

(** C4, as the code has it. In a conversation with two system messages
    [A1] and [A2] (and possibly more after them), no client joins them:
    - Claude takes [A1] alone as [system]; [A2] stays in the list as a
      user message;
    - Gemini, without instructions, takes [A1] alone as system
      instruction, and no system message goes to [contents];
    - OpenAI, Mistral, and Groq without instructions, keep [A1] and [A2]
      as two system messages, each in its place. *)
Theorem only_first_system_message_is_system_text :
  forall (before between after : list Message) (A1 A2 : string)
         (instructions : option string),
    hasSystemMessage before = false ->
    let conversation :=
      (before ++ mkMessage System A1 :: between ++ mkMessage System A2 :: after)%list in
    Claude.prepareMessages conversation instructions
    = {| Claude.Prepared.system := Some A1;
         Claude.Prepared.messages :=
           (map Claude.mapRole before ++ map Claude.mapRole between
            ++ mkMessage User A2 :: map Claude.mapRole after)%list |}
    /\ (Js.truthy Js.truthyString instructions = false ->
        Gemini.extractSystemPrompt conversation instructions = Some A1)
    /\ Gemini.prepareMessages conversation
       = (Gemini.prepareMessages before ++ Gemini.prepareMessages between
          ++ Gemini.prepareMessages after)%list
    /\ OpenAi.prepareMessages conversation instructions
       = (map OpenAi.mapRole before ++ mkMessage System A1
          :: map OpenAi.mapRole between ++ mkMessage System A2
          :: map OpenAi.mapRole after)%list
    /\ (forall askParameters,
           AskParameters.messages askParameters = Some conversation ->
           Js.truthy Js.truthyString instructions = false ->
           Groq.prepareMessages askParameters instructions
           = (map Groq.mapRole before ++ mkMessage System A1
              :: map Groq.mapRole between ++ mkMessage System A2
              :: map Groq.mapRole after)%list)
    /\ Mistral.prepareMessages conversation instructions
       = (map Mistral.mapRole before ++ mkMessage System A1
          :: map Mistral.mapRole between ++ mkMessage System A2
          :: map Mistral.mapRole after)%list.
Proof.
  intros before between after A1 A2 instructions Hbefore conversation.
  assert (Hsys : hasSystemMessage conversation = true)
    by (apply hasSystemMessage_with_system; reflexivity).
  repeat match goal with |- _ /\ _ => split end.
  - unfold conversation.
    rewrite (claude_prepare_with_system before _ (mkMessage System A1) Hbefore eq_refl).
    rewrite !map_app. reflexivity.
  - intros Hfalsy. unfold Gemini.extractSystemPrompt. rewrite Hfalsy.
    unfold conversation.
    rewrite (find_first_system before _ (mkMessage System A1) Hbefore eq_refl).
    reflexivity.
  - unfold conversation.
    rewrite gemini_prepare_app, gemini_prepare_system,
      gemini_prepare_app, gemini_prepare_system.
    reflexivity.
  - rewrite (openai_prepare_with_system _ _ Hsys). unfold conversation.
    rewrite map_app. cbn [map]. rewrite map_app. reflexivity.
  - intros ap Hap Hfalsy. rewrite (groq_prepare_plain ap _ _ Hap Hfalsy).
    unfold conversation.
    rewrite map_app. cbn [map]. rewrite map_app. reflexivity.
  - rewrite (mistral_prepare_with_system _ _ Hsys). unfold conversation.
    rewrite map_app. cbn [map]. rewrite map_app. reflexivity.
Qed.

(** For the system messages [A] and [B] followed by one user message. *)
Lemma only_first_system_message_is_system_text_witness :
  Claude.prepareMessages Sample.twoSystems None
  = {| Claude.Prepared.system := Some "A";
       Claude.Prepared.messages := [mkMessage User "B"; mkMessage User "hi"] |}
  /\ OpenAi.prepareMessages Sample.twoSystems None = Sample.twoSystems.
Proof.
  destruct (only_first_system_message_is_system_text
              [] [] [mkMessage User "hi"] "A" "B" None eq_refl)
    as [Hclaude [_ [_ [Hopenai _]]]].
  split; [exact Hclaude | exact Hopenai].
Defined.

(** C4 as stated fails: of the system messages [A] and [B], Claude's
    [system] is [A], which is not [A], a separator and [B]. *)
Lemma claude_honors_first_system_message_only :
  Claude.Prepared.system (Claude.prepareMessages Sample.twoSystems None) = Some "A"
  /\ (forall separator : string,
         Claude.Prepared.system (Claude.prepareMessages Sample.twoSystems None)
         <> Some ("A" ++ separator ++ "B")).
Proof.
  split; [reflexivity|].
  intros separator H. cbn in H. injection H as H.
  destruct separator; discriminate.
Qed.

(** * Further properties *)

(** ** The messages of a request *)

Lemma findIndex_bound {A : Type} (p : A -> bool) (l : list A) (i : nat) :
  findIndex p l = Some i -> i < List.length l.
Proof.
  revert i. induction l as [|x l IH]; simpl; intros i H; [discriminate|].
  destruct (p x).
  - injection H as H. subst i. lia.
  - destruct (findIndex p l) as [j|]; simpl in H; [|discriminate].
    injection H as H. subst i. specialize (IH j eq_refl). lia.
Qed.

Lemma findIndex_app_found {A : Type} (p : A -> bool) (l r : list A) (i : nat) :
  findIndex p l = Some i -> findIndex p (l ++ r)%list = Some i.
Proof.
  revert i. induction l as [|x l IH]; simpl; intros i H; [discriminate|].
  destruct (p x); [exact H|].
  destruct (findIndex p l) as [j|]; simpl in H; [|discriminate].
  rewrite (IH j eq_refl). exact H.
Qed.

Lemma findIndex_app_missing {A : Type} (p : A -> bool) (l : list A) (x : A) :
  findIndex p l = None -> p x = false -> findIndex p (l ++ [x])%list = None.
Proof.
  induction l as [|y l IH]; simpl; intros H Hx.
  - rewrite Hx. reflexivity.
  - destruct (p y); [discriminate|].
    destruct (findIndex p l) as [j|]; simpl in H; [discriminate|].
    rewrite (IH eq_refl Hx). reflexivity.
Qed.

Lemma removeIndex_app_found {A : Type} (l r : list A) (i : nat) :
  i < List.length l -> removeIndex i (l ++ r)%list = (removeIndex i l ++ r)%list.
Proof.
  revert i. induction l as [|x l IH]; simpl; intros i H; [lia|].
  destruct i as [|i]; simpl; [reflexivity | rewrite IH by lia; reflexivity].
Qed.

(** [prepareMessages] leaves a user message at the end where it is. *)
Lemma claude_prepare_snoc (l : list Message) (input : string)
    (systemPrompt : option string) :
  Claude.Prepared.messages
    (Claude.prepareMessages (l ++ [mkMessage User input])%list systemPrompt)
  = (Claude.Prepared.messages (Claude.prepareMessages l systemPrompt)
     ++ [mkMessage User input])%list.
Proof.
  unfold Claude.prepareMessages.
  destruct (findIndex isSystem l) as [i|] eqn:Hfind.
  - rewrite (findIndex_app_found _ _ _ _ Hfind).
    rewrite (removeIndex_app_found _ _ _ (findIndex_bound _ _ _ Hfind)).
    cbn [Claude.Prepared.messages]. rewrite map_app. reflexivity.
  - rewrite (findIndex_app_missing isSystem l (mkMessage User input) Hfind eq_refl).
    destruct (Js.truthy Js.truthyString systemPrompt);
      cbn [Claude.Prepared.messages]; rewrite map_app; reflexivity.
Qed.

Lemma openai_prepare_snoc (l : list Message) (input : string)
    (systemPrompt : option string) :
  exists front,
    OpenAi.prepareMessages (l ++ [mkMessage User input])%list systemPrompt
    = (front ++ [mkMessage User input])%list.
Proof.
  destruct (openai_prepare_shape (l ++ [mkMessage User input])%list systemPrompt)
    as [lead [Heq _]].
  rewrite Heq, map_app, app_assoc. eexists. reflexivity.
Qed.

Lemma mistral_prepare_snoc (l : list Message) (input : string)
    (systemPrompt : option string) :
  exists front,
    Mistral.prepareMessages (l ++ [mkMessage User input])%list systemPrompt
    = (front ++ [mkMessage User input])%list.
Proof.
  destruct (mistral_prepare_shape (l ++ [mkMessage User input])%list systemPrompt)
    as [lead [Heq _]].
  rewrite Heq, map_app, app_assoc. eexists. reflexivity.
Qed.

Lemma groq_prepare_snoc (askParameters : AskParameters.t) (input : string)
    (systemPrompt : option string) :
  exists front,
    Groq.prepareMessages (AskParameters.withInput askParameters input) systemPrompt
    = (front ++ [mkMessage User input])%list.
Proof.
  unfold Groq.prepareMessages, Groq.withSystemPrompt.
  cbn [AskParameters.withInput AskParameters.messages].
  set (l := Js.nullishOr (AskParameters.messages askParameters) []).
  destruct systemPrompt as [p|]; [destruct (Js.truthyString p)|];
    cbn [option_map Js.truthy Js.nullishOr].
  - destruct (hasSystemMessage (l ++ [mkMessage User input])%list);
      cbn [negb option_map Js.nullishOr].
    + rewrite map_map, map_app. eexists. reflexivity.
    + exists (mkMessage System p :: map Groq.mapRole l).
      cbn [map]. rewrite map_app. reflexivity.
  - rewrite map_app. eexists. reflexivity.
  - rewrite map_app. eexists. reflexivity.
Qed.

(** Every builder leaves the appended input as the last message. *)
Lemma built_request_ends_with_input :
  forall (C : Collaborators) (askParameters : AskParameters.t) (input : string),
    (forall clientParameters, exists front,
        Claude.Request.messages
          (@Claude.createBaseCompletionParams C clientParameters
             (AskParameters.withInput askParameters input))
        = (front ++ [mkMessage User input])%list)
    /\ (forall clientParameters, exists front,
           OpenAi.Request.messages
             (@OpenAi.createBaseCompletionParams C clientParameters
                (AskParameters.withInput askParameters input))
           = (front ++ [mkMessage User input])%list)
    /\ (forall clientParameters, exists front,
           Groq.Request.messages
             (@Groq.createBaseCompletionParams C clientParameters
                (AskParameters.withInput askParameters input))
           = (front ++ [mkMessage User input])%list)
    /\ (exists front,
           Gemini.prepareMessages
             (Js.nullishOr
                (AskParameters.messages
                   (AskParameters.withInput askParameters input)) [])
           = (front ++ [{| Gemini.Content.role := "user";
                           Gemini.Content.parts := [input] |}])%list)
    /\ (forall clientParameters sampling format, exists front,
           Mistral.Request.messages
             (Mistral.chatRequest clientParameters sampling
                (AskParameters.withInput askParameters input) format)
           = (front ++ [mkMessage User input])%list).
Proof.
  intros C askParameters input.
  repeat match goal with |- _ /\ _ => split end.
  - intros cp. unfold Claude.createBaseCompletionParams.
    cbn [Claude.Request.messages AskParameters.withInput AskParameters.messages
         AskParameters.instructions Js.nullishOr].
    rewrite claude_prepare_snoc. eexists. reflexivity.
  - intros cp. unfold OpenAi.createBaseCompletionParams.
    cbn [OpenAi.Request.messages AskParameters.withInput AskParameters.messages
         AskParameters.instructions Js.nullishOr].
    apply openai_prepare_snoc.
  - intros cp. unfold Groq.createBaseCompletionParams.
    cbn [Groq.Request.messages].
    apply groq_prepare_snoc.
  - cbn [AskParameters.withInput AskParameters.messages Js.nullishOr].
    rewrite gemini_prepare_app. eexists. reflexivity.
  - intros cp sampling format. unfold Mistral.chatRequest.
    cbn [Mistral.Request.messages AskParameters.withInput AskParameters.messages
         AskParameters.instructions Js.nullishOr].
    apply mistral_prepare_snoc.
Qed.

(** X1. In the request that [ask] and [stream] of every client send, the
    caller's input is the last message, a user message with the input as
    its content, whatever the conversation and the instructions are; so
    the list of messages is never empty. ([askJson] is another matter:
    Mistral's sends the input followed by the schema as its last
    message.) *)
Theorem input_is_last_message :
  forall (C : Collaborators) (askParameters : AskParameters.t) (input : string),
    let updatedParameters := AskParameters.withInput askParameters input in
    (forall clientParameters,
        let request streamed :=
          Claude.withStream
            (@Claude.createBaseCompletionParams C clientParameters
               updatedParameters)
            streamed in
        sends (fun create => Claude.ask create clientParameters input askParameters)
              (request false)
        /\ sends (fun createStream =>
                    Claude.stream createStream clientParameters input
                                  askParameters)
                 (request true)
        /\ forall streamed, exists front,
             Claude.Request.messages (request streamed)
             = (front ++ [mkMessage User input])%list)
    /\ (forall clientParameters,
           let request streamed :=
             OpenAi.extend
               (@OpenAi.createBaseCompletionParams C clientParameters
                  updatedParameters)
               streamed None in
           sends (fun create =>
                    OpenAi.ask create clientParameters input askParameters)
                 (request false)
           /\ sends (fun createStream =>
                       OpenAi.stream createStream clientParameters input
                                     askParameters)
                    (request true)
           /\ forall streamed, exists front,
                OpenAi.Request.messages (request streamed)
                = (front ++ [mkMessage User input])%list)
    /\ (forall clientParameters,
           let request streamed :=
             Groq.extend
               (@Groq.createBaseCompletionParams C clientParameters
                  updatedParameters)
               streamed None in
           sends (fun create =>
                    Groq.ask create clientParameters input askParameters)
                 (request false)
           /\ sends (fun createStream =>
                       Groq.stream createStream clientParameters input
                                   askParameters)
                    (request true)
           /\ forall streamed, exists front,
                Groq.Request.messages (request streamed)
                = (front ++ [mkMessage User input])%list)
    /\ (forall clientParameters,
           let request : Gemini.Request.t C :=
             {| Gemini.Request.model := ClientParameters.model clientParameters;
                Gemini.Request.contents :=
                  Gemini.prepareMessages
                    (Js.nullishOr (AskParameters.messages updatedParameters) []);
                Gemini.Request.config :=
                  Gemini.createGenerationConfig clientParameters
                                                updatedParameters |} in
           sends (fun generateContent =>
                    Gemini.ask generateContent clientParameters input
                               askParameters)
                 request
           /\ sends (fun generateContentStream =>
                       Gemini.stream generateContentStream clientParameters
                                     input askParameters)
                    request
           /\ exists front,
                Gemini.Request.contents request
                = (front ++ [{| Gemini.Content.role := "user";
                                Gemini.Content.parts := [input] |}])%list)
    /\ (forall clientParameters,
           let request :=
             Mistral.chatRequest clientParameters askParameters
                                 updatedParameters None in
           sends (fun complete =>
                    Mistral.ask complete clientParameters input askParameters)
                 request
           /\ sends (fun chatStream =>
                       Mistral.stream chatStream clientParameters input
                                      askParameters)
                    request
           /\ exists front,
                Mistral.Request.messages request
                = (front ++ [mkMessage User input])%list).
Proof.
  intros C askParameters input updatedParameters.
  destruct (built_request_ends_with_input C askParameters input)
    as [Hclaude [Hopenai [Hgroq [Hgemini Hmistral]]]].
  split; [|split; [|split; [|split]]]; intros cp request.
  - split; [apply claude_ask_sends | split; [apply claude_stream_sends|]].
    intros streamed. exact (Hclaude cp).
  - split; [apply openai_ask_sends | split; [apply openai_stream_sends|]].
    intros streamed. exact (Hopenai cp).
  - split; [apply groq_ask_sends | split; [apply groq_stream_sends|]].
    intros streamed. exact (Hgroq cp).
  - split; [apply gemini_ask_sends | split; [apply gemini_stream_sends|]].
    exact Hgemini.
  - split; [apply mistral_ask_sends | split; [apply mistral_stream_sends|]].
    exact (Hmistral cp askParameters None).
Qed.

Lemma no_system_after_mapping (f : Message -> Message) (l : list Message) :
  (forall m, role (f m) = System -> role m = System) ->
  hasSystemMessage l = false ->
  Forall (fun out => role out <> System) (map f l).
Proof.
  intros Hf. induction l as [|m l IH]; simpl; intros H; constructor.
  - apply Bool.orb_false_iff in H. destruct H as [Hm _].
    intros Hrole. apply Hf in Hrole. unfold isSystem in Hm.
    rewrite Hrole in Hm. discriminate.
  - apply IH. apply Bool.orb_false_iff in H. apply H.
Qed.

Lemma openai_mapRole_system (m : Message) :
  role (OpenAi.mapRole m) = System -> role m = System.
Proof. unfold OpenAi.mapRole. destruct (role m); simpl; congruence. Qed.

Lemma groq_mapRole_system (m : Message) :
  role (Groq.mapRole m) = System -> role m = System.
Proof. unfold Groq.mapRole. destruct (role m); simpl; congruence. Qed.

Lemma mistral_mapRole_system (m : Message) :
  role (Mistral.mapRole m) = System -> role m = System.
Proof. unfold Mistral.mapRole. destruct (role m); simpl; congruence. Qed.

Lemma find_no_system (l : list Message) :
  hasSystemMessage l = false -> find isSystem l = None.
Proof.
  induction l as [|m l IH]; simpl; intros H; [reflexivity|].
  apply Bool.orb_false_iff in H. destruct H as [Hm Hl].
  rewrite Hm. exact (IH Hl).
Qed.

Lemma hasSystemMessage_snoc_user (l : list Message) (input : string) :
  hasSystemMessage (l ++ [mkMessage User input])%list = hasSystemMessage l.
Proof.
  unfold hasSystemMessage. rewrite existsb_app. cbn. apply Bool.orb_false_r.
Qed.

(** When the conversation has no system message and the effective
    instructions, the call's if it has any and the client's otherwise, are
    a non-empty text [I]: the builders of OpenAI, Groq and Mistral put one
    system message [I] in front of the mapped conversation, which has no
    other system message; the builder of Claude makes [I] the [system]
    field and the one of Gemini the system instruction. *)
Lemma instructions_are_put_in_front :
  forall (C : Collaborators) (conversation : list Message)
         (t mt tp tk pp fp : option Js.number) (ins : option string)
         (th : option Thinking) (u : option string) (I : string),
    hasSystemMessage conversation = false ->
    Js.truthyString I = true ->
    let call := AskParameters.mk (Some conversation) t mt tp tk pp fp ins th u in
    (forall clientParameters,
        Js.nullish ins (ClientParameters.instructions clientParameters) = Some I ->
        Claude.Request.system
          (@Claude.createBaseCompletionParams C clientParameters call) = Some I
        /\ Claude.Request.messages
             (@Claude.createBaseCompletionParams C clientParameters call)
           = map Claude.mapRole conversation)
    /\ (forall clientParameters,
           Js.nullish ins (ClientParameters.instructions clientParameters) = Some I ->
           Gemini.Config.systemInstruction
             (@Gemini.createGenerationConfig C clientParameters call) = Some I)
    /\ (forall clientParameters,
           Js.nullish ins (ClientParameters.instructions clientParameters) = Some I ->
           OpenAi.Request.messages
             (@OpenAi.createBaseCompletionParams C clientParameters call)
           = mkMessage System I :: map OpenAi.mapRole conversation
           /\ Forall (fun out => role out <> System)
                     (map OpenAi.mapRole conversation))
    /\ (forall clientParameters,
           Js.nullish ins (ClientParameters.instructions clientParameters) = Some I ->
           Groq.Request.messages
             (@Groq.createBaseCompletionParams C clientParameters call)
           = mkMessage System I :: map Groq.mapRole conversation
           /\ Forall (fun out => role out <> System)
                     (map Groq.mapRole conversation))
    /\ (forall clientParameters sampling format,
           Js.nullish ins (ClientParameters.instructions clientParameters) = Some I ->
           Mistral.Request.messages
             (Mistral.chatRequest clientParameters sampling call format)
           = mkMessage System I :: map Mistral.mapRole conversation
           /\ Forall (fun out => role out <> System)
                     (map Mistral.mapRole conversation)).
Proof.
  intros C conversation t mt tp tk pp fp ins th u I Hnone HI call.
  repeat match goal with |- _ /\ _ => split end.
  - intros cp Heff.
    unfold Claude.createBaseCompletionParams, Claude.prepareMessages.
    cbn [Claude.Request.system Claude.Request.messages call AskParameters.messages
         AskParameters.instructions Js.nullishOr].
    rewrite Heff, (findIndex_no_system _ Hnone). cbn [Js.truthy]. rewrite HI.
    split; reflexivity.
  - intros cp Heff.
    unfold Gemini.createGenerationConfig, Gemini.extractSystemPrompt.
    cbn [Gemini.Config.systemInstruction call AskParameters.messages
         AskParameters.instructions Js.nullishOr].
    rewrite Heff. cbn [Js.truthy]. rewrite HI. cbn [Js.truthy]. rewrite HI.
    reflexivity.
  - intros cp Heff.
    unfold OpenAi.createBaseCompletionParams, OpenAi.prepareMessages.
    cbn [OpenAi.Request.messages call AskParameters.messages
         AskParameters.instructions Js.nullishOr].
    rewrite Heff, HI, Hnone. split; [reflexivity|].
    apply no_system_after_mapping; [apply openai_mapRole_system | exact Hnone].
  - intros cp Heff.
    unfold Groq.createBaseCompletionParams, Groq.prepareMessages,
      Groq.withSystemPrompt.
    cbn [Groq.Request.messages call AskParameters.messages
         AskParameters.instructions Js.nullishOr].
    rewrite Heff, HI. cbn [option_map Js.truthy]. rewrite Hnone.
    split; [reflexivity|].
    apply no_system_after_mapping; [apply groq_mapRole_system | exact Hnone].
  - intros cp sampling format Heff.
    unfold Mistral.chatRequest, Mistral.prepareMessages.
    cbn [Mistral.Request.messages call AskParameters.messages
         AskParameters.instructions Js.nullishOr].
    rewrite Heff, HI, Hnone. split; [reflexivity|].
    apply no_system_after_mapping; [apply mistral_mapRole_system | exact Hnone].
Qed.

(** X2. When the conversation has no system message and the effective
    instructions, the call's if it has any and the client's otherwise, are
    a non-empty text [I], the request that [ask] and [stream] send carries
    [I] once: for OpenAI, Groq and Mistral as one system message in front
    of the mapped conversation and the input, which hold no other system
    message; for Claude as [system]; for Gemini as system instruction.
    ([askJson] is another matter: on a model without structured outputs
    Groq's sends [I] followed by its JSON instructions.) *)
Theorem instructions_become_the_only_system_entry :
  forall (C : Collaborators) (askParameters : AskParameters.t) (input I : string),
    let conversation := Js.nullishOr (AskParameters.messages askParameters) [] in
    let updatedParameters := AskParameters.withInput askParameters input in
    hasSystemMessage conversation = false ->
    Js.truthyString I = true ->
    (forall clientParameters,
        Js.nullish (AskParameters.instructions askParameters)
                   (ClientParameters.instructions clientParameters) = Some I ->
        let request streamed :=
          Claude.withStream
            (@Claude.createBaseCompletionParams C clientParameters
               updatedParameters)
            streamed in
        sends (fun create => Claude.ask create clientParameters input askParameters)
              (request false)
        /\ sends (fun createStream =>
                    Claude.stream createStream clientParameters input
                                  askParameters)
                 (request true)
        /\ forall streamed,
             Claude.Request.system (request streamed) = Some I
             /\ Claude.Request.messages (request streamed)
                = (map Claude.mapRole conversation ++ [mkMessage User input])%list)
    /\ (forall clientParameters,
           Js.nullish (AskParameters.instructions askParameters)
                      (ClientParameters.instructions clientParameters) = Some I ->
           let request : Gemini.Request.t C :=
             {| Gemini.Request.model := ClientParameters.model clientParameters;
                Gemini.Request.contents :=
                  Gemini.prepareMessages
                    (Js.nullishOr (AskParameters.messages updatedParameters) []);
                Gemini.Request.config :=
                  Gemini.createGenerationConfig clientParameters
                                                updatedParameters |} in
           sends (fun generateContent =>
                    Gemini.ask generateContent clientParameters input
                               askParameters)
                 request
           /\ sends (fun generateContentStream =>
                       Gemini.stream generateContentStream clientParameters
                                     input askParameters)
                    request
           /\ Gemini.Config.systemInstruction (Gemini.Request.config request)
              = Some I)
    /\ (forall clientParameters,
           Js.nullish (AskParameters.instructions askParameters)
                      (ClientParameters.instructions clientParameters) = Some I ->
           let request streamed :=
             OpenAi.extend
               (@OpenAi.createBaseCompletionParams C clientParameters
                  updatedParameters)
               streamed None in
           sends (fun create =>
                    OpenAi.ask create clientParameters input askParameters)
                 (request false)
           /\ sends (fun createStream =>
                       OpenAi.stream createStream clientParameters input
                                     askParameters)
                    (request true)
           /\ (forall streamed,
                  OpenAi.Request.messages (request streamed)
                  = (mkMessage System I :: map OpenAi.mapRole conversation
                     ++ [mkMessage User input])%list)
           /\ Forall (fun out => role out <> System)
                     (map OpenAi.mapRole conversation
                      ++ [mkMessage User input])%list)
    /\ (forall clientParameters,
           Js.nullish (AskParameters.instructions askParameters)
                      (ClientParameters.instructions clientParameters) = Some I ->
           let request streamed :=
             Groq.extend
               (@Groq.createBaseCompletionParams C clientParameters
                  updatedParameters)
               streamed None in
           sends (fun create =>
                    Groq.ask create clientParameters input askParameters)
                 (request false)
           /\ sends (fun createStream =>
                       Groq.stream createStream clientParameters input
                                   askParameters)
                    (request true)
           /\ (forall streamed,
                  Groq.Request.messages (request streamed)
                  = (mkMessage System I :: map Groq.mapRole conversation
                     ++ [mkMessage User input])%list)
           /\ Forall (fun out => role out <> System)
                     (map Groq.mapRole conversation
                      ++ [mkMessage User input])%list)
    /\ (forall clientParameters,
           Js.nullish (AskParameters.instructions askParameters)
                      (ClientParameters.instructions clientParameters) = Some I ->
           let request :=
             Mistral.chatRequest clientParameters askParameters
                                 updatedParameters None in
           sends (fun complete =>
                    Mistral.ask complete clientParameters input askParameters)
                 request
           /\ sends (fun chatStream =>
                       Mistral.stream chatStream clientParameters input
                                      askParameters)
                    request
           /\ Mistral.Request.messages request
              = (mkMessage System I :: map Mistral.mapRole conversation
                 ++ [mkMessage User input])%list
           /\ Forall (fun out => role out <> System)
                     (map Mistral.mapRole conversation
                      ++ [mkMessage User input])%list).
Proof.
  intros C askParameters input I conversation updatedParameters Hnone HI.
  assert (Hnone' : hasSystemMessage (conversation ++ [mkMessage User input])%list
                   = false)
    by (rewrite hasSystemMessage_snoc_user; exact Hnone).
  destruct (instructions_are_put_in_front C
              (conversation ++ [mkMessage User input])%list
              (AskParameters.temperature askParameters)
              (AskParameters.maxTokens askParameters)
              (AskParameters.topP askParameters)
              (AskParameters.topK askParameters)
              (AskParameters.presencePenalty askParameters)
              (AskParameters.frequencyPenalty askParameters)
              (AskParameters.instructions askParameters)
              (AskParameters.thinking askParameters)
              (AskParameters.user askParameters)
              I Hnone' HI)
    as [Hclaude [Hgemini [Hopenai [Hgroq Hmistral]]]].
  split; [|split; [|split; [|split]]]; intros cp Heff request.
  - split; [apply claude_ask_sends | split; [apply claude_stream_sends|]].
    intros streamed. destruct (Hclaude cp Heff) as [Hsystem Hmessages].
    split; [exact Hsystem|].
    unfold request. cbn [Claude.withStream Claude.Request.messages].
    etransitivity; [exact Hmessages|]. rewrite map_app. reflexivity.
  - split; [apply gemini_ask_sends | split; [apply gemini_stream_sends|]].
    exact (Hgemini cp Heff).
  - split; [apply openai_ask_sends | split; [apply openai_stream_sends|]].
    destruct (Hopenai cp Heff) as [Hmessages Hclean].
    rewrite map_app in Hmessages, Hclean.
    split; [intros streamed; exact Hmessages | exact Hclean].
  - split; [apply groq_ask_sends | split; [apply groq_stream_sends|]].
    destruct (Hgroq cp Heff) as [Hmessages Hclean].
    rewrite map_app in Hmessages, Hclean.
    split; [intros streamed; exact Hmessages | exact Hclean].
  - split; [apply mistral_ask_sends | split; [apply mistral_stream_sends|]].
    destruct (Hmistral cp askParameters None Heff) as [Hmessages Hclean].
    rewrite map_app in Hmessages, Hclean.
    split; [exact Hmessages | exact Hclean].
Qed.

(** For an OpenAI client created with ["Be brief."] and asked with
    ["Be kind."], and for a Claude client created with ["Be brief."]. *)
Lemma instructions_become_the_only_system_entry_witness :
  OpenAi.Request.messages
    (OpenAi.extend
       (@OpenAi.createBaseCompletionParams Sample.collaborators
          (Sample.instructed "gpt-4.1" "Be brief.")
          (AskParameters.withInput
             (Sample.conversing [mkMessage Assistant "hello"] (Some "Be kind."))
             "hi"))
       false None)
  = [mkMessage System "Be kind."; mkMessage Assistant "hello"; mkMessage User "hi"]
  /\ Claude.Request.system
       (Claude.withStream
          (@Claude.createBaseCompletionParams Sample.collaborators
             (Sample.instructed "claude-opus-4-1" "Be brief.")
             (AskParameters.withInput
                (Sample.conversing [mkMessage Assistant "hello"] None) "hi"))
          true)
     = Some "Be brief.".
Proof.
  split.
  - destruct (instructions_become_the_only_system_entry
                Sample.collaborators
                (Sample.conversing [mkMessage Assistant "hello"] (Some "Be kind."))
                "hi" "Be kind." eq_refl eq_refl)
      as [_ [_ [Hopenai _]]].
    destruct (Hopenai (Sample.instructed "gpt-4.1" "Be brief.") eq_refl)
      as [_ [_ [Hmessages _]]].
    exact (Hmessages false).
  - destruct (instructions_become_the_only_system_entry
                Sample.collaborators
                (Sample.conversing [mkMessage Assistant "hello"] None)
                "hi" "Be brief." eq_refl eq_refl)
      as [Hclaude _].
    destruct (Hclaude (Sample.instructed "claude-opus-4-1" "Be brief.") eq_refl)
      as [_ [_ Hfields]].
    exact (proj1 (Hfields true)).
Defined.

(** With the empty string as the call's instructions and a conversation
    without system message, the builder of Claude leaves [system] out, the
    one of Gemini the system instruction, and the builders of OpenAI, Groq
    and Mistral make no system message, whatever instructions the client
    was created with. *)
Lemma empty_instructions_leave_no_system_entry :
  forall (C : Collaborators) (conversation : list Message)
         (t mt tp tk pp fp : option Js.number) (th : option Thinking)
         (u : option string),
    hasSystemMessage conversation = false ->
    let call :=
      AskParameters.mk (Some conversation) t mt tp tk pp fp (Some "") th u in
    (forall clientParameters,
        Claude.Request.system
          (@Claude.createBaseCompletionParams C clientParameters call) = None)
    /\ (forall clientParameters,
           Gemini.Config.systemInstruction
             (@Gemini.createGenerationConfig C clientParameters call) = None)
    /\ (forall clientParameters,
           Forall (fun out => role out <> System)
                  (OpenAi.Request.messages
                     (@OpenAi.createBaseCompletionParams C clientParameters call)))
    /\ (forall clientParameters,
           Forall (fun out => role out <> System)
                  (Groq.Request.messages
                     (@Groq.createBaseCompletionParams C clientParameters call)))
    /\ (forall clientParameters sampling format,
           Forall (fun out => role out <> System)
                  (Mistral.Request.messages
                     (Mistral.chatRequest clientParameters sampling call format))).
Proof.
  intros C conversation t mt tp tk pp fp th u Hnone call.
  repeat match goal with |- _ /\ _ => split end.
  - intros cp. unfold Claude.createBaseCompletionParams, Claude.prepareMessages.
    cbn [Claude.Request.system call AskParameters.messages
         AskParameters.instructions Js.nullishOr Js.nullish].
    rewrite (findIndex_no_system _ Hnone). reflexivity.
  - intros cp. unfold Gemini.createGenerationConfig, Gemini.extractSystemPrompt.
    cbn [Gemini.Config.systemInstruction call AskParameters.messages
         AskParameters.instructions Js.nullishOr Js.nullish].
    cbn. rewrite (find_no_system _ Hnone). reflexivity.
  - intros cp. unfold OpenAi.createBaseCompletionParams, OpenAi.prepareMessages.
    cbn [OpenAi.Request.messages call AskParameters.messages
         AskParameters.instructions Js.nullishOr Js.nullish].
    cbn [Js.truthyString String.eqb negb andb].
    apply no_system_after_mapping; [apply openai_mapRole_system | exact Hnone].
  - intros cp. unfold Groq.createBaseCompletionParams, Groq.prepareMessages,
      Groq.withSystemPrompt.
    cbn [Groq.Request.messages call AskParameters.messages
         AskParameters.instructions Js.nullishOr Js.nullish].
    cbn [Js.truthyString String.eqb negb option_map Js.nullishOr].
    apply no_system_after_mapping; [apply groq_mapRole_system | exact Hnone].
  - intros cp sampling format. unfold Mistral.chatRequest, Mistral.prepareMessages.
    cbn [Mistral.Request.messages call AskParameters.messages
         AskParameters.instructions Js.nullishOr Js.nullish].
    cbn [Js.truthyString String.eqb negb andb].
    apply no_system_after_mapping; [apply mistral_mapRole_system | exact Hnone].
Qed.

(** X3. Instructions given as the empty string with a call switch the
    client's own instructions off in [ask] and [stream]: when the
    conversation has no system message, the request they send has no
    [system] for Claude, no system instruction for Gemini, and no system
    message for OpenAI, Groq and Mistral, whatever instructions the client
    was created with. ([askJson] is another matter: on a model without
    structured outputs Groq's still sends its JSON instructions as a
    system message.) *)
Theorem empty_instructions_suppress_client_instructions :
  forall (C : Collaborators) (askParameters : AskParameters.t) (input : string),
    let conversation := Js.nullishOr (AskParameters.messages askParameters) [] in
    let updatedParameters := AskParameters.withInput askParameters input in
    hasSystemMessage conversation = false ->
    AskParameters.instructions askParameters = Some "" ->
    (forall clientParameters,
        let request streamed :=
          Claude.withStream
            (@Claude.createBaseCompletionParams C clientParameters
               updatedParameters)
            streamed in
        sends (fun create => Claude.ask create clientParameters input askParameters)
              (request false)
        /\ sends (fun createStream =>
                    Claude.stream createStream clientParameters input
                                  askParameters)
                 (request true)
        /\ forall streamed, Claude.Request.system (request streamed) = None)
    /\ (forall clientParameters,
           let request : Gemini.Request.t C :=
             {| Gemini.Request.model := ClientParameters.model clientParameters;
                Gemini.Request.contents :=
                  Gemini.prepareMessages
                    (Js.nullishOr (AskParameters.messages updatedParameters) []);
                Gemini.Request.config :=
                  Gemini.createGenerationConfig clientParameters
                                                updatedParameters |} in
           sends (fun generateContent =>
                    Gemini.ask generateContent clientParameters input
                               askParameters)
                 request
           /\ sends (fun generateContentStream =>
                       Gemini.stream generateContentStream clientParameters
                                     input askParameters)
                    request
           /\ Gemini.Config.systemInstruction (Gemini.Request.config request)
              = None)
    /\ (forall clientParameters,
           let request streamed :=
             OpenAi.extend
               (@OpenAi.createBaseCompletionParams C clientParameters
                  updatedParameters)
               streamed None in
           sends (fun create =>
                    OpenAi.ask create clientParameters input askParameters)
                 (request false)
           /\ sends (fun createStream =>
                       OpenAi.stream createStream clientParameters input
                                     askParameters)
                    (request true)
           /\ forall streamed,
                Forall (fun out => role out <> System)
                       (OpenAi.Request.messages (request streamed)))
    /\ (forall clientParameters,
           let request streamed :=
             Groq.extend
               (@Groq.createBaseCompletionParams C clientParameters
                  updatedParameters)
               streamed None in
           sends (fun create =>
                    Groq.ask create clientParameters input askParameters)
                 (request false)
           /\ sends (fun createStream =>
                       Groq.stream createStream clientParameters input
                                   askParameters)
                    (request true)
           /\ forall streamed,
                Forall (fun out => role out <> System)
                       (Groq.Request.messages (request streamed)))
    /\ (forall clientParameters,
           let request :=
             Mistral.chatRequest clientParameters askParameters
                                 updatedParameters None in
           sends (fun complete =>
                    Mistral.ask complete clientParameters input askParameters)
                 request
           /\ sends (fun chatStream =>
                       Mistral.stream chatStream clientParameters input
                                      askParameters)
                    request
           /\ Forall (fun out => role out <> System)
                     (Mistral.Request.messages request)).
Proof.
  intros C askParameters input conversation updatedParameters Hnone Hempty.
  assert (Hnone' : hasSystemMessage (conversation ++ [mkMessage User input])%list
                   = false)
    by (rewrite hasSystemMessage_snoc_user; exact Hnone).
  assert (Hupdated :
            updatedParameters
            = AskParameters.mk
                (Some (conversation ++ [mkMessage User input])%list)
                (AskParameters.temperature askParameters)
                (AskParameters.maxTokens askParameters)
                (AskParameters.topP askParameters)
                (AskParameters.topK askParameters)
                (AskParameters.presencePenalty askParameters)
                (AskParameters.frequencyPenalty askParameters)
                (Some "")
                (AskParameters.thinking askParameters)
                (AskParameters.user askParameters))
    by (unfold updatedParameters, AskParameters.withInput; rewrite Hempty;
        reflexivity).
  destruct (empty_instructions_leave_no_system_entry C
              (conversation ++ [mkMessage User input])%list
              (AskParameters.temperature askParameters)
              (AskParameters.maxTokens askParameters)
              (AskParameters.topP askParameters)
              (AskParameters.topK askParameters)
              (AskParameters.presencePenalty askParameters)
              (AskParameters.frequencyPenalty askParameters)
              (AskParameters.thinking askParameters)
              (AskParameters.user askParameters)
              Hnone')
    as [Hclaude [Hgemini [Hopenai [Hgroq Hmistral]]]].
  split; [|split; [|split; [|split]]]; intros cp request.
  - split; [apply claude_ask_sends | split; [apply claude_stream_sends|]].
    intros streamed. unfold request. rewrite Hupdated. exact (Hclaude cp).
  - split; [apply gemini_ask_sends | split; [apply gemini_stream_sends|]].
    unfold request. rewrite Hupdated. exact (Hgemini cp).
  - split; [apply openai_ask_sends | split; [apply openai_stream_sends|]].
    intros streamed. unfold request. rewrite Hupdated. exact (Hopenai cp).
  - split; [apply groq_ask_sends | split; [apply groq_stream_sends|]].
    intros streamed. unfold request. rewrite Hupdated. exact (Hgroq cp).
  - split; [apply mistral_ask_sends | split; [apply mistral_stream_sends|]].
    unfold request. rewrite Hupdated. exact (Hmistral cp askParameters None).
Qed.

(** For a Claude and an OpenAI client created with ["Be brief."]. *)
Lemma empty_instructions_suppress_client_instructions_witness :
  Claude.Request.system
    (Claude.withStream
       (@Claude.createBaseCompletionParams Sample.collaborators
          (Sample.instructed "claude-opus-4-1" "Be brief.")
          (AskParameters.withInput
             (Sample.conversing [mkMessage Assistant "hello"] (Some "")) "hi"))
       false)
  = None
  /\ Forall (fun out => role out <> System)
            (OpenAi.Request.messages
               (OpenAi.extend
                  (@OpenAi.createBaseCompletionParams Sample.collaborators
                     (Sample.instructed "gpt-4.1" "Be brief.")
                     (AskParameters.withInput
                        (Sample.conversing [mkMessage Assistant "hello"] (Some ""))
                        "hi"))
                  true None)).
Proof.
  destruct (empty_instructions_suppress_client_instructions
              Sample.collaborators
              (Sample.conversing [mkMessage Assistant "hello"] (Some "")) "hi"
              eq_refl eq_refl)
    as [Hclaude [_ [Hopenai _]]].
  split.
  - destruct (Hclaude (Sample.instructed "claude-opus-4-1" "Be brief."))
      as [_ [_ Hsystem]].
    exact (Hsystem false).
  - destruct (Hopenai (Sample.instructed "gpt-4.1" "Be brief."))
      as [_ [_ Hclean]].
    exact (Hclean true).
Defined.

Lemma openai_mapRole_twice (m : Message) :
  OpenAi.mapRole (OpenAi.mapRole m) = OpenAi.mapRole m.
Proof. destruct m as [r c]; destruct r; reflexivity. Qed.

Lemma mistral_mapRole_twice (m : Message) :
  Mistral.mapRole (Mistral.mapRole m) = Mistral.mapRole m.
Proof. destruct m as [r c]; destruct r; reflexivity. Qed.

Lemma claude_mapRole_twice (m : Message) :
  Claude.mapRole (Claude.mapRole m) = Claude.mapRole m.
Proof. destruct m as [r c]; destruct r; reflexivity. Qed.

Lemma hasSystemMessage_map (f : Message -> Message) (l : list Message) :
  (forall m, isSystem (f m) = isSystem m) ->
  hasSystemMessage (map f l) = hasSystemMessage l.
Proof.
  intros Hf. unfold hasSystemMessage.
  induction l as [|m l IH]; cbn [map existsb]; [reflexivity|].
  rewrite Hf, IH. reflexivity.
Qed.

Lemma openai_mapRole_isSystem (m : Message) :
  isSystem (OpenAi.mapRole m) = isSystem m.
Proof. destruct m as [r c]; destruct r; reflexivity. Qed.

Lemma mistral_mapRole_isSystem (m : Message) :
  isSystem (Mistral.mapRole m) = isSystem m.
Proof. destruct m as [r c]; destruct r; reflexivity. Qed.

Lemma claude_list_has_no_system (l : list Message) :
  hasSystemMessage (map Claude.mapRole l) = false.
Proof.
  unfold hasSystemMessage.
  induction l as [|m l IH]; cbn [map existsb]; [reflexivity|].
  rewrite IH. destruct m as [r c]; destruct r; reflexivity.
Qed.

Lemma map_twice {A : Type} (f : A -> A) (l : list A) :
  (forall a, f (f a) = f a) -> map f (map f l) = map f l.
Proof.
  intros Hf. rewrite map_map. apply map_ext. exact Hf.
Qed.

(** X4. Running [prepareMessages] on its own result changes nothing: for
    OpenAI and Mistral with the same instructions, for Claude's message
    list with any system prompt. *)
Theorem normalizing_twice_changes_nothing :
  forall (conversation : list Message) (instructions : option string),
    OpenAi.prepareMessages (OpenAi.prepareMessages conversation instructions)
                           instructions
    = OpenAi.prepareMessages conversation instructions
    /\ Mistral.prepareMessages (Mistral.prepareMessages conversation instructions)
                               instructions
       = Mistral.prepareMessages conversation instructions
    /\ (forall again : option string,
           Claude.Prepared.messages
             (Claude.prepareMessages
                (Claude.Prepared.messages
                   (Claude.prepareMessages conversation instructions))
                again)
           = Claude.Prepared.messages
               (Claude.prepareMessages conversation instructions)).
Proof.
  intros conversation instructions.
  repeat match goal with |- _ /\ _ => split end.
  - unfold OpenAi.prepareMessages.
    destruct instructions as [p|]; [|apply map_twice, openai_mapRole_twice].
    destruct (Js.truthyString p) eqn:Hp; cbn [andb];
      [|apply map_twice, openai_mapRole_twice].
    destruct (hasSystemMessage conversation) eqn:Hs; cbn [negb].
    + rewrite (hasSystemMessage_map _ _ openai_mapRole_isSystem), Hs.
      apply map_twice, openai_mapRole_twice.
    + cbn [map hasSystemMessage existsb]. cbn.
      f_equal. apply map_twice, openai_mapRole_twice.
  - unfold Mistral.prepareMessages.
    destruct instructions as [p|]; [|apply map_twice, mistral_mapRole_twice].
    destruct (Js.truthyString p) eqn:Hp; cbn [andb];
      [|apply map_twice, mistral_mapRole_twice].
    destruct (hasSystemMessage conversation) eqn:Hs; cbn [negb].
    + rewrite (hasSystemMessage_map _ _ mistral_mapRole_isSystem), Hs.
      apply map_twice, mistral_mapRole_twice.
    + cbn [map hasSystemMessage existsb]. cbn.
      f_equal. apply map_twice, mistral_mapRole_twice.
  - intros again.
    assert (Hshape : exists kept,
               Claude.Prepared.messages
                 (Claude.prepareMessages conversation instructions)
               = map Claude.mapRole kept).
    { unfold Claude.prepareMessages.
      destruct (findIndex isSystem conversation);
        [|destruct (Js.truthy Js.truthyString instructions)];
        eexists; reflexivity. }
    destruct Hshape as [kept Hkept]. rewrite Hkept.
    rewrite (claude_prepare_without_system _ _ (claude_list_has_no_system kept)).
    apply map_twice, claude_mapRole_twice.
Qed.

(** Groq is different: on its own result it appends the instructions to
    the system message a second time. *)
Lemma groq_appends_instructions_again :
  Groq.prepareMessages
    (Sample.conversing
       (Groq.prepareMessages (Sample.conversing Sample.conversation None)
                             (Some "B"))
       None)
    (Some "B")
  <> Groq.prepareMessages (Sample.conversing Sample.conversation None) (Some "B").
Proof. discriminate. Qed.

(** ** The fields of a request *)

(** The fields of a call that a provider's request has no place for
    do not change the request: [presencePenalty], [frequencyPenalty],
    [user] and [thinking] for Claude; [presencePenalty], [frequencyPenalty]
    and [user] for Gemini; [topK] for OpenAI and Groq; [topK],
    [presencePenalty], [frequencyPenalty], [thinking] and [user] for
    Mistral. *)
Lemma fields_without_counterpart_are_dropped :
  forall (C : Collaborators) (ms : option (list Message))
         (t mt tp tk pp fp : option Js.number) (ins : option string)
         (th : option Thinking) (u : option string),
    (forall clientParameters,
        @Claude.createBaseCompletionParams C clientParameters
          (AskParameters.mk ms t mt tp tk pp fp ins th u)
        = Claude.createBaseCompletionParams clientParameters
            (AskParameters.mk ms t mt tp tk None None ins None None))
    /\ (forall clientParameters,
           @Gemini.createGenerationConfig C clientParameters
             (AskParameters.mk ms t mt tp tk pp fp ins th u)
           = Gemini.createGenerationConfig clientParameters
               (AskParameters.mk ms t mt tp tk None None ins th None))
    /\ (forall clientParameters,
           @OpenAi.createBaseCompletionParams C clientParameters
             (AskParameters.mk ms t mt tp tk pp fp ins th u)
           = OpenAi.createBaseCompletionParams clientParameters
               (AskParameters.mk ms t mt tp None pp fp ins th u))
    /\ (forall clientParameters,
           @Groq.createBaseCompletionParams C clientParameters
             (AskParameters.mk ms t mt tp tk pp fp ins th u)
           = Groq.createBaseCompletionParams clientParameters
               (AskParameters.mk ms t mt tp None pp fp ins th u))
    /\ (forall clientParameters input format,
           Mistral.chatRequest clientParameters
             (AskParameters.mk ms t mt tp tk pp fp ins th u)
             (AskParameters.withInput
                (AskParameters.mk ms t mt tp tk pp fp ins th u) input)
             format
           = Mistral.chatRequest clientParameters
               (AskParameters.mk ms t mt tp None None None ins None None)
               (AskParameters.withInput
                  (AskParameters.mk ms t mt tp None None None ins None None) input)
               format).
Proof. intros; repeat split. Qed.

Lemma openai_thinking_models_are_the_restricted_ones (model : string) :
  Js.includes OpenAi.thinkingModels model
  = Js.includes OpenAi.modelsWithTemperatureRestrictions model.
Proof. reflexivity. Qed.

(** X5. An OpenAI request that carries a [reasoning_effort] never carries
    [off], and carries none of [temperature], [top_p], [presence_penalty]
    and [frequency_penalty]: the models that reason are the models whose
    sampling is fixed. *)
Theorem openai_reasoning_effort_excludes_sampling :
  forall (C : Collaborators) (clientParameters : ClientParameters.t string)
         (askParameters : AskParameters.t) (effort : Thinking),
    OpenAi.Request.reasoning_effort
      (@OpenAi.createBaseCompletionParams C clientParameters askParameters)
    = Some effort ->
    effort <> Off
    /\ OpenAi.Request.temperature
         (@OpenAi.createBaseCompletionParams C clientParameters askParameters) = None
    /\ OpenAi.Request.top_p
         (@OpenAi.createBaseCompletionParams C clientParameters askParameters) = None
    /\ OpenAi.Request.presence_penalty
         (@OpenAi.createBaseCompletionParams C clientParameters askParameters) = None
    /\ OpenAi.Request.frequency_penalty
         (@OpenAi.createBaseCompletionParams C clientParameters askParameters) = None.
Proof.
  intros C cp ap effort.
  unfold OpenAi.createBaseCompletionParams.
  cbn [OpenAi.Request.reasoning_effort OpenAi.Request.temperature
       OpenAi.Request.top_p OpenAi.Request.presence_penalty
       OpenAi.Request.frequency_penalty].
  rewrite openai_thinking_models_are_the_restricted_ones.
  destruct (Js.includes OpenAi.modelsWithTemperatureRestrictions
                        (ClientParameters.model cp));
    cbn [negb]; [|discriminate].
  intros H. split; [|repeat split].
  destruct (Js.nullish (AskParameters.thinking ap) (ClientParameters.thinking cp))
    as [[| | |]|]; inversion H; discriminate.
Qed.

Lemma openai_reasoning_effort_excludes_sampling_witness :
  Low <> Off
  /\ OpenAi.Request.temperature
       (@OpenAi.createBaseCompletionParams Sample.collaborators
          (Sample.client "o3-mini")
          (AskParameters.mk None (Some Sample.half) None None None None None
                            None (Some Off) None)) = None.
Proof.
  destruct (openai_reasoning_effort_excludes_sampling
              Sample.collaborators (Sample.client "o3-mini")
              (AskParameters.mk None (Some Sample.half) None None None None None
                                None (Some Off) None)
              Low eq_refl) as [Hoff [Htemp _]].
  split; [exact Hoff | exact Htemp].
Defined.

(** X6. No request asks the provider to include its reasoning.
    - Groq: [include_reasoning] is never [true]; it is [false] exactly
      when a [reasoning_effort] is sent, and none is sent when neither the
      call nor the client names a thinking level.
    - Gemini: a [thinkingConfig] is sent exactly when a thinking level is
      named; it always has [includeThoughts: false], and for a model of
      [thinkingOnlyModels] its budget is never zero. *)
Theorem reasoning_text_is_never_requested :
  forall (C : Collaborators) (askParameters : AskParameters.t),
    (forall clientParameters : ClientParameters.t Groq.GroqModel,
        Groq.Request.include_reasoning
          (@Groq.createBaseCompletionParams C clientParameters askParameters)
        <> Some true
        /\ (Groq.Request.include_reasoning
              (@Groq.createBaseCompletionParams C clientParameters askParameters)
            = Some false
            <-> Groq.Request.reasoning_effort
                  (@Groq.createBaseCompletionParams C clientParameters askParameters)
                <> None)
        /\ (Js.nullish (AskParameters.thinking askParameters)
                       (ClientParameters.thinking clientParameters) = None ->
            Groq.Request.reasoning_effort
              (@Groq.createBaseCompletionParams C clientParameters askParameters)
            = None))
    /\ (forall clientParameters : ClientParameters.t string,
           match Gemini.Config.thinkingConfig
                   (@Gemini.createGenerationConfig C clientParameters askParameters)
           with
           | Some config =>
               Gemini.includeThoughts config = false
               /\ Js.nullish (AskParameters.thinking askParameters)
                             (ClientParameters.thinking clientParameters) <> None
               /\ (Js.includes Gemini.thinkingOnlyModels
                               (ClientParameters.model clientParameters) = true ->
                   Js.truthyNumber (Gemini.thinkingBudget config) = true)
           | None =>
               Js.nullish (AskParameters.thinking askParameters)
                          (ClientParameters.thinking clientParameters) = None
           end).
Proof.
  intros C ap. split.
  - intros cp. unfold Groq.createBaseCompletionParams.
    cbn [Groq.Request.include_reasoning Groq.Request.reasoning_effort].
    destruct (Js.nullish (AskParameters.thinking ap) (ClientParameters.thinking cp))
      as [level|].
    + destruct (Groq.getReasoningEffortByModel (ClientParameters.model cp) level);
        (split; [discriminate | split; [split; congruence | discriminate]]).
    + split; [discriminate | split; [split; congruence | reflexivity]].
  - intros cp. unfold Gemini.createGenerationConfig.
    cbn [Gemini.Config.thinkingConfig].
    destruct (Js.nullish (AskParameters.thinking ap) (ClientParameters.thinking cp))
      as [level|]; [|reflexivity].
    destruct level;
      try (split; [reflexivity | split; [discriminate | intros _; reflexivity]]).
    destruct (Js.includes Gemini.thinkingOnlyModels (ClientParameters.model cp));
      (split; [reflexivity | split; [discriminate | intros H; try discriminate H;
                                                    reflexivity]]).
Qed.

Lemma reasoning_text_is_never_requested_witness :
  Groq.Request.reasoning_effort
    (@Groq.createBaseCompletionParams Sample.collaborators
       (Sample.client Groq.openai_gpt_oss_20b) AskParameters.empty)
  = None
  /\ Js.truthyNumber
       (Gemini.thinkingBudgetTokens Low) = true.
Proof.
  destruct (reasoning_text_is_never_requested
              Sample.collaborators AskParameters.empty) as [Hgroq _].
  destruct (Hgroq (Sample.client Groq.openai_gpt_oss_20b)) as [_ [_ Hnone]].
  split; [apply Hnone; reflexivity|].
  destruct (reasoning_text_is_never_requested
              Sample.collaborators
              (AskParameters.mk None None None None None None None None
                                (Some Off) None)) as [_ Hgemini].
  specialize (Hgemini (Sample.client "gemini-2.5-pro")).
  cbn in Hgemini. destruct Hgemini as [_ [_ Hbudget]].
  apply Hbudget. reflexivity.
Defined.

(** ** What the methods return *)

Lemma orEmpty_defined (s : string) : orEmpty (Js.Defined s) = s.
Proof.
  unfold orEmpty. destruct (Js.truthyString s) eqn:H; [reflexivity|].
  apply falsy_string_empty in H. subst s. reflexivity.
Qed.

Lemma stripThinking_defined (text : string) :
  exists stripped, Groq.stripThinking (Js.Defined text) = Js.Defined stripped.
Proof.
  unfold Groq.stripThinking. destruct (Js.startsWith text "<think>"); eauto.
Qed.

(** X7. When the provider answers with the text [text] as its first
    candidate, [ask] returns it: as it is for OpenAI, Claude and Mistral,
    trimmed for Gemini, without its leading reasoning block for Groq. *)
Theorem ask_returns_first_candidate_text :
  forall (C : Collaborators) (sdks : Sdks C) (parameters : AiClientParameters)
         (input : string) (askParameters : AskParameters.t) (text : string),
    answersText sdks parameters text ->
    AiClient.ask (createAiClient sdks parameters) input askParameters
    = Js.Returned (Value (askText parameters text)).
Proof.
  intros C sdks parameters input askParameters text Hanswer.
  destruct parameters as [p|p|p|p|p]; simpl in Hanswer |- *;
    [unfold OpenAi.ask | unfold Gemini.ask | unfold Groq.ask
    | unfold Claude.ask | unfold Mistral.ask].
  - match goal with
    | |- context [openaiCreate sdks p ?r] =>
        destruct (Hanswer r) as [completion [Hcall Htext]]
    end.
    rewrite Hcall. cbn [Js.bind Js.tryCatch]. rewrite Htext, orEmpty_defined.
    reflexivity.
  - rewrite Hanswer. cbn [Js.bind Js.tryCatch Gemini.text Js.truthy Js.nullishOr].
    destruct (Js.truthyString text) eqn:Ht; [reflexivity|].
    apply falsy_string_empty in Ht. subst text. reflexivity.
  - match goal with
    | |- context [groqCreate sdks p ?r] =>
        destruct (Hanswer r) as [completion [Hcall Htext]]
    end.
    rewrite Hcall. cbn [Js.bind Js.tryCatch]. rewrite Htext. reflexivity.
  - match goal with
    | |- context [anthropicCreate sdks p ?r] =>
        destruct (Hanswer r) as [completion [Hcall Htext]]
    end.
    rewrite Hcall. cbn [Js.bind Js.tryCatch]. rewrite Htext. reflexivity.
  - rewrite Hanswer. reflexivity.
Qed.

Lemma ask_returns_first_candidate_text_witness :
  AiClient.ask
    (createAiClient (Sample.answering Sample.collaborators "  ok  " None)
                    (GoogleProvider (Sample.client "gemini-2.5-flash")))
    "hi" Sample.sampling
  = Js.Returned (Value "ok").
Proof.
  apply (ask_returns_first_candidate_text
           Sample.collaborators (Sample.answering Sample.collaborators "  ok  " None)
           (GoogleProvider (Sample.client "gemini-2.5-flash"))
           "hi" Sample.sampling "  ok  ").
  intros request. reflexivity.
Defined.

(** X8. [ask] returns an error only when the provider call rejected, and
    then it is the error that [handleError] returns for the rejected
    value: a response, whatever its content, never makes [ask] fail. *)
Theorem ask_fails_only_when_call_rejects :
  forall (C : Collaborators) (sdks : Sdks C) (parameters : AiClientParameters)
         (input : string) (askParameters : AskParameters.t) (e : Js.Error),
    AiClient.ask (createAiClient sdks parameters) input askParameters
    = Js.Returned (Failure e) ->
    exists v, someCallRejects sdks parameters v
              /\ handleError v = Js.Returned e.
Proof.
  intros C sdks parameters input askParameters e.
  destruct parameters as [p|p|p|p|p]; simpl;
    [unfold OpenAi.ask | unfold Gemini.ask | unfold Groq.ask
    | unfold Claude.ask | unfold Mistral.ask];
    match goal with
    | |- context [Js.bind ?call _] => destruct call as [r|v] eqn:Hcall
    end;
    cbn [Js.bind Js.tryCatch]; intros H.
  all: try (unfold returnError in H;
            destruct (handleError v) as [e'|raised] eqn:Hv;
            cbn [Js.bind] in H; [|discriminate H];
            injection H as H; subst e'; exists v; split;
            [eexists; exact Hcall | exact Hv]).
  - discriminate.
  - discriminate.
  - discriminate.
  - destruct (Claude.firstBlock r) as [[t|j|]|]; discriminate.
  - destruct r; discriminate.
Qed.

Lemma ask_fails_only_when_call_rejects_witness :
  exists v,
    someCallRejects (Sample.failing (Js.VString "boom"))
                    (MistralProvider (Sample.client "mistral-small-latest")) v
    /\ handleError v = Js.Returned (Js.newError "boom").
Proof.
  apply (ask_fails_only_when_call_rejects
           Sample.collaborators (Sample.failing (Js.VString "boom"))
           (MistralProvider (Sample.client "mistral-small-latest"))
           "hi" Sample.sampling (Js.newError "boom")).
  reflexivity.
Defined.

(** X9. When the provider answers with the text [text], [askJson]
    returns: its no-content error when it finds no content in the text;
    otherwise the error thrown by [JSON.parse] when the text is not JSON;
    otherwise the error thrown by [parse] when the value does not fit the
    schema; otherwise the validated value. What [JSON.parse] or [parse]
    throws goes through the [catch] block, [return handleError(error)].
    Claude parses no text: a text answer is its no-tool-use error. *)
Theorem askJson_parses_validates_and_returns_errors :
  forall (C : Collaborators) (sdks : Sdks C) (parameters : AiClientParameters)
         (input : string) (askParameters : AskParameters.t) (schema : Schema C)
         (jsonSchema : JsonSchema C) (text : string),
    answersText sdks parameters text ->
    toJsonSchema C schema = Js.Returned jsonSchema ->
    AiClient.askJson (createAiClient sdks parameters) input askParameters schema
    = match jsonText parameters text with
      | None => Js.Returned (Failure (emptyResponseError parameters))
      | Some json =>
          match JSON_parse C json with
          | Js.Threw syntaxError => returnError syntaxError
          | Js.Returned value =>
              match parse C schema value with
              | Js.Threw issue => returnError issue
              | Js.Returned output => Js.Returned (Value output)
              end
          end
      end.
Proof.
  intros C sdks parameters input askParameters schema jsonSchema text
         Hanswer Hschema.
  destruct parameters as [p|p|p|p|p]; simpl in Hanswer;
    cbn [createAiClient AiClient.askJson OpenAi.createOpenAiClient
         Gemini.createGeminiClient Groq.createGroqClient
         Claude.createClaudeClient Mistral.createMistralClient
         jsonText emptyResponseError];
    [unfold OpenAi.askJson | unfold Gemini.askJson | unfold Groq.askJson
    | unfold Claude.askJson | unfold Mistral.askJson];
    rewrite Hschema; cbn [Js.bind].
  - match goal with
    | |- context [openaiCreate sdks p ?r] =>
        destruct (Hanswer r) as [completion [Hcall Htext]]
    end.
    rewrite Hcall. cbn [Js.bind]. rewrite Htext, orEmpty_defined.
    cbn [truthyContent]. destruct (Js.truthyString text); cbn [negb]; [|reflexivity].
    destruct (JSON_parse C text) as [value|e]; cbn [Js.bind Js.tryCatch];
      [|reflexivity].
    destruct (parse C schema value); reflexivity.
  - rewrite Hanswer. cbn [Js.bind Gemini.text Js.truthy Js.nullishOr].
    destruct (Js.truthyString text); cbn [negb]; [|reflexivity].
    destruct (JSON_parse C (Js.trim text)) as [value|e]; cbn [Js.bind Js.tryCatch];
      [|reflexivity].
    destruct (parse C schema value); reflexivity.
  - match goal with
    | |- context [groqCreate sdks p ?r] =>
        destruct (Hanswer r) as [completion [Hcall Htext]]
    end.
    rewrite Hcall. cbn [Js.bind]. rewrite Htext.
    destruct (stripThinking_defined text) as [stripped Hs]. rewrite Hs.
    rewrite orEmpty_defined. cbn [truthyContent].
    destruct (Js.truthyString stripped); cbn [negb]; [|reflexivity].
    destruct (JSON_parse C stripped) as [value|e]; cbn [Js.bind Js.tryCatch];
      [|reflexivity].
    destruct (parse C schema value); reflexivity.
  - match goal with
    | |- context [anthropicCreate sdks p ?r] =>
        destruct (Hanswer r) as [completion [Hcall Htext]]
    end.
    rewrite Hcall. cbn [Js.bind Js.tryCatch]. rewrite Htext. reflexivity.
  - rewrite Hanswer. cbn [Js.bind].
    destruct (Js.truthyString text); cbn [negb]; [|reflexivity].
    destruct (JSON_parse C text) as [value|e]; cbn [Js.bind Js.tryCatch];
      [|reflexivity].
    destruct (parse C schema value); reflexivity.
Qed.

Lemma askJson_parses_validates_and_returns_errors_witness :
  AiClient.askJson
    (createAiClient (Sample.answering Sample.strict "not json" None)
                    (OpenAiProvider (Sample.client "gpt-4.1")))
    "hi" Sample.sampling "schema"
  = Js.Returned (Failure (Js.mkError "SyntaxError" "Unexpected token"))
  /\ AiClient.askJson
       (createAiClient (Sample.answering Sample.strict "{}" None)
                       (OpenAiProvider (Sample.client "gpt-4.1")))
       "hi" Sample.sampling "schema"
     = Js.Returned (Failure (Js.mkError "ValiError" "Invalid key"))
  /\ AiClient.askJson
       (createAiClient (Sample.answering Sample.strict "[1]" None)
                       (OpenAiProvider (Sample.client "gpt-4.1")))
       "hi" Sample.sampling "schema"
     = Js.Returned (Value "[1]").
Proof.
  split; [|split].
  - apply (askJson_parses_validates_and_returns_errors
             Sample.strict (Sample.answering Sample.strict "not json" None)
             (OpenAiProvider (Sample.client "gpt-4.1"))
             "hi" Sample.sampling "schema" "schema" "not json").
    + intros request. eexists. split; reflexivity.
    + reflexivity.
  - apply (askJson_parses_validates_and_returns_errors
             Sample.strict (Sample.answering Sample.strict "{}" None)
             (OpenAiProvider (Sample.client "gpt-4.1"))
             "hi" Sample.sampling "schema" "schema" "{}").
    + intros request. eexists. split; reflexivity.
    + reflexivity.
  - apply (askJson_parses_validates_and_returns_errors
             Sample.strict (Sample.answering Sample.strict "[1]" None)
             (OpenAiProvider (Sample.client "gpt-4.1"))
             "hi" Sample.sampling "schema" "schema" "[1]").
    + intros request. eexists. split; reflexivity.
    + reflexivity.
Defined.

Lemma iterate_ends {Chunk : Type} (opened : Js.outcome (EventStream Chunk))
    (pick : Chunk -> list string) :
  endsNormally opened -> thrown (iterate opened pick) = None.
Proof.
  destruct opened as [s|w]; simpl; intros H; [rewrite H; reflexivity | contradiction].
Qed.

Lemma iterate_thrown {Chunk : Type} (opened : Js.outcome (EventStream Chunk))
    (pick : Chunk -> list string) (raised : Js.value) :
  thrown (iterate opened pick) = Some raised ->
  exists v, breaksWith v opened /\ raised = rethrow v.
Proof.
  destruct opened as [s|w]; simpl.
  - destruct (failure s) as [v|]; simpl; intros H; [|discriminate].
    injection H as H. exists v. split; [reflexivity | congruence].
  - intros H. injection H as H. exists w. split; [reflexivity | congruence].
Qed.

(** X10. Iterating [stream] ends normally when the provider's stream
    does, and throws only when the provider's call or iteration failed
    with some value [v]; what it throws is then what [throw
    handleError(v)] throws: the error that [handleError] returns for [v],
    or, when the conversion of [v] to a string throws inside
    [handleError], what that conversion throws. Conversely, when every
    streaming call fails with [v] and [handleError] returns [e] for it,
    the iteration throws [e]. *)
Theorem stream_throws_only_when_call_breaks :
  forall (C : Collaborators) (sdks : Sdks C) (parameters : AiClientParameters)
         (input : string) (askParameters : AskParameters.t),
    (streamsEnd sdks parameters ->
     thrown (AiClient.stream (createAiClient sdks parameters) input askParameters)
     = None)
    /\ (forall raised,
           thrown (AiClient.stream (createAiClient sdks parameters) input
                                   askParameters)
           = Some raised ->
           exists v, someStreamBreaks sdks parameters v
                     /\ match handleError v with
                        | Js.Returned e => raised = Js.VError e
                        | Js.Threw w => raised = w /\ v = Js.VUnprintable w
                        end)
    /\ (forall v e,
           streamBreaks sdks parameters v ->
           handleError v = Js.Returned e ->
           thrown (AiClient.stream (createAiClient sdks parameters) input
                                   askParameters)
           = Some (Js.VError e)).
Proof.
  intros C sdks parameters input askParameters. split; [|split].
  - intros Hend. destruct parameters as [p|p|p|p|p]; simpl in Hend |- *;
      apply iterate_ends; apply Hend.
  - intros raised H.
    assert (Hv : exists v, someStreamBreaks sdks parameters v
                           /\ raised = rethrow v).
    { destruct parameters as [p|p|p|p|p]; simpl in H |- *;
        apply iterate_thrown in H; destruct H as [v [Hb He]];
        exists v; (split; [eexists; exact Hb | exact He]). }
    destruct Hv as [v [Hb He]]. exists v. split; [exact Hb|].
    unfold rethrow in He.
    destruct (handleError v) as [e|w] eqn:Hh; [exact He|].
    split; [exact He | apply handleError_throws, Hh].
  - intros v e Hb He.
    replace (Js.VError e) with (rethrow v)
      by (unfold rethrow; rewrite He; reflexivity).
    destruct parameters as [p|p|p|p|p]; simpl in Hb |- *;
      apply iterate_breaks; apply Hb.
Qed.

(** For a Claude client whose stream ends normally, and for one whose
    stream fails with the number 429 after its chunks. *)
Lemma stream_throws_only_when_call_breaks_witness :
  thrown (AiClient.stream
            (createAiClient (Sample.answering Sample.collaborators "ok" None)
                            (ClaudeProvider (Sample.client "claude-opus-4-1")))
            "hi" Sample.sampling)
  = None
  /\ thrown (AiClient.stream
               (createAiClient
                  (Sample.answering Sample.collaborators "ok"
                                    (Some (Js.VOther "429")))
                  (ClaudeProvider (Sample.client "claude-opus-4-1")))
               "hi" Sample.sampling)
     = Some (Js.VError (Js.newError "429")).
Proof.
  split.
  - destruct (stream_throws_only_when_call_breaks
                Sample.collaborators
                (Sample.answering Sample.collaborators "ok" None)
                (ClaudeProvider (Sample.client "claude-opus-4-1"))
                "hi" Sample.sampling) as [Hend _].
    apply Hend. intros request. reflexivity.
  - destruct (stream_throws_only_when_call_breaks
                Sample.collaborators
                (Sample.answering Sample.collaborators "ok"
                                  (Some (Js.VOther "429")))
                (ClaudeProvider (Sample.client "claude-opus-4-1"))
                "hi" Sample.sampling) as [_ [_ Hfail]].
    apply (Hfail (Js.VOther "429") (Js.newError "429")).
    + intros request. reflexivity.
    + reflexivity.
Defined.

Lemma concat_empty_cons (x : string) (l : list string) :
  String.concat "" (x :: l) = x ++ String.concat "" l.
Proof.
  destruct l as [|y l]; simpl; [|reflexivity].
  induction x as [|c x IH]; simpl; [reflexivity | rewrite <- IH; reflexivity].
Qed.

Lemma concat_skips_empty (l : list string) :
  String.concat "" (filter Js.truthyString l) = String.concat "" l.
Proof.
  induction l as [|x l IH]; [reflexivity|].
  cbn [filter]. destruct (Js.truthyString x) eqn:Hx.
  - rewrite !concat_empty_cons, IH. reflexivity.
  - apply falsy_string_empty in Hx. subst x.
    rewrite concat_empty_cons, IH. reflexivity.
Qed.

Lemma truthyContent_orEmpty (c : Js.nullable string) :
  truthyContent c = Js.truthyString (orEmpty c).
Proof.
  destruct c as [| |s]; try reflexivity.
  simpl. destruct (Js.truthyString s) eqn:H; [rewrite H|]; reflexivity.
Qed.

Lemma picked_contents (l : list ChatCompletion) :
  flat_map (fun chunk =>
              if truthyContent (firstContent chunk)
              then [orEmpty (firstContent chunk)] else [])
           l
  = filter Js.truthyString (map (fun chunk => orEmpty (firstContent chunk)) l).
Proof.
  induction l as [|c l IH]; [reflexivity|].
  cbn [flat_map map filter]. rewrite IH, truthyContent_orEmpty.
  destruct (Js.truthyString (orEmpty (firstContent c))); reflexivity.
Qed.

(** X11. The OpenAI and Groq streams yield the non-empty contents of the
    delivered chunks, in order, also those delivered before a failure;
    no fragment is empty, and joining the fragments gives the same text as
    joining the contents of all chunks. *)
Theorem chat_stream_skips_empty_deltas_and_keeps_the_text :
  forall (C : Collaborators)
         (input : string) (askParameters : AskParameters.t)
         (delivered : EventStream ChatCompletion),
    let texts :=
      map (fun chunk => orEmpty (firstContent chunk)) (chunks delivered) in
    (forall clientParameters,
        yielded (@OpenAi.stream C (fun _ => Js.Returned delivered)
                                clientParameters input askParameters)
        = filter Js.truthyString texts
        /\ String.concat ""
             (yielded (@OpenAi.stream C (fun _ => Js.Returned delivered)
                                      clientParameters input askParameters))
           = String.concat "" texts
        /\ Forall (fun fragment => fragment <> "")
                  (yielded (@OpenAi.stream C (fun _ => Js.Returned delivered)
                                           clientParameters input askParameters)))
    /\ (forall clientParameters,
           yielded (@Groq.stream C (fun _ => Js.Returned delivered)
                                 clientParameters input askParameters)
           = filter Js.truthyString texts
           /\ String.concat ""
                (yielded (@Groq.stream C (fun _ => Js.Returned delivered)
                                       clientParameters input askParameters))
              = String.concat "" texts
           /\ Forall (fun fragment => fragment <> "")
                     (yielded (@Groq.stream C (fun _ => Js.Returned delivered)
                                            clientParameters input askParameters))).
Proof.
  intros C input ap delivered texts.
  assert (Hnonempty :
            Forall (fun fragment => fragment <> "") (filter Js.truthyString texts)).
  { apply Forall_forall. intros f Hin. apply filter_In in Hin.
    destruct Hin as [_ Ht]. intros Hf. subst f. discriminate. }
  split; intros cp.
  - assert (Hy : yielded (@OpenAi.stream C (fun _ => Js.Returned delivered)
                                         cp input ap)
                 = filter Js.truthyString texts)
      by (unfold OpenAi.stream, iterate; cbn [yielded]; apply picked_contents).
    rewrite Hy. split; [reflexivity|].
    split; [apply concat_skips_empty | exact Hnonempty].
  - assert (Hy : yielded (@Groq.stream C (fun _ => Js.Returned delivered)
                                       cp input ap)
                 = filter Js.truthyString texts)
      by (unfold Groq.stream, iterate; cbn [yielded]; apply picked_contents).
    rewrite Hy. split; [reflexivity|].
    split; [apply concat_skips_empty | exact Hnonempty].
Qed.

(** Unlike [ask], the Groq stream passes a reasoning block on. *)
Lemma groq_stream_keeps_reasoning_markup :
  yielded (@Groq.stream Sample.collaborators
             (fun _ =>
                Js.Returned
                  (mkEventStream
                     [mkChatCompletion [Js.Defined "<think>plan</think>"];
                      mkChatCompletion [Js.Defined "ok"]]
                     None))
             (Sample.client Groq.qwen_qwen3_32b) "hi" Sample.sampling)
  = ["<think>plan</think>"; "ok"].
Proof. reflexivity. Qed.

(** ** What [stripThinking] and [trim] leave *)

Lemma dropStr_suffix (n : nat) (s : string) :
  exists p, s = p ++ Js.dropStr n s /\ String.length p = Nat.min n (String.length s).
Proof.
  revert s. induction n as [|n IH]; intros s.
  - exists "". split; reflexivity.
  - destruct s as [|c s].
    + exists "". split; reflexivity.
    + destruct (IH s) as [p [Hp Hl]]. exists (String c p). simpl.
      split; [rewrite <- Hp; reflexivity | rewrite Hl; reflexivity].
Qed.

(** X12. [stripThinking] only removes from the front: its result is a
    suffix of the text. Nothing is removed from a text that does not start
    with ["<think>"]; from one that does, at least the seven characters of
    the marker are removed, closed or not, and the result has no leading
    white space. *)
Theorem stripThinking_keeps_a_suffix :
  forall text : string,
  exists removed kept,
    text = removed ++ kept
    /\ Groq.stripThinking (Js.Defined text) = Js.Defined kept
    /\ (Js.startsWith text "<think>" = false -> removed = "")
    /\ (Js.startsWith text "<think>" = true ->
        7 <= String.length removed /\ noLeadingWhiteSpace kept = true).
Proof.
  intros text. unfold Groq.stripThinking.
  destruct (Js.startsWith text "<think>") eqn:Hstart.
  - unfold Js.startsWith in Hstart.
    destruct (prefix_split _ _ Hstart) as [rest Hrest].
    assert (Hlen : 7 <= String.length text)
      by (rewrite Hrest, length_append; simpl; lia).
    set (stop := (Js.lastIndexOf text "</think>"
                  + Z.of_nat (String.length "</think>"))%Z).
    assert (Hstop : (7 <= stop)%Z).
    { unfold stop. destruct (lastIndexOf_range text "</think>") as [H|H];
        [rewrite H|]; simpl; lia. }
    unfold Js.slice. fold stop.
    destruct (stop <? 0)%Z eqn:Hneg; [apply Z.ltb_lt in Hneg; lia|].
    set (from := Z.to_nat (Z.min stop (Z.of_nat (String.length text)))).
    destruct (dropStr_suffix from text) as [p [Hp Hpl]].
    destruct (trimStart_spec (Js.dropStr from text)) as [ws [Hws [_ Hno]]].
    exists (p ++ ws), (Js.trimStart (Js.dropStr from text)).
    split; [|split; [reflexivity | split; [discriminate|]]].
    + rewrite append_assoc, <- Hws. exact Hp.
    + intros _. split; [|exact Hno].
      rewrite length_append, Hpl. unfold from. lia.
  - exists "", text.
    split; [reflexivity | split; [reflexivity | split; [reflexivity | discriminate]]].
Qed.

Lemma stripThinking_keeps_a_suffix_witness :
  exists removed kept,
    "<think>plan</think>  ok" = removed ++ kept
    /\ Groq.stripThinking (Js.Defined "<think>plan</think>  ok") = Js.Defined kept
    /\ (Js.startsWith "<think>plan</think>  ok" "<think>" = false -> removed = "")
    /\ (Js.startsWith "<think>plan</think>  ok" "<think>" = true ->
        7 <= String.length removed /\ noLeadingWhiteSpace kept = true).
Proof. exact (stripThinking_keeps_a_suffix "<think>plan</think>  ok"). Defined.

Lemma trimEnd_no_trailing (s : string) :
  noTrailingWhiteSpace (Js.trimEnd s) = true.
Proof.
  induction s as [|c r IH]; [reflexivity|].
  cbn [Js.trimEnd].
  destruct (Js.isWhiteSpace c) eqn:Hc; cbn [andb].
  - destruct (Js.trimEnd r) as [|d r'] eqn:Hr; [reflexivity|].
    cbn [String.eqb]. exact IH.
  - destruct (Js.trimEnd r) as [|d r'] eqn:Hr.
    + cbn. rewrite Hc. reflexivity.
    + exact IH.
Qed.

Lemma trimEnd_keeps_start (s : string) :
  noLeadingWhiteSpace s = true -> noLeadingWhiteSpace (Js.trimEnd s) = true.
Proof.
  destruct s as [|c r]; [reflexivity|].
  cbn [noLeadingWhiteSpace Js.trimEnd]. intros Hc.
  apply Bool.negb_true_iff in Hc. rewrite Hc. cbn [andb noLeadingWhiteSpace].
  rewrite Hc. reflexivity.
Qed.

Lemma trim_is_trimmed (s : string) :
  noLeadingWhiteSpace (Js.trim s) = true
  /\ noTrailingWhiteSpace (Js.trim s) = true.
Proof.
  unfold Js.trim. split.
  - apply trimEnd_keeps_start.
    destruct (trimStart_spec s) as [ws [_ [_ H]]]. exact H.
  - apply trimEnd_no_trailing.
Qed.

(** X13. A text returned by Gemini's [ask] neither starts nor ends with
    white space. *)
Theorem gemini_ask_text_is_trimmed :
  forall (C : Collaborators) generateContent
         (clientParameters : ClientParameters.t string)
         (input : string) (askParameters : AskParameters.t) (answer : string),
    @Gemini.ask C generateContent clientParameters input askParameters
    = Js.Returned (Value answer) ->
    noLeadingWhiteSpace answer = true /\ noTrailingWhiteSpace answer = true.
Proof.
  intros C generateContent cp input ap answer. unfold Gemini.ask.
  match goal with
  | |- context [Js.bind ?call _] => destruct call as [response|v]
  end; cbn [Js.bind Js.tryCatch]; intros H;
    [|unfold returnError in H; destruct (handleError v); discriminate H].
  injection H as H. subst answer. apply trim_is_trimmed.
Qed.

Lemma gemini_ask_text_is_trimmed_witness :
  noLeadingWhiteSpace "ok" = true /\ noTrailingWhiteSpace "ok" = true.
Proof.
  apply (gemini_ask_text_is_trimmed
           Sample.collaborators
           (fun _ => Js.Returned (Gemini.mkResponse (Some "  ok  ")))
           (Sample.client "gemini-2.5-flash") "hi" Sample.sampling "ok").
  reflexivity.
Defined.

(** ** The request of [askJson] when the schema travels in the messages *)





